(** * The NSM admission webhook: decision engine and configuration

    A shallow embedding of [main.go] (package [main]: [Review], [unmarshal],
    [postProcessPodMeta], the four patch builders, [parseResources]) and of the
    [config] package ([Config], its one-time initializer and the accessors that
    trigger it), followed by the properties established about them.

    Go values are modelled as follows.
    - [string] is a Rocq [string] (a sequence of bytes);
    - [[]byte] is [list Byte.byte];
    - [map[string]T] is [gmap string T]; where the code distinguishes a nil
      map from an empty one the map sits under [option] and [None] is nil;
    - a pointer that may be nil is an [option];
    - a panic is the [Panic] outcome of the error monad [outcome]; code that
      also mutates the receiver or calls the API server runs in the
      state-and-panic monad [M];
    - functions of the Go standard library and of third-party packages whose
      code is not part of this repository (encoding/json, net/url, crypto/...,
      the API client, ...) are the fields of the record [World]. *)

From Stdlib Require Import ZArith Ascii String.
From stdpp Require Import base option list strings gmap fin_maps pretty.

Local Open Scope string_scope.
Local Open Scope list_scope.

Abbreviation bytes := (list Byte.byte).

(** ** Outcomes: normal return or panic *)

Inductive outcome (A : Type) : Type :=
| Ok (a : A)
| Panic (msg : string).
Arguments Ok {A} a.
Arguments Panic {A} msg.

#[global] Instance outcome_ret : MRet outcome := λ A a, Ok a.
#[global] Instance outcome_bind : MBind outcome := λ A B f m,
  match m with
  | Ok a => f a
  | Panic msg => Panic msg
  end.

(** State threaded through code that may panic.  The state reached at the
    moment of a panic is kept: a deferred store (as in [sync.Once]) and the
    calls already made to the outside world survive it. *)
Definition M (S A : Type) : Type := S → outcome A * S.

#[global] Instance M_ret {S} : MRet (M S) := λ A a s, (Ok a, s).
#[global] Instance M_bind {S} : MBind (M S) := λ A B f m s,
  match m s with
  | (Ok a, s') => f a s'
  | (Panic msg, s') => (Panic msg, s')
  end.

Definition get {S} : M S S := λ s, (Ok s, s).
Definition modify {S} (f : S → S) : M S unit := λ s, (Ok (), f s).
Definition panic {S A} (msg : string) : M S A := λ s, (Panic msg, s).
Definition liftO {S A} (o : outcome A) : M S A := λ s, (o, s).

(** [for _, x := range l { body x }] *)
Fixpoint forM_ {S A} (l : list A) (body : A → M S unit) : M S unit :=
  match l with
  | [] => mret ()
  | x :: l' => _ ← body x; forM_ l' body
  end.

(** ** The Go runtime and the [strings] package *)

(** [m[k]] on a possibly nil [map[string]string]: the zero value when the key
    is missing or the map is nil. *)
Definition map_get (m : option (gmap string string)) (k : string) : string :=
  default "" (m ≫= (.!! k)).

(** [strings.Split(s, sep)] for a separator of one byte, the only form the
    program uses ("=", "," and ":").  The result is never empty. *)
Fixpoint strings_Split (s : string) (sep : ascii) : list string :=
  match s with
  | EmptyString => [EmptyString]
  | String c s' =>
      if Ascii.eqb c sep then EmptyString :: strings_Split s' sep
      else match strings_Split s' sep with
           | [] => [String c EmptyString]
           | w :: ws => String c w :: ws
           end
  end.

(** [strings.ContainsRune(s, c)] for a one-byte [c]. *)
Fixpoint strings_Contains (s : string) (c : ascii) : bool :=
  match s with
  | EmptyString => false
  | String c' s' => Ascii.eqb c' c || strings_Contains s' c
  end.

(** Go's [int] is 64 bits wide on the platforms the webhook is built for;
    [x++] wraps around. *)
Definition int_wrap (x : Z) : Z := ((x + 2 ^ 63) mod 2 ^ 64 - 2 ^ 63)%Z.
Definition int_incr (x : Z) : Z := int_wrap (x + 1).

(** [strconv.Itoa] *)
Definition strconv_Itoa (n : Z) : string := pretty n.

(** ** Kubernetes API types (only the fields the program reads or writes) *)

(** [resource.Quantity], identified by its canonical text. *)
Inductive Quantity : Type := quantity (canonical : string).

(** [corev1.ResourceList]: [map[ResourceName]Quantity], [None] is nil. *)
Abbreviation ResourceList := (option (gmap string Quantity)).

Module EnvVar.
  (** [ValueFrom] is either nil or a field reference with the given
      [FieldPath]. *)
Record t := mk { Name : string; Value : string; ValueFrom : option string }.
End EnvVar.

Module VolumeMount.
Record t := mk { Name : string; MountPath : string; ReadOnly : bool }.
End VolumeMount.

Module ResourceRequirements.
Record t := mk { Limits : ResourceList; Requests : ResourceList }.
End ResourceRequirements.

Module SecurityContext.
Record t := mk {
    CapabilitiesDrop : list string;
    AllowPrivilegeEscalation : option bool }.
End SecurityContext.

Module Container.
Record t := mk {
    Name : string;
    Env : list EnvVar.t;
    Image : string;
    ImagePullPolicy : string;
    VolumeMounts : list VolumeMount.t;
    Resources : ResourceRequirements.t;
    SecurityContext : option SecurityContext.t }.
End Container.

(** [corev1.VolumeSource]: which member is set. *)
Inductive VolumeSource : Type :=
| NoSource
| CSI (Driver : string) (ReadOnly : option bool)
| HostPath (Path : string) (Type_ : option string).

Module Volume.
Record t := mk { Name : string; Source : VolumeSource }.
End Volume.

Module OwnerReference.
Record t := mk { Kind : string }.
End OwnerReference.

Module ObjectMeta.
Record t := mk {
    GenerateName : string;
    Labels : option (gmap string string);
    Annotations : option (gmap string string);
    OwnerReferences : list OwnerReference.t }.
End ObjectMeta.

Module PodSpec.
Record t := mk {
    Volumes : list Volume.t;
    InitContainers : list Container.t;
    Containers : list Container.t }.
End PodSpec.

(** [corev1.Pod] *)
Module Pod.
Record t := mk { Meta : ObjectMeta.t; Spec : PodSpec.t }.
End Pod.

(** [appsv1.Deployment], [appsv1.DaemonSet], [appsv1.StatefulSet] and
    [appsv1.ReplicaSet] all carry their own [ObjectMeta] and a
    [Spec.Template] made of an [ObjectMeta] and a [PodSpec]; one record
    stands for the four. *)
Module Workload.
Record t := mk {
    Meta : ObjectMeta.t;
    TemplateMeta : ObjectMeta.t;
    TemplateSpec : PodSpec.t }.
End Workload.

(** [corev1.Namespace] *)
Module Namespace.
Record t := mk {
    Labels : option (gmap string string);
    Annotations : option (gmap string string) }.
End Namespace.

(** ** Pod security admission levels ([k8s.io/pod-security-admission/api]) *)

Module psa.
Inductive Level := LevelPrivileged | LevelBaseline | LevelRestricted.

#[global] Instance Level_eq_dec : EqDecision Level.
Proof. solve_decision. Defined.

Definition EnforceLevelLabel : string := "pod-security.kubernetes.io/enforce".

  (** [ParseLevel]: the three level names are accepted, anything else is an
      error. *)
Definition ParseLevel (level : string) : option Level :=
    if String.eqb level "privileged" then Some LevelPrivileged
    else if String.eqb level "baseline" then Some LevelBaseline
    else if String.eqb level "restricted" then Some LevelRestricted
    else None.
End psa.

(** ** Admission review types and JSON Patch operations *)

Module AdmissionRequest.
Record t := mk {
    UID : string;
    Kind : string;             (* in.Kind.Kind *)
    Namespace : string;
    Operation : string;
    ObjectRaw : bytes }.       (* in.Object.Raw *)
End AdmissionRequest.

(** [v1.Status] *)
Module Status.
Record t := mk { Status : string }.
End Status.

Module AdmissionResponse.
Record t := mk {
    UID : string;
    Allowed : bool;
    Result : option Status.t;
    Patch : option bytes;            (* [None] is the nil slice *)
    PatchType : option string }.
End AdmissionResponse.

Definition Create : string := "CREATE".
Definition PatchTypeJSONPatch : string := "JSONPatch".

(** The dynamic [Value] of a patch operation. *)
Inductive PatchValue : Type :=
| ContainersValue (cs : list Container.t)
| VolumesValue (vs : list Volume.t)
| LabelsValue (m : option (gmap string string)).

Module JsonPatchOperation.
Record t := mk { Operation : string; Path : string; Value : PatchValue }.
End JsonPatchOperation.

(** [jsonpatch.NewOperation] *)
Definition NewOperation (op path : string) (value : PatchValue) : JsonPatchOperation.t :=
  JsonPatchOperation.mk op path value.

(** [x509.Certificate] as used for a template; [KeyUsage] is a bit set. *)
Module x509.
Definition KeyUsageDigitalSignature : Z := Z.shiftl 1 0.
Definition KeyUsageKeyEncipherment : Z := Z.shiftl 1 2.
Definition KeyUsageCertSign : Z := Z.shiftl 1 5.
Definition ExtKeyUsageServerAuth : Z := 1.

Record Certificate (Time : Type) := mk {
    SerialNumber : Z;
    SubjectCommonName : string;
    NotBefore : Time;
    NotAfter : Time;
    BasicConstraintsValid : bool;
    IsCA : bool;
    ExtKeyUsage : list Z;
    KeyUsage : Z;
    DNSNames : list string }.
Arguments mk {Time}.
Arguments SerialNumber {Time}.
Arguments SubjectCommonName {Time}.
Arguments NotBefore {Time}.
Arguments NotAfter {Time}.
Arguments BasicConstraintsValid {Time}.
Arguments IsCA {Time}.
Arguments ExtKeyUsage {Time}.
Arguments KeyUsage {Time}.
Arguments DNSNames {Time}.
End x509.

(** ** The outside world

    Library functions and collaborators the program calls but does not
    define.  A function whose error the program turns into a message returns
    [A + string] ([inr] is the error text); one whose error is only tested
    returns an [option]. *)
Record World := {
  (* encoding/json *)
  json_Unmarshal_Pod : bytes → option Pod.t;
  json_Unmarshal_Workload : string → bytes → option Workload.t;
  json_Marshal : list JsonPatchOperation.t → bytes + string;
  (* path *)
  path_Join : list string → string;
  path_Base : string → string;
  (* net/url and sdk/pkg/tools/nsurl *)
  URL : Type;
  url_Parse : string → option URL;
  NSURL_Labels : URL → gmap string string;
  (* apimachinery/pkg/api/resource *)
  resource_ParseQuantity : string → option Quantity;
  (* google/uuid: the string the next call of [uuid.NewString] returns *)
  uuid_NewString : string;
  (* client-go: [clientset.CoreV1().Namespaces().Get]; the pointer returned *)
  Namespaces_Get : string → option Namespace.t;
  (* time *)
  Time : Type;
  time_Now : Time;
  time_AddDate : Time → Z → Z → Z → Time;
  time_Unix : Time → Z;
  (* crypto/rsa, crypto/x509, encoding/pem, crypto/tls *)
  PrivateKey : Type;
  TLSCertificate : Type;
  rsa_GenerateKey : Z → PrivateKey + string;
  x509_CreateCertificate : x509.Certificate Time → PrivateKey → bytes + string;
  x509_MarshalPKCS1PrivateKey : PrivateKey → bytes;
  pem_EncodeToMemory : string → bytes → bytes;
  tls_X509KeyPair : bytes → bytes → TLSCertificate + string;
  tls_LoadX509KeyPair : string → string → TLSCertificate + string;
  (* os *)
  os_ReadFile : string → bytes + string }.

(** [resource.MustParse] *)
Definition resource_MustParse (W : World) (s : string) : outcome Quantity :=
  match resource_ParseQuantity W s with
  | Some q => Ok q
  | None => Panic ("cannot parse '" +:+ s +:+ "'")
  end.

(** ** Package [config] *)

Module config.

  (** [Mode]: [SpireMode] is 0, [SelfregisterMode] is 1. *)
Inductive Mode := SpireMode | SelfregisterMode.

#[global] Instance Mode_eq_dec : EqDecision Mode.
Proof. solve_decision. Defined.

Section WithWorld.
Context (W : World).

  (** The fields of [Config] used outside [main()]: the settings read from
      the environment, then the memoized values and the [sync.Once] flag. *)
Record Config := mkConfig {
    ServiceName : string;
    Namespace : string;
    Annotation : string;
    Labels : gmap string string;
    NSURLEnvName : string;
    InitContainerImages : list string;
    ContainerImages : list string;
    Envs : list string;
    WebhookMode : Mode;
    CertFilePath : string;
    KeyFilePath : string;
    CABundleFilePath : string;
    SidecarLimitsMemory : string;
    SidecarLimitsCPU : string;
    SidecarRequestsMemory : string;
    SidecarRequestsCPU : string;
    envs : list EnvVar.t;
    caBundle : bytes;
    cert : option (TLSCertificate W);   (* [None] is the zero [tls.Certificate] *)
    once : bool }.

Definition with_memo (c : Config) (e : list EnvVar.t) (b : bytes)
      (k : option (TLSCertificate W)) (o : bool) : Config :=
    mkConfig (ServiceName c) (Namespace c) (Annotation c) (Labels c)
      (NSURLEnvName c) (InitContainerImages c) (ContainerImages c) (Envs c)
      (WebhookMode c) (CertFilePath c) (KeyFilePath c) (CABundleFilePath c)
      (SidecarLimitsMemory c) (SidecarLimitsCPU c) (SidecarRequestsMemory c)
      (SidecarRequestsCPU c) e b k o.

Definition set_envs (e : list EnvVar.t) (c : Config) : Config :=
    with_memo c e (caBundle c) (cert c) (once c).
Definition set_caBundle (b : bytes) (c : Config) : Config :=
    with_memo c (envs c) b (cert c) (once c).
Definition set_cert (k : TLSCertificate W) (c : Config) : Config :=
    with_memo c (envs c) (caBundle c) (Some k) (once c).
Definition set_once (c : Config) : Config :=
    with_memo c (envs c) (caBundle c) (cert c) true.

  (** [IsExistingCertificatesUsed] *)
Definition IsExistingCertificatesUsed (c : Config) : bool :=
    negb (String.eqb (CertFilePath c) "") && negb (String.eqb (KeyFilePath c) "").

  (** One iteration of the loop of [initializeEnvs]: [kv[0]] always exists,
      [kv[1]] is out of range when [envRaw] has no "=". *)
Definition appendEnv (envRaw : string) : M Config unit :=
    let kv := strings_Split envRaw "=" in
    match kv !! 0%nat, kv !! 1%nat with
    | Some k, Some v =>
        modify (λ c, set_envs (envs c ++ [EnvVar.mk k v None]) c)
    | _, _ => panic "runtime error: index out of range [1] with length 1"
    end.

  (** The two env vars appended after the configured ones. *)
Definition bootstrapEnvs : list EnvVar.t :=
    [ EnvVar.mk "SPIFFE_ENDPOINT_SOCKET" "unix:///run/spire/sockets/agent.sock" None;
      EnvVar.mk "POD_NAME" "" (Some "metadata.name") ].

Definition initializeEnvs : M Config unit :=
    c ← get;
    _ ← forM_ (Envs c) appendEnv;
    modify (λ c, set_envs (envs c ++ bootstrapEnvs) c).

Definition initializeCABundle : M Config unit :=
    c ← get;
    if decide (WebhookMode c ≠ SelfregisterMode) then mret ()
    else if negb (length (caBundle c) =? 0)%nat then mret ()
    else match os_ReadFile W (CABundleFilePath c) with
         | inr err => panic err
         | inl r => modify (set_caBundle r)
         end.

  (** The template built by [selfSignedInMemoryCertificate]. *)
Definition certTemplate (c : Config) (now : Time W) : x509.Certificate (Time W) :=
    x509.mk
      (time_Unix W now)
      ("networkservicemesh." +:+ ServiceName c +:+ "-ca")
      now
      (time_AddDate W now 1 0 0)
      true
      true
      [x509.ExtKeyUsageServerAuth]
      (Z.lor (Z.lor x509.KeyUsageKeyEncipherment x509.KeyUsageDigitalSignature)
             x509.KeyUsageCertSign)
      [ ServiceName c +:+ "." +:+ Namespace c;
        ServiceName c +:+ "." +:+ Namespace c +:+ ".svc" ].

Definition selfSignedInMemoryCertificate : M Config (TLSCertificate W) :=
    c ← get;
    let now := time_Now W in
    let template := certTemplate c now in
    match rsa_GenerateKey W 2048 with
    | inr err => panic err
    | inl privateKey =>
      match x509_CreateCertificate W template privateKey with
      | inr err => panic err
      | inl certRaw =>
        let pemCert := pem_EncodeToMemory W "CERTIFICATE" certRaw in
        let pemKey := pem_EncodeToMemory W "RSA PRIVATE KEY"
                        (x509_MarshalPKCS1PrivateKey W privateKey) in
        match tls_X509KeyPair W pemCert pemKey with
        | inr err => panic err
        | inl result =>
            _ ← modify (set_caBundle pemCert);
            mret result
        end
      end
    end.

Definition initializeCert : M Config unit :=
    c ← get;
    if IsExistingCertificatesUsed c then
      match tls_LoadX509KeyPair W (CertFilePath c) (KeyFilePath c) with
      | inr err => panic err
      | inl k => modify (set_cert k)
      end
    else if decide (WebhookMode c = SelfregisterMode) then
      k ← selfSignedInMemoryCertificate;
      modify (set_cert k)
    else mret ().

Definition initialize : M Config unit :=
    _ ← initializeEnvs;
    _ ← initializeCert;
    initializeCABundle.

  (** [c.once.Do(f)]: [f] runs only if the flag is clear, and the flag is set
      when [f] returns or panics. *)
Definition once_Do (f : M Config unit) : M Config unit :=
    λ c, if once c then (Ok (), c)
         else let '(r, c') := f c in (r, set_once c').

Definition GetOrResolveEnvs : M Config (list EnvVar.t) :=
    _ ← once_Do initialize; c ← get; mret (envs c).

Definition GetOrResolveCABundle : M Config bytes :=
    _ ← once_Do initialize; c ← get; mret (caBundle c).

Definition GetOrResolveCertificate : M Config (option (TLSCertificate W)) :=
    _ ← once_Do initialize; c ← get; mret (cert c).

End WithWorld.

Arguments ServiceName {W}.
Arguments Namespace {W}.
Arguments Annotation {W}.
Arguments Labels {W}.
Arguments NSURLEnvName {W}.
Arguments InitContainerImages {W}.
Arguments ContainerImages {W}.
Arguments Envs {W}.
Arguments WebhookMode {W}.
Arguments CertFilePath {W}.
Arguments KeyFilePath {W}.
Arguments CABundleFilePath {W}.
Arguments SidecarLimitsMemory {W}.
Arguments SidecarLimitsCPU {W}.
Arguments SidecarRequestsMemory {W}.
Arguments SidecarRequestsCPU {W}.
Arguments envs {W}.
Arguments caBundle {W}.
Arguments cert {W}.
Arguments once {W}.
End config.

(** ** Package [main] *)

Module main.

Section WithWorld.
Context (W : World).

(** What a request handler can change: the [Config] behind [s.config]
    (its memoized values) and the calls made through [s.clientset], recorded
    as the namespace names asked for, oldest first.  Logging is not
    modelled. *)
Record admissionWebhookServer := mkServer {
  config_ : config.Config W;
  namespaceGets : list string }.

Definition set_config (c : config.Config W) (s : admissionWebhookServer) :=
  mkServer c (namespaceGets s).

(** Run a method of [s.config]. *)
Definition onConfig {A} (m : M (config.Config W) A) : M admissionWebhookServer A :=
  λ s, let '(r, c') := m (config_ s) in (r, set_config c' s).

(** [s.clientset.CoreV1().Namespaces().Get(timeoutCtx, name, ...)] *)
Definition getNamespace (name : string) : M admissionWebhookServer (option Namespace.t) :=
  λ s, (Ok (Namespaces_Get W name),
        mkServer (config_ s) (namespaceGets s ++ [name])).

Definition psaLevelByNamespace (namespace : option Namespace.t) : psa.Level :=
  match namespace with
  | None => psa.LevelPrivileged
  | Some ns =>
      match psa.ParseLevel (map_get (Namespace.Labels ns) psa.EnforceLevelLabel) with
      | None => psa.LevelPrivileged
      | Some level => level
      end
  end.

Definition set_Labels (l : option (gmap string string)) (m : ObjectMeta.t) : ObjectMeta.t :=
  ObjectMeta.mk (ObjectMeta.GenerateName m) l (ObjectMeta.Annotations m)
    (ObjectMeta.OwnerReferences m).
Definition set_Annotations (a : option (gmap string string)) (m : ObjectMeta.t) : ObjectMeta.t :=
  ObjectMeta.mk (ObjectMeta.GenerateName m) (ObjectMeta.Labels m) a
    (ObjectMeta.OwnerReferences m).

(** The loop over [metaPtr.OwnerReferences]: is some owner a Deployment? *)
Definition ownedByDeployment (refs : list OwnerReference.t) : bool :=
  existsb (λ o, String.eqb (OwnerReference.Kind o) "Deployment") refs.

(** [postProcessPodMeta] updates the object behind [podMetaPtr] in place and
    returns either that pointer or nil.  The result is the object after the
    call, paired with [true] when the pointer returned is [podMetaPtr] and
    [false] when it is nil.  [metaPtr] is nil for a Pod; dereferencing it
    would panic. *)
Definition postProcessPodMeta (podMeta : ObjectMeta.t) (metaPtr : option ObjectMeta.t)
    (kind : string) : outcome (ObjectMeta.t * bool) :=
  let nilDeref := Panic "invalid memory address or nil pointer dereference" in
  let podMeta :=
    match ObjectMeta.Labels podMeta with
    | None => set_Labels (Some ∅) podMeta
    | Some _ => podMeta
    end in
  (* [if kind == "ReplicaSet" { ... }; return podMetaPtr] *)
  let ownerCheck (podMeta : ObjectMeta.t) :=
    if String.eqb kind "ReplicaSet" then
      match metaPtr with
      | Some meta =>
          if ownedByDeployment (ObjectMeta.OwnerReferences meta)
          then Ok (podMeta, false)
          else Ok (podMeta, true)
      | None => nilDeref
      end
    else Ok (podMeta, true) in
  (* Annotations shouldn't be applied second time. *)
  if negb (String.eqb kind "Pod") then
    match ObjectMeta.Annotations podMeta with
    | None =>
        match metaPtr with
        | Some meta =>
            ownerCheck (set_Annotations (ObjectMeta.Annotations meta) podMeta)
        | None => nilDeref
        end
    | Some _ => Ok (podMeta, false)
    end
  else ownerCheck podMeta.

(** What the [switch] of [unmarshal] and [json.Unmarshal] leave behind for a
    kind with a pod template: [metaPtr], the object behind [podMetaPtr], and
    the pod spec; [None] when decoding fails. *)
Definition decodeWorkload (kind : string) (raw : bytes)
    : option (option ObjectMeta.t * ObjectMeta.t * PodSpec.t) :=
  match json_Unmarshal_Workload W kind raw with
  | Some w => Some (Some (Workload.Meta w), Workload.TemplateMeta w,
                    Workload.TemplateSpec w)
  | None => None
  end.

(** The same for a Pod, where [metaPtr] stays nil. *)
Definition decodePod (raw : bytes)
    : option (option ObjectMeta.t * ObjectMeta.t * PodSpec.t) :=
  match json_Unmarshal_Pod W raw with
  | Some pod => Some (None, Pod.Meta pod, Pod.Spec pod)
  | None => None
  end.

(** [unmarshal]: [None] stands for the result [(nil, nil)]. *)
Definition unmarshal (in_ : AdmissionRequest.t)
    : outcome (option (ObjectMeta.t * PodSpec.t)) :=
  let kind := AdmissionRequest.Kind in_ in
  let raw := AdmissionRequest.ObjectRaw in_ in
  let decoded :=
    if String.eqb kind "Deployment" then decodeWorkload kind raw
    else if String.eqb kind "Pod" then decodePod raw
    else if String.eqb kind "DaemonSet" then decodeWorkload kind raw
    else if String.eqb kind "StatefulSet" then decodeWorkload kind raw
    else if String.eqb kind "ReplicaSet" then decodeWorkload kind raw
    else None in
  match decoded with
  | None => Ok None
  | Some (metaPtr, podMeta, podSpec) =>
      '(podMeta, ok) ← postProcessPodMeta podMeta metaPtr kind;
      if (ok : bool) then Ok (Some (podMeta, podSpec)) else Ok None
  end.

Definition csiVolumes : list Volume.t :=
  [ Volume.mk "spire-agent-socket" (CSI "csi.spiffe.io" (Some true));
    Volume.mk "nsm-socket" (CSI "csi.networkservicemesh.io" (Some true)) ].

Definition HostPathDirectory : string := "Directory".

Definition hostPathVolumes : list Volume.t :=
  [ Volume.mk "spire-agent-socket"
      (HostPath "/run/spire/sockets" (Some HostPathDirectory));
    Volume.mk "nsm-socket"
      (HostPath "/var/lib/networkservicemesh" (Some HostPathDirectory)) ].

Definition createVolumesPatch (p : string) (volumes : list Volume.t)
    (psaLevel : psa.Level) : JsonPatchOperation.t :=
  let volumes :=
    if decide (psaLevel ≠ psa.LevelPrivileged)
    then volumes ++ csiVolumes
    else volumes ++ hostPathVolumes in
  NewOperation "add" (path_Join W [p; "spec"; "volumes"]) (VolumesValue volumes).

(** One iteration of the second loop of [parseResources].
    [interfacePools[0]] exists because [strings.Split] never returns an
    empty slice. *)
Definition countToken (poolResources : gmap string Z) (nsmURL : URL W) : gmap string Z :=
  let labels := NSURL_Labels W nsmURL in
  match labels !! "sriovToken" with
  | Some tokens =>
      let interfacePools := strings_Split tokens "," in
      let pool := default "" (interfacePools !! 0%nat) in
      <[pool := int_incr (default 0%Z (poolResources !! pool))]> poolResources
  | None => poolResources
  end.

(** [parseResources]: [None] is the nil map returned on a malformed token. *)
Definition parseResources (v : string) : option (gmap string Z) :=
  match mapM (url_Parse W) (strings_Split v ",") with
  | None => None
  | Some nsmURLs => Some (foldl countToken ∅ nsmURLs)
  end.

Definition nameOf (img : string) : string :=
  default "" (strings_Split (path_Base W img) ":" !! 0%nat).

Definition set_Resources (r : ResourceRequirements.t) (c : Container.t) : Container.t :=
  Container.mk (Container.Name c) (Container.Env c) (Container.Image c)
    (Container.ImagePullPolicy c) (Container.VolumeMounts c) r
    (Container.SecurityContext c).
Definition set_VolumeMounts (v : list VolumeMount.t) (c : Container.t) : Container.t :=
  Container.mk (Container.Name c) (Container.Env c) (Container.Image c)
    (Container.ImagePullPolicy c) v (Container.Resources c)
    (Container.SecurityContext c).
Definition set_SecurityContext (x : option SecurityContext.t) (c : Container.t) : Container.t :=
  Container.mk (Container.Name c) (Container.Env c) (Container.Image c)
    (Container.ImagePullPolicy c) (Container.VolumeMounts c) (Container.Resources c) x.

(** One iteration of the loop of [addResources]. *)
Definition addResource (key : string) (value : Z) (c : Container.t) : outcome Container.t :=
  let limits :=
    match ResourceRequirements.Limits (Container.Resources c) with
    | None => ∅
    | Some l => l
    end in
  q ← resource_MustParse W (strconv_Itoa value);
  Ok (set_Resources
        (ResourceRequirements.mk (Some (<[key := q]> limits))
           (ResourceRequirements.Requests (Container.Resources c))) c).

(** [addResources]; ranging over a nil map does nothing. *)
Definition addResources (c : Container.t) (r : option (gmap string Z)) : outcome Container.t :=
  map_fold (λ key value acc, acc ≫= addResource key value) (Ok c) (default ∅ r).

Definition addResourcesLimits (cfg : config.Config W) (c : Container.t) : outcome Container.t :=
  lcpu ← resource_MustParse W (config.SidecarLimitsCPU cfg);
  lmem ← resource_MustParse W (config.SidecarLimitsMemory cfg);
  rcpu ← resource_MustParse W (config.SidecarRequestsCPU cfg);
  rmem ← resource_MustParse W (config.SidecarRequestsMemory cfg);
  Ok (set_Resources
        (ResourceRequirements.mk
           (Some (<["cpu" := lcpu]> (<["memory" := lmem]> ∅)))
           (Some (<["cpu" := rcpu]> (<["memory" := rmem]> ∅)))) c).

Definition addVolumeMounts (c : Container.t) : Container.t :=
  set_VolumeMounts
    (Container.VolumeMounts c ++
       [ VolumeMount.mk "spire-agent-socket" "/run/spire/sockets" true;
         VolumeMount.mk "nsm-socket" "/var/lib/networkservicemesh" true ]) c.

Definition PullIfNotPresent : string := "IfNotPresent".

(** The security context required by the restricted policy. *)
Definition restrictedContext : SecurityContext.t :=
  SecurityContext.mk ["ALL"] (Some false).

(** [f(&l[len(l)-1])]: update the last element in place. *)
Definition onLast {A} (l : list A) (f : A → outcome A) : outcome (list A) :=
  match last l with
  | None => Panic "runtime error: index out of range [-1]"
  | Some x => x' ← f x; Ok (<[pred (length l) := x']> l)
  end.

(** The container appended for an image, before the calls that fill it in. *)
Definition sidecarContainer (img : string) (envVars : list EnvVar.t) : Container.t :=
  Container.mk (nameOf img) envVars img PullIfNotPresent []
    (ResourceRequirements.mk None None) None.

(** One iteration of the loop of [createInitContainerPatch]. *)
Definition appendInitContainer (cfg : config.Config W)
    (poolResources : option (gmap string Z)) (psaLevel : psa.Level)
    (envVars : list EnvVar.t) (acc : outcome (list Container.t)) (img : string)
    : outcome (list Container.t) :=
  initContainers ← acc;
  let initContainers := initContainers ++ [sidecarContainer img envVars] in
  initContainers ← onLast initContainers (λ c, Ok (addVolumeMounts c));
  initContainers ← onLast initContainers (λ c, addResources c poolResources);
  initContainers ← onLast initContainers (addResourcesLimits cfg);
  (* SecurityContext is required by the k8s restricted policy *)
  if decide (psaLevel = psa.LevelRestricted)
  then onLast initContainers
         (λ c, Ok (set_SecurityContext (Some restrictedContext) c))
  else Ok initContainers.

Definition createInitContainerPatch (cfg : config.Config W) (p v : string)
    (initContainers : list Container.t) (psaLevel : psa.Level)
    (envVars : list EnvVar.t) : outcome JsonPatchOperation.t :=
  let poolResources := parseResources v in
  initContainers ←
    foldl (appendInitContainer cfg poolResources psaLevel envVars)
      (Ok initContainers) (config.InitContainerImages cfg);
  Ok (NewOperation "add" (path_Join W [p; "spec"; "initContainers"])
        (ContainersValue initContainers)).

(** One iteration of the loop of [createContainerPatch]. *)
Definition appendContainer (cfg : config.Config W) (psaLevel : psa.Level)
    (envVars : list EnvVar.t) (acc : outcome (list Container.t)) (img : string)
    : outcome (list Container.t) :=
  containers ← acc;
  let containers := containers ++ [sidecarContainer img envVars] in
  containers ← onLast containers (λ c, Ok (addVolumeMounts c));
  containers ← onLast containers (addResourcesLimits cfg);
  (* SecurityContext is required by the k8s restricted policy *)
  if decide (psaLevel = psa.LevelRestricted)
  then onLast containers
         (λ c, Ok (set_SecurityContext (Some restrictedContext) c))
  else Ok containers.

Definition createContainerPatch (cfg : config.Config W) (p : string)
    (containers : list Container.t) (psaLevel : psa.Level)
    (envVars : list EnvVar.t) : outcome JsonPatchOperation.t :=
  containers ←
    foldl (appendContainer cfg psaLevel envVars)
      (Ok containers) (config.ContainerImages cfg);
  Ok (NewOperation "add" (path_Join W [p; "spec"; "containers"])
        (ContainersValue containers)).

(** [v[key] = value]; assignment to an entry of a nil map panics. *)
Definition map_assign (v : option (gmap string string)) (key value : string)
    : outcome (option (gmap string string)) :=
  match v with
  | None => Panic "assignment to entry in nil map"
  | Some m => Ok (Some (<[key := value]> m))
  end.

Definition createLabelPatch (cfg : config.Config W) (p : string)
    (v : option (gmap string string)) : outcome JsonPatchOperation.t :=
  v ← map_fold (λ key value acc, acc ≫= λ v, map_assign v key value)
        (Ok v) (config.Labels cfg);
  Ok (NewOperation "add" (path_Join W [p; "metadata"; "labels"]) (LabelsValue v)).

(** The array literal handed to [json.Marshal] in [Review]; its elements are
    evaluated in order. *)
Definition patchOperations (cfg : config.Config W) (p annotation : string)
    (podMeta : ObjectMeta.t) (spec : PodSpec.t) (psaLevel : psa.Level)
    (envVars : list EnvVar.t) : outcome (list JsonPatchOperation.t) :=
  o1 ← createInitContainerPatch cfg p annotation (PodSpec.InitContainers spec)
         psaLevel envVars;
  o2 ← createContainerPatch cfg p (PodSpec.Containers spec) psaLevel envVars;
  let o3 := createVolumesPatch p (PodSpec.Volumes spec) psaLevel in
  o4 ← createLabelPatch cfg p (ObjectMeta.Labels podMeta);
  Ok [o1; o2; o3; o4].

Definition allow (resp : AdmissionResponse.t) : AdmissionResponse.t :=
  AdmissionResponse.mk (AdmissionResponse.UID resp) true
    (AdmissionResponse.Result resp) (AdmissionResponse.Patch resp)
    (AdmissionResponse.PatchType resp).

(** The env vars handed to every injected container. *)
Definition sidecarEnvVars (cfg : config.Config W) (envs : list EnvVar.t)
    (annotation : string) (podMeta : ObjectMeta.t) : list EnvVar.t :=
  let nsmNameEnv :=
    if String.eqb (ObjectMeta.GenerateName podMeta) ""
    then EnvVar.mk "NSM_NAME" ("$(POD_NAME)-" +:+ uuid_NewString W) None
    else EnvVar.mk "NSM_NAME" "$(POD_NAME)" None in
  envs ++ [EnvVar.mk (config.NSURLEnvName cfg) annotation None; nsmNameEnv].

(** The branch [if annotation != "" { ... }] of [Review] together with the
    two statements after it (main.go lines 117 to 146, entered with a
    non-empty [annotation]). *)
Definition injectSidecars (resp : AdmissionResponse.t) (p annotation : string)
    (podMeta : ObjectMeta.t) (spec : PodSpec.t) (namespace : option Namespace.t)
    : M admissionWebhookServer AdmissionResponse.t :=
  envs ← onConfig (config.GetOrResolveEnvs W);
  s ← get;
  let cfg := config_ s in
  let envVars := sidecarEnvVars cfg envs annotation podMeta in
  let psaLevel := psaLevelByNamespace namespace in
  ops ← liftO (patchOperations cfg p annotation podMeta spec psaLevel envVars);
  match json_Marshal W ops with
  | inr err =>
      mret (AdmissionResponse.mk (AdmissionResponse.UID resp)
              (AdmissionResponse.Allowed resp) (Some (Status.mk err))
              (AdmissionResponse.Patch resp) (AdmissionResponse.PatchType resp))
  | inl patch =>
      mret (allow (AdmissionResponse.mk (AdmissionResponse.UID resp)
                     (AdmissionResponse.Allowed resp) (AdmissionResponse.Result resp)
                     (Some patch) (Some PatchTypeJSONPatch)))
  end.

Definition Review (in_ : AdmissionRequest.t)
    : M admissionWebhookServer AdmissionResponse.t :=
  let resp := AdmissionResponse.mk (AdmissionRequest.UID in_) false None None None in
  let kind := AdmissionRequest.Kind in_ in
  if negb (String.eqb (AdmissionRequest.Operation in_) Create) then mret (allow resp)
  else
    view ← liftO (unmarshal in_);
    let p := if negb (String.eqb kind "Pod") then "/spec/template" else "" in
    let p := path_Join W ["/"; p] in
    namespace ← getNamespace (AdmissionRequest.Namespace in_);
    match view with
    | None => mret (allow resp)
    | Some (podMeta, spec) =>
        s ← get;
        let key := config.Annotation (config_ s) in
        let annotation := map_get (ObjectMeta.Annotations podMeta) key in
        if String.eqb annotation "" && negb (String.eqb kind "Pod")
        then mret (allow resp)
        else
          (* use namespace annotation only if resource doesn't have its own *)
          let annotation :=
            match namespace with
            | Some ns =>
                if String.eqb annotation "" && String.eqb kind "Pod"
                then map_get (Namespace.Annotations ns) key
                else annotation
            | None => annotation
            end in
          if negb (String.eqb annotation "")
          then injectSidecars resp p annotation podMeta spec namespace
          else mret (allow resp)
    end.

End WithWorld.
End main.

(** ** [Mode.Decode] *)

(** [strings.ToLower].  A string of ASCII bytes only is returned as it is
    when it has no upper-case letter and is otherwise lowered byte by byte;
    any other string goes through [strings.Map(unicode.ToLower, s)], which is
    left as the parameter [mapLower]. *)
Definition isUpper (c : ascii) : bool :=
  Nat.leb 65 (nat_of_ascii c) && Nat.leb (nat_of_ascii c) 90.

Definition lowerByte (c : ascii) : ascii :=
  if isUpper c then ascii_of_nat (nat_of_ascii c + 32) else c.

Fixpoint allASCII (s : string) : bool :=
  match s with
  | EmptyString => true
  | String c s' => Nat.ltb (nat_of_ascii c) 128 && allASCII s'
  end.

Fixpoint hasUpper (s : string) : bool :=
  match s with
  | EmptyString => false
  | String c s' => isUpper c || hasUpper s'
  end.

Fixpoint lowerBytes (s : string) : string :=
  match s with
  | EmptyString => EmptyString
  | String c s' => String (lowerByte c) (lowerBytes s')
  end.

Definition strings_ToLower (mapLower : string → string) (s : string) : string :=
  if allASCII s then (if negb (hasUpper s) then s else lowerBytes s)
  else mapLower s.

(** [(md *Mode) Decode(mode)]: the mode behind [md] after the call, and the
    error returned ([None] is nil). *)
Definition Mode_Decode (mapLower : string → string) (md : config.Mode)
    (mode : string) : config.Mode * option string :=
  let lower := strings_ToLower mapLower mode in
  if String.eqb lower "selfregister" then (config.SelfregisterMode, None)
  else if String.eqb lower "spire" then (config.SpireMode, None)
  else (md, Some ("not a valid webhook mode: " +:+ mode)).

(** ** [prepareTLSConfig] *)

(** The workload API of go-spiffe and the context, as [prepareTLSConfig] sees
    them: the result of [workloadapi.NewX509Source], whether [ctx.Done()] is
    ready at the [select], and the error [source.Close()] returns ([None] is
    nil). *)
Record Identity := {
  X509Source : Type;
  workloadapi_NewX509Source : X509Source + string;
  ctx_Done : bool;
  X509Source_Close : X509Source → option string }.

(** [tls.Config]: [GetCertificate] is either nil or the callback built from a
    source; an element of [Certificates] that is [None] is the zero
    [tls.Certificate]. *)
Module tlsConfig.
Record t (W : World) (I : Identity) := mk {
  MinVersion : Z;
  GetCertificate : option (X509Source I);
  Certificates : list (option (TLSCertificate W)) }.
Arguments mk {W I}.
Arguments MinVersion {W I}.
Arguments GetCertificate {W I}.
Arguments Certificates {W I}.
End tlsConfig.

Definition VersionTLS12 : Z := 771.

Definition prepareTLSConfig (W : World) (I : Identity)
    : M (config.Config W) (tlsConfig.t W I + string) :=
  c ← get;
  if bool_decide (config.WebhookMode c = config.SpireMode)
     && negb (config.IsExistingCertificatesUsed W c)
  then
    match workloadapi_NewX509Source I with
    | inr err => mret (inr ("error getting x509 source: " +:+ err))
    | inl source =>
        let tlsConfig := tlsConfig.mk VersionTLS12 (Some source) [] in
        if ctx_Done I then
          (* err = source.Close(); logger.Errorf(..., err.Error()) *)
          match X509Source_Close I source with
          | Some err => mret (inl tlsConfig)
          | None => panic "invalid memory address or nil pointer dereference"
          end
        else mret (inl tlsConfig)
    end
  else
    cert ← config.GetOrResolveCertificate W;
    mret (inl (tlsConfig.mk VersionTLS12 None [cert])).

(** ** Concrete worlds and inputs

    A small, fully computable instance of [World], used to run the model on
    concrete requests.  Its decoders return fixed objects, its query reader
    understands a single [key=value] pair after "?", every quantity parses,
    and its key pair check succeeds. *)

Definition readQuery (u : string) : gmap string string :=
  match strings_Split u "?" with
  | [_; q] =>
      match strings_Split q "=" with
      | [k; v] => {[ k := v ]}
      | _ => ∅
      end
  | _ => ∅
  end.

Definition fixedWorld (pod : option Pod.t) (workload : option Workload.t)
    (namespace : option Namespace.t)
    (marshal : list JsonPatchOperation.t → bytes + string) : World :=
  {| json_Unmarshal_Pod := λ _, pod;
     json_Unmarshal_Workload := λ _ _, workload;
     json_Marshal := marshal;
     path_Join := String.concat "/";
     path_Base := λ img, img;
     URL := string;
     url_Parse := λ raw, Some raw;
     NSURL_Labels := readQuery;
     resource_ParseQuantity := λ s, Some (quantity s);
     uuid_NewString := "3f0c1a6e-5d2b-4c57-9f1e-7a8b9c0d1e2f";
     Namespaces_Get := λ _, namespace;
     Time := Z;
     time_Now := 1700000000%Z;
     time_AddDate := λ t y m d, (t + 31536000 * y + 2592000 * m + 86400 * d)%Z;
     time_Unix := λ t, t;
     PrivateKey := Z;
     TLSCertificate := bytes * bytes;
     rsa_GenerateKey := λ bits, inl 65537%Z;
     x509_CreateCertificate := λ template key, inl [Byte.x30; Byte.x82];
     x509_MarshalPKCS1PrivateKey := λ key, [Byte.x30; Byte.x81];
     pem_EncodeToMemory := λ type block, Byte.x2d :: block;
     tls_X509KeyPair := λ certPEM keyPEM, inl (certPEM, keyPEM);
     tls_LoadX509KeyPair := λ _ _, inr "open : no such file or directory";
     os_ReadFile := λ _, inr "open : no such file or directory" |}.

Definition marshalOk (ops : list JsonPatchOperation.t) : bytes + string :=
  inl [Byte.x5b; Byte.x5d].
Definition marshalFails (ops : list JsonPatchOperation.t) : bytes + string :=
  inr "json: unsupported value".

(** The configuration with the defaults of the struct tags, one init
    container image and one container image. *)
Definition defaultConfig (W : World) (envs : list string) (mode : config.Mode)
    : config.Config W :=
  config.mkConfig W "default" "default" "networkservicemesh.io" {[ "nsm" := "true" ]}
    "NSM_NETWORK_SERVICES" ["ghcr.io/networkservicemesh/cmd-nsc-init:v1"]
    ["ghcr.io/networkservicemesh/cmd-nsc:v1"] envs mode "" "" ""
    "80Mi" "200m" "40Mi" "100m" [] [] None false.

Definition emptySpec : PodSpec.t := PodSpec.mk [] [] [].

Definition annotated (value : string) : option (gmap string string) :=
  Some {[ "networkservicemesh.io" := value ]}.

Definition createRequest (kind : string) : AdmissionRequest.t :=
  AdmissionRequest.mk "705ab4f5-6393-11e8-b7cc-42010a800002" kind "ns-1" Create [].

(** A world whose [url.Parse] rejects a token containing a space, and whose
    key generation and file reads fail. *)
Definition pickyWorld : World :=
  {| json_Unmarshal_Pod := λ _, None;
     json_Unmarshal_Workload := λ _ _, None;
     json_Marshal := marshalOk;
     path_Join := String.concat "/";
     path_Base := λ img, img;
     URL := string;
     url_Parse := λ raw, if strings_Contains raw " " then None else Some raw;
     NSURL_Labels := readQuery;
     resource_ParseQuantity :=
       λ s, if strings_Contains s " " then None else Some (quantity s);
     uuid_NewString := "3f0c1a6e-5d2b-4c57-9f1e-7a8b9c0d1e2f";
     Namespaces_Get := λ _, None;
     Time := Z;
     time_Now := 1700000000%Z;
     time_AddDate := λ t y m d, (t + 31536000 * y + 2592000 * m + 86400 * d)%Z;
     time_Unix := λ t, t;
     PrivateKey := Z;
     TLSCertificate := bytes * bytes;
     rsa_GenerateKey := λ bits, inr "crypto/rand: no entropy";
     x509_CreateCertificate := λ template key, inr "x509: unsupported key";
     x509_MarshalPKCS1PrivateKey := λ key, [];
     pem_EncodeToMemory := λ type block, Byte.x2d :: block;
     tls_X509KeyPair := λ certPEM keyPEM, inl (certPEM, keyPEM);
     tls_LoadX509KeyPair :=
       λ certFile keyFile,
         if String.eqb certFile "/etc/webhook/tls.crt"
         then inl ([Byte.x2d; Byte.x43], [Byte.x2d; Byte.x4b])
         else inr "open : no such file or directory";
     os_ReadFile :=
       λ name, if String.eqb name "/etc/webhook/ca.crt" then inl [Byte.x2d; Byte.x41]
               else inr "open : no such file or directory" |}.


(** ** Vocabulary of the statements *)

(** The wrapper kinds: the supported kinds other than Pod. *)
Definition isWorkloadKind (kind : string) : bool :=
  String.eqb kind "Deployment" || String.eqb kind "DaemonSet"
  || String.eqb kind "StatefulSet" || String.eqb kind "ReplicaSet".

(** What the specification says an entry [KEY=VALUE...] yields: the name is
    the text before the first "=", the value the text between the first "="
    and the second one (or the end), and the rest is dropped. *)
Definition envVarOf (envRaw : string) (e : EnvVar.t) : Prop :=
  ∃ name value rest,
    envRaw = name +:+ "=" +:+ value +:+ rest
    ∧ strings_Contains name "=" = false
    ∧ strings_Contains value "=" = false
    ∧ (rest = "" ∨ ∃ r, rest = "=" +:+ r)
    ∧ e = EnvVar.mk name value None.

(** The label map is never nil after post-processing. *)
Definition withLabels (podMeta : ObjectMeta.t) : ObjectMeta.t :=
  match ObjectMeta.Labels podMeta with
  | None => main.set_Labels (Some ∅) podMeta
  | Some _ => podMeta
  end.

(** The response of a request allowed unmodified. *)
Definition allowedUnmodified (in_ : AdmissionRequest.t) : AdmissionResponse.t :=
  AdmissionResponse.mk (AdmissionRequest.UID in_) true None None None.

(** The server after the namespace lookup of [Review]. *)
Definition afterLookup {W : World} (in_ : AdmissionRequest.t)
    (s : main.admissionWebhookServer W) : main.admissionWebhookServer W :=
  main.mkServer W (main.config_ W s)
    (main.namespaceGets W s ++ [AdmissionRequest.Namespace in_]).

(** The response [Review] starts from: only the UID is set. *)
Definition initialResponse (in_ : AdmissionRequest.t) : AdmissionResponse.t :=
  AdmissionResponse.mk (AdmissionRequest.UID in_) false None None None.

(** The root of the patch paths: "/" for a Pod, "/spec/template" otherwise. *)
Definition patchRoot (W : World) (in_ : AdmissionRequest.t) : string :=
  path_Join W ["/"; if negb (String.eqb (AdmissionRequest.Kind in_) "Pod")
                    then "/spec/template" else ""].

(** The resolution rule as the specification words it: the workload's own
    value if non-empty; absent if it is empty and the kind is not Pod; for a
    Pod with an empty own value, the namespace's value when the namespace was
    resolved and that value is non-empty, absent otherwise. *)
Definition spec_EffectiveAnnotation (own kind : string)
    (namespace : option Namespace.t) (key : string) : option string :=
  if decide (own ≠ "") then Some own
  else if decide (kind ≠ "Pod") then None
  else match namespace with
       | Some ns =>
           if decide (map_get (Namespace.Annotations ns) key = "") then None
           else Some (map_get (Namespace.Annotations ns) key)
       | None => None
       end.

(** The effective annotation of a request with decoded view [podMeta]. *)
Definition effectiveOf {W : World} (in_ : AdmissionRequest.t)
    (s : main.admissionWebhookServer W) (podMeta : ObjectMeta.t) : option string :=
  let key := config.Annotation (main.config_ W s) in
  spec_EffectiveAnnotation (map_get (ObjectMeta.Annotations podMeta) key)
    (AdmissionRequest.Kind in_)
    (Namespaces_Get W (AdmissionRequest.Namespace in_)) key.

(** The request is a CREATE with a decoded view and a non-empty effective
    annotation, the env vars resolve, and the four patch operations [ops] are
    built: [Review] reaches [json.Marshal] with [ops], the server then being
    [s1]. *)
Definition reachesMarshal (W : World) (in_ : AdmissionRequest.t)
    (s : main.admissionWebhookServer W) (ops : list JsonPatchOperation.t)
    (s1 : main.admissionWebhookServer W) : Prop :=
  AdmissionRequest.Operation in_ = Create
  ∧ ∃ podMeta spec annotation envs cfg,
      main.unmarshal W in_ = Ok (Some (podMeta, spec))
      ∧ effectiveOf in_ s podMeta = Some annotation
      ∧ config.GetOrResolveEnvs W (main.config_ W s) = (Ok envs, cfg)
      ∧ main.patchOperations W cfg (patchRoot W in_) annotation podMeta spec
          (main.psaLevelByNamespace
             (Namespaces_Get W (AdmissionRequest.Namespace in_)))
          (main.sidecarEnvVars W cfg envs annotation podMeta) = Ok ops
      ∧ s1 = main.mkServer W cfg
               (main.namespaceGets W s ++ [AdmissionRequest.Namespace in_]).

(** C1 as the specification states it: when serialization of the patch
    document fails, the response has an error status, no patch, and is
    allowed. *)
Definition marshalFailureAllowed (W : World) (in_ : AdmissionRequest.t)
    (s : main.admissionWebhookServer W) : Prop :=
  ∀ ops s1 err,
    reachesMarshal W in_ s ops s1 →
    json_Marshal W ops = inr err →
    ∃ resp, main.Review W in_ s = (Ok resp, s1)
          ∧ is_Some (AdmissionResponse.Result resp)
          ∧ AdmissionResponse.Patch resp = None
          ∧ AdmissionResponse.Allowed resp = true.

(** C3 as the specification states it: for a decoded CREATE request of a
    kind other than Pod, or whose workload has its own annotation, [Review]
    makes no namespace query. *)
Definition lookupOnlyForBarePods (W : World) (in_ : AdmissionRequest.t)
    (s : main.admissionWebhookServer W) : Prop :=
  AdmissionRequest.Operation in_ = Create →
  ∀ podMeta spec r s',
    main.unmarshal W in_ = Ok (Some (podMeta, spec)) →
    main.Review W in_ s = (r, s') →
    (AdmissionRequest.Kind in_ ≠ "Pod"
     ∨ map_get (ObjectMeta.Annotations podMeta)
         (config.Annotation (main.config_ W s)) ≠ "") →
    main.namespaceGets W s' = main.namespaceGets W s.

(** A Pod and a Deployment that carry the annotation themselves. *)
Definition annotatedPod : Pod.t :=
  Pod.mk (ObjectMeta.mk "" None (annotated "kernel://my-service/nsm-1") []) emptySpec.

Definition annotatedDeployment : Workload.t :=
  Workload.mk (ObjectMeta.mk "" None (annotated "kernel://my-service/nsm-1") [])
    (ObjectMeta.mk "" None None []) emptySpec.

(** The limits every container has after [addResourcesLimits]. *)
Definition staticLimits (W : World) (cfg : config.Config W) (c : Container.t) : Prop :=
  ∃ lcpu lmem,
    resource_ParseQuantity W (config.SidecarLimitsCPU cfg) = Some lcpu
    ∧ resource_ParseQuantity W (config.SidecarLimitsMemory cfg) = Some lmem
    ∧ ResourceRequirements.Limits (Container.Resources c)
      = Some (<["cpu" := lcpu]> (<["memory" := lmem]> ∅)).

(** The container both loops leave behind for image [img] once the four
    configured quantities are parsed: named after the image, with the given
    env vars, the two socket mounts, the static limits and requests, and the
    restricted security context at level Restricted only. *)
Definition injectedContainer (W : World) (img : string) (envVars : list EnvVar.t)
    (psaLevel : psa.Level) (lcpu lmem rcpu rmem : Quantity) : Container.t :=
  Container.mk (main.nameOf W img) envVars img "IfNotPresent"
    [ VolumeMount.mk "spire-agent-socket" "/run/spire/sockets" true;
      VolumeMount.mk "nsm-socket" "/var/lib/networkservicemesh" true ]
    (ResourceRequirements.mk
       (Some (<["cpu" := lcpu]> (<["memory" := lmem]> ∅)))
       (Some (<["cpu" := rcpu]> (<["memory" := rmem]> ∅))))
    (if decide (psaLevel = psa.LevelRestricted)
     then Some (SecurityContext.mk ["ALL"] (Some false)) else None).

(** The four quantities of the configuration all parse, to these values. *)
Definition sidecarQuantities (W : World) (cfg : config.Config W)
    (lcpu lmem rcpu rmem : Quantity) : Prop :=
  resource_ParseQuantity W (config.SidecarLimitsCPU cfg) = Some lcpu
  ∧ resource_ParseQuantity W (config.SidecarLimitsMemory cfg) = Some lmem
  ∧ resource_ParseQuantity W (config.SidecarRequestsCPU cfg) = Some rcpu
  ∧ resource_ParseQuantity W (config.SidecarRequestsMemory cfg) = Some rmem.

(** The pool a parsed URL asks for: its [sriovToken] label up to the first
    comma, if it has that label. *)
Definition poolOf (W : World) (u : URL W) : option string :=
  (λ tokens, default "" (strings_Split tokens "," !! 0%nat))
    <$> (NSURL_Labels W u !! "sriovToken").

(** How many of the URLs ask for [pool]. *)
Definition poolCount (W : World) (pool : string) (urls : list (URL W)) : nat :=
  length (filter (λ u, poolOf W u = Some pool) urls).

(** The names [Mode.Decode] accepts, in lower case. *)
Definition modeName (m : config.Mode) : string :=
  match m with
  | config.SpireMode => "spire"
  | config.SelfregisterMode => "selfregister"
  end.

(** An identity source that is available, with the context not yet done. *)
Definition readyIdentity : Identity :=
  {| X509Source := string;
     workloadapi_NewX509Source := inl "unix:///run/spire/sockets/agent.sock";
     ctx_Done := false;
     X509Source_Close := λ _, None |}.

(** The same source when the context is already done at the [select]. *)
Definition cancelledIdentity : Identity :=
  {| X509Source := string;
     workloadapi_NewX509Source := inl "unix:///run/spire/sockets/agent.sock";
     ctx_Done := true;
     X509Source_Close := λ _, None |}.

(** The settings of a [Config]: the [Config] with its memoized values and
    once-flag cleared. *)
Definition settingsOf {W : World} (c : config.Config W) : config.Config W :=
  config.with_memo W c [] [] None false.

(** A computation on the [Config] that keeps its settings, whatever its
    outcome. *)
Definition keepsSettings (W : World) {A} (m : M (config.Config W) A) : Prop :=
  ∀ c r c', m c = (r, c') → settingsOf c' = settingsOf c.

(** * Properties *)

(** ** [strings.Split] *)

Example strings_Split_fields :
  strings_Split "NSM_OPTS=a=b" "=" = ["NSM_OPTS"; "a"; "b"]
  ∧ strings_Split "LOG_LEVEL" "=" = ["LOG_LEVEL"]
  ∧ strings_Split "KEY=" "=" = ["KEY"; ""]
  ∧ strings_Split "" "," = [""].
Proof. by split_and!. Qed.

Lemma strings_Split_nonempty (s : string) (sep : ascii) :
  strings_Split s sep ≠ [].
Proof.
  destruct s as [|c s]; simpl; [done|].
  destruct (Ascii.eqb c sep); [done|].
  by destruct (strings_Split s sep).
Qed.

(** The first field holds no separator; either it is the whole string, or the
    string goes on with a separator and the remaining fields are those of what
    follows it. *)
Lemma strings_Split_cut (s : string) (sep : ascii) :
  ∃ w ws, strings_Split s sep = w :: ws
    ∧ strings_Contains w sep = false
    ∧ ((ws = [] ∧ s = w ∧ strings_Contains s sep = false)
       ∨ (∃ s', s = w +:+ String sep s' ∧ ws = strings_Split s' sep
                ∧ strings_Contains s sep = true)).
Proof.
  induction s as [|c s IH]; simpl.
  - exists "", []. split_and!; [done..|]. by left.
  - destruct (Ascii.eqb_spec c sep) as [->|Hne].
    + exists "", (strings_Split s sep). split_and!; [done..|].
      right. by exists s.
    + destruct IH as (w & ws & -> & Hw & Hcase).
      exists (String c w), ws. simpl.
      assert (Ascii.eqb c sep = false) as Hcs by by apply Ascii.eqb_neq.
      rewrite Hcs. simpl. split_and!; [done..|].
      destruct Hcase as [(-> & -> & Hn)|(s' & -> & -> & Hy)].
      * left. by rewrite Hn.
      * right. exists s'. by rewrite Hy.
Qed.

Lemma strings_Split_second (s : string) (sep : ascii) :
  is_Some (strings_Split s sep !! 1%nat) ↔ strings_Contains s sep = true.
Proof.
  destruct (strings_Split_cut s sep) as (w & ws & -> & _ & Hcase).
  destruct Hcase as [(-> & _ & Hn)|(s' & _ & -> & Hy)].
  - rewrite Hn. simpl. split; [by intros [? ?]|done].
  - rewrite Hy. split; [done|intros _].
    destruct (strings_Split s' sep) eqn:E; [by apply strings_Split_nonempty in E|].
    by eexists.
Qed.

(** ** The env vars of [Config] *)

Lemma append_empty_r (a : string) : a +:+ "" = a.
Proof.
  induction a as [|x a IH]; [done|].
  change (String x (a +:+ "") = String x a). by rewrite IH.
Qed.

Lemma strings_Split_env (envRaw : string) :
  strings_Contains envRaw "=" = true →
  ∃ k v, strings_Split envRaw "=" !! 0%nat = Some k
       ∧ strings_Split envRaw "=" !! 1%nat = Some v
       ∧ envVarOf envRaw (EnvVar.mk k v None).
Proof.
  intros Hc.
  destruct (strings_Split_cut envRaw "=") as (k & ws & Hs & Hk & Hcase).
  destruct Hcase as [(_ & _ & Hn)|(s' & Hraw & Hws & _)]; [congruence|].
  destruct (strings_Split_cut s' "=") as (v & ws' & Hs' & Hv & Hcase').
  exists k, v. rewrite Hs, Hws, Hs'. split_and!; [done..|].
  destruct Hcase' as [(_ & -> & _)|(r & -> & _ & _)].
  - exists k, v, "". rewrite append_empty_r. split_and!; auto.
  - exists k, v, ("=" +:+ r). split_and!; eauto.
Qed.

Section ConfigFacts.
Context (W : World).
Implicit Types c : config.Config W.

Lemma set_envs_same c : config.set_envs W (config.envs c) c = c.
Proof. by destruct c. Qed.

Lemma appendEnv_ok envRaw :
  strings_Contains envRaw "=" = true →
  ∃ e, envVarOf envRaw e
     ∧ ∀ c, config.appendEnv W envRaw c
            = (Ok (), config.set_envs W (config.envs c ++ [e]) c).
Proof.
  intros Hc. destruct (strings_Split_env envRaw Hc) as (k & v & H0 & H1 & Hspec).
  exists (EnvVar.mk k v None). split; [done|].
  intros c. unfold config.appendEnv. by rewrite H0, H1.
Qed.

Lemma appendEnv_panic envRaw c :
  strings_Contains envRaw "=" = false →
  ∃ msg, config.appendEnv W envRaw c = (Panic msg, c).
Proof.
  intros Hc. unfold config.appendEnv.
  destruct (strings_Split envRaw "=" !! 1%nat) as [v|] eqn:E.
  - assert (strings_Contains envRaw "=" = true); [|congruence].
    apply strings_Split_second. by eexists.
  - destruct (strings_Split envRaw "=" !! 0%nat); by eexists.
Qed.

(** Every entry has an "=": the loop appends one env var per entry. *)
Lemma forM_appendEnv_ok (l : list string) :
  Forall (λ e, strings_Contains e "=" = true) l →
  ∃ vs, Forall2 envVarOf l vs
      ∧ ∀ c, forM_ l (config.appendEnv W) c
             = (Ok (), config.set_envs W (config.envs c ++ vs) c).
Proof.
  induction 1 as [|e l He _ (vs & Hvs & IH)].
  - exists []. split; [constructor|]. intros c. simpl.
    by rewrite app_nil_r, set_envs_same.
  - destruct (appendEnv_ok e He) as (v & Hv & Hstep).
    exists (v :: vs). split; [by constructor|]. intros c.
    cbn. unfold mbind, M_bind. rewrite Hstep, IH. cbn.
    by rewrite <-app_assoc.
Qed.

(** Some entry has no "=": the loop panics. *)
Lemma forM_appendEnv_panic (l : list string) c :
  ¬ Forall (λ e, strings_Contains e "=" = true) l →
  ∃ msg c', forM_ l (config.appendEnv W) c = (Panic msg, c').
Proof.
  revert c. induction l as [|e l IH]; intros c Hnot.
  - destruct Hnot. constructor.
  - cbn. unfold mbind, M_bind.
    destruct (strings_Contains e "=") eqn:He.
    + destruct (appendEnv_ok e He) as (v & _ & ->).
      apply IH. intros Hl. apply Hnot. by constructor.
    + destruct (appendEnv_panic e c He) as (msg & ->). by eexists _, _.
Qed.

Lemma initializeEnvs_ok c :
  Forall (λ e, strings_Contains e "=" = true) (config.Envs c) →
  ∃ vs, Forall2 envVarOf (config.Envs c) vs
      ∧ config.initializeEnvs W c
        = (Ok (), config.set_envs W (config.envs c ++ vs ++ config.bootstrapEnvs) c).
Proof.
  intros Hall. destruct (forM_appendEnv_ok _ Hall) as (vs & Hvs & Hrun).
  exists vs. split; [done|].
  unfold config.initializeEnvs. cbn. unfold mbind, M_bind. cbn.
  rewrite Hrun. unfold modify. cbn. unfold config.set_envs. cbn.
  by rewrite <-app_assoc.
Qed.

Lemma initializeEnvs_panic c :
  ¬ Forall (λ e, strings_Contains e "=" = true) (config.Envs c) →
  ∃ msg c', config.initializeEnvs W c = (Panic msg, c').
Proof.
  intros Hnot. destruct (forM_appendEnv_panic _ c Hnot) as (msg & c' & Hrun).
  exists msg, c'. unfold config.initializeEnvs. cbn. unfold mbind, M_bind. cbn.
  by rewrite Hrun.
Qed.

(** The certificate and CA bundle steps leave the env vars alone. *)
Lemma initializeCert_envs c r c' :
  config.initializeCert W c = (r, c') → config.envs c' = config.envs c.
Proof.
  unfold config.initializeCert, config.selfSignedInMemoryCertificate.
  unfold mbind, M_bind, mret, M_ret, panic, modify, get. cbn.
  repeat case_match; intros; by simplify_eq.
Qed.

Lemma initializeCABundle_envs c r c' :
  config.initializeCABundle W c = (r, c') → config.envs c' = config.envs c.
Proof.
  unfold config.initializeCABundle.
  unfold mbind, M_bind, mret, M_ret, panic, modify, get. cbn.
  repeat case_match; intros; by simplify_eq.
Qed.

Lemma initialize_envs c c' :
  Forall (λ e, strings_Contains e "=" = true) (config.Envs c) →
  ∃ vs, Forall2 envVarOf (config.Envs c) vs
      ∧ ∀ r, config.initialize W c = (r, c') →
             config.envs c' = config.envs c ++ vs ++ config.bootstrapEnvs.
Proof.
  intros Hall. destruct (initializeEnvs_ok c Hall) as (vs & Hvs & Hrun).
  exists vs. split; [done|]. intros r.
  unfold config.initialize. cbn. unfold mbind, M_bind. rewrite Hrun.
  destruct (config.initializeCert W _) as [[[]|msg] c1] eqn:E1.
  - intros E2. apply initializeCABundle_envs in E2.
    apply initializeCert_envs in E1. by rewrite E2, E1.
  - intros ?; simplify_eq. apply initializeCert_envs in E1. by rewrite E1.
Qed.

Lemma initialize_panic c :
  ¬ Forall (λ e, strings_Contains e "=" = true) (config.Envs c) →
  ∃ msg c', config.initialize W c = (Panic msg, c').
Proof.
  intros Hnot. destruct (initializeEnvs_panic c Hnot) as (msg & c' & Hrun).
  exists msg, c'. unfold config.initialize. cbn. unfold mbind, M_bind.
  by rewrite Hrun.
Qed.

(** In spire mode without certificate files the last two steps do nothing. *)
Lemma initialize_spire c :
  config.WebhookMode c = config.SpireMode →
  config.IsExistingCertificatesUsed W c = false →
  ∀ c1, config.initializeEnvs W c = (Ok (), c1) →
        config.WebhookMode c1 = config.WebhookMode c →
        config.IsExistingCertificatesUsed W c1 = false →
        config.initialize W c = (Ok (), c1).
Proof.
  intros Hmode Hcert c1 Hrun Hmode1 Hcert1.
  unfold config.initialize. cbn. unfold mbind, M_bind. rewrite Hrun.
  unfold config.initializeCert, config.initializeCABundle.
  cbn. unfold mbind, M_bind. cbn. rewrite Hcert1, Hmode1, Hmode.
  rewrite decide_False by done. cbn.
  rewrite Hmode1, Hmode. by rewrite decide_True.
Qed.

End ConfigFacts.

(** C10.  On a fresh [Config] (the once-flag clear, no env var resolved yet):
    an accessor that runs the one-time initialization returns normally only
    if every entry of [Envs] contains "="; and when they all do,
    [initializeEnvs] returns, leaving one env var per entry, named by the
    text before the first "=" and valued by the text between the first and
    the second "=" (what follows a second "=" is dropped), followed by the
    two env vars the code always appends: SPIFFE_ENDPOINT_SOCKET with the
    value unix:///run/spire/sockets/agent.sock, then POD_NAME taken from the
    field metadata.name; this is the list [GetOrResolveEnvs] returns
    whenever it returns, and in spire mode without certificate files it
    does return. *)
Theorem C10_envs_need_separator (W : World) (c : config.Config W) :
  let appended :=
    [ EnvVar.mk "SPIFFE_ENDPOINT_SOCKET" "unix:///run/spire/sockets/agent.sock" None;
      EnvVar.mk "POD_NAME" "" (Some "metadata.name") ] in
  config.once c = false →
  config.envs c = [] →
  ((  (∃ l c', config.GetOrResolveEnvs W c = (Ok l, c'))
    ∨ (∃ b c', config.GetOrResolveCABundle W c = (Ok b, c'))
    ∨ (∃ k c', config.GetOrResolveCertificate W c = (Ok k, c'))) →
   Forall (λ e, strings_Contains e "=" = true) (config.Envs c))
  ∧ (Forall (λ e, strings_Contains e "=" = true) (config.Envs c) →
     ∃ vs, Forall2 envVarOf (config.Envs c) vs
       ∧ config.initializeEnvs W c
         = (Ok (), config.set_envs W (vs ++ appended) c)
       ∧ (∀ l c', config.GetOrResolveEnvs W c = (Ok l, c') →
                  l = vs ++ appended)
       ∧ (config.WebhookMode c = config.SpireMode →
          config.IsExistingCertificatesUsed W c = false →
          config.GetOrResolveEnvs W c
          = (Ok (vs ++ appended),
             config.set_once W (config.set_envs W (vs ++ appended) c)))).
Proof.
  intros appended Honce Hfresh.
  change appended with config.bootstrapEnvs. clear appended. split.
  - intros Hret.
    destruct (decide (Forall (λ e, strings_Contains e "=" = true) (config.Envs c)))
      as [|Hnot]; [done|exfalso].
    destruct (initialize_panic W c Hnot) as (msg & c1 & Hrun).
    unfold config.GetOrResolveEnvs, config.GetOrResolveCABundle,
      config.GetOrResolveCertificate, config.once_Do in Hret.
    cbn in Hret. unfold mbind, M_bind in Hret. rewrite Honce, Hrun in Hret.
    destruct Hret as [(? & ? & ?)|[(? & ? & ?)|(? & ? & ?)]]; discriminate.
  - intros Hall.
    destruct (initializeEnvs_ok W c Hall) as (vs & Hvs & Hrun).
    rewrite Hfresh in Hrun. cbn [app] in Hrun.
    exists vs. split_and!; [done..| |].
    + intros l c' Hget.
      unfold config.GetOrResolveEnvs, config.once_Do in Hget.
      cbn in Hget. unfold mbind, M_bind in Hget. rewrite Honce in Hget.
      destruct (config.initialize W c) as [[[]|msg] c1] eqn:Hinit; [|done].
      unfold config.initialize in Hinit. cbn in Hinit.
      unfold mbind, M_bind in Hinit. rewrite Hrun in Hinit.
      destruct (config.initializeCert W _) as [[[]|?] c2] eqn:E1; [|done].
      apply initializeCert_envs in E1. apply initializeCABundle_envs in Hinit.
      unfold mret, M_ret in Hget. cbn in Hget. simplify_eq.
      by rewrite Hinit, E1.
    + intros Hmode Hcert.
      unfold config.GetOrResolveEnvs, config.once_Do.
      cbn. unfold mbind, M_bind. rewrite Honce.
      by rewrite (initialize_spire W c Hmode Hcert _ Hrun).
Qed.

Lemma C10_envs_need_separator_witness :
  let W := fixedWorld None None None marshalOk in
  let c := defaultConfig W ["LOG_LEVEL=INFO"; "NSM_OPTS=a=b"] config.SpireMode in
  let resolved :=
    [ EnvVar.mk "LOG_LEVEL" "INFO" None;
      EnvVar.mk "NSM_OPTS" "a" None;
      EnvVar.mk "SPIFFE_ENDPOINT_SOCKET" "unix:///run/spire/sockets/agent.sock" None;
      EnvVar.mk "POD_NAME" "" (Some "metadata.name") ] in
  config.GetOrResolveEnvs W c
  = (Ok resolved, config.set_once W (config.set_envs W resolved c)).
Proof.
  intros W c resolved.
  destruct (C10_envs_need_separator W c eq_refl eq_refl) as [_ Hsuff].
  destruct Hsuff as (vs & _ & Hinit & _ & Hget).
  - repeat constructor.
  - specialize (Hget eq_refl eq_refl).
    assert (config.envs (snd (config.initializeEnvs W c)) = resolved) as E
      by (vm_compute; reflexivity).
    rewrite Hinit in E.
    change (vs ++ [ EnvVar.mk "SPIFFE_ENDPOINT_SOCKET"
                      "unix:///run/spire/sockets/agent.sock" None;
                    EnvVar.mk "POD_NAME" "" (Some "metadata.name") ]
            = [EnvVar.mk "LOG_LEVEL" "INFO" None; EnvVar.mk "NSM_OPTS" "a" None]
              ++ [ EnvVar.mk "SPIFFE_ENDPOINT_SOCKET"
                     "unix:///run/spire/sockets/agent.sock" None;
                   EnvVar.mk "POD_NAME" "" (Some "metadata.name") ]) in E.
    apply app_inv_tail in E. subst vs. exact Hget.
Defined.

(** ** Decoding and post-processing *)

Section MainFacts.
Context (W : World).
Implicit Types s : main.admissionWebhookServer W.

Lemma isWorkloadKind_not_Pod kind :
  isWorkloadKind kind = true → String.eqb kind "Pod" = false.
Proof.
  unfold isWorkloadKind. intros H.
  repeat (apply orb_prop in H as [H|H]); apply String.eqb_eq in H; by subst.
Qed.

Lemma ownedByDeployment_spec (refs : list OwnerReference.t) :
  main.ownedByDeployment refs = true
  ↔ ∃ o, o ∈ refs ∧ OwnerReference.Kind o = "Deployment".
Proof.
  unfold main.ownedByDeployment. rewrite existsb_exists. split.
  - intros (o & Hin & Heq). exists o. split; [by apply list_elem_of_In|].
    by apply String.eqb_eq.
  - intros (o & Hin & Heq). exists o. split; [by apply list_elem_of_In|].
    by apply String.eqb_eq.
Qed.

Lemma withLabels_Annotations podMeta :
  ObjectMeta.Annotations (withLabels podMeta) = ObjectMeta.Annotations podMeta.
Proof. unfold withLabels. by destruct (ObjectMeta.Labels podMeta). Qed.

Lemma withLabels_is_Some podMeta :
  is_Some (ObjectMeta.Labels (withLabels podMeta)).
Proof. unfold withLabels. destruct (ObjectMeta.Labels podMeta) eqn:E; cbn; rewrite ?E; eauto. Qed.

Lemma withLabels_idemp podMeta : withLabels (withLabels podMeta) = withLabels podMeta.
Proof. unfold withLabels. destruct (ObjectMeta.Labels podMeta) eqn:E; cbn; by rewrite ?E. Qed.

(** A pod template that already has annotations is rejected. *)
Lemma postProcessPodMeta_twice_annotated podMeta metaPtr kind :
  String.eqb kind "Pod" = false →
  is_Some (ObjectMeta.Annotations podMeta) →
  main.postProcessPodMeta podMeta metaPtr kind = Ok (withLabels podMeta, false).
Proof.
  intros Hkind [a Ha]. unfold main.postProcessPodMeta. fold (withLabels podMeta).
  rewrite Hkind, withLabels_Annotations, Ha. done.
Qed.

(** A pod template without annotations takes those of the wrapper; the
    pointer returned is nil exactly for a ReplicaSet owned by a Deployment. *)
Lemma postProcessPodMeta_inject podMeta meta kind :
  String.eqb kind "Pod" = false →
  ObjectMeta.Annotations podMeta = None →
  main.postProcessPodMeta podMeta (Some meta) kind
  = Ok (main.set_Annotations (ObjectMeta.Annotations meta) (withLabels podMeta),
        negb (String.eqb kind "ReplicaSet"
              && main.ownedByDeployment (ObjectMeta.OwnerReferences meta))).
Proof.
  intros Hkind Ha. unfold main.postProcessPodMeta. fold (withLabels podMeta).
  rewrite Hkind, withLabels_Annotations, Ha. cbn.
  destruct (String.eqb kind "ReplicaSet"); [|done].
  by destruct (main.ownedByDeployment _).
Qed.

(** A Pod only gets its label map initialized. *)
Lemma postProcessPodMeta_Pod podMeta metaPtr :
  main.postProcessPodMeta podMeta metaPtr "Pod" = Ok (withLabels podMeta, true).
Proof. done. Qed.

(** [unmarshal] never panics: [metaPtr] is nil only for a Pod, where it is
    not dereferenced. *)
Lemma unmarshal_returns (in_ : AdmissionRequest.t) :
  ∃ view, main.unmarshal W in_ = Ok view.
Proof.
  assert (∀ kind raw,
            String.eqb kind "Pod" = false →
            ∃ view,
              match main.decodeWorkload W kind raw with
              | None => Ok None
              | Some (metaPtr, podMeta, podSpec) =>
                  main.postProcessPodMeta podMeta metaPtr kind
                  ≫= λ '(podMeta, ok),
                       if (ok : bool) then Ok (Some (podMeta, podSpec)) else Ok None
              end = Ok view) as Hworkload.
  { intros kind raw Hpod. unfold main.decodeWorkload.
    destruct (json_Unmarshal_Workload W kind raw) as [w|]; [|by eexists].
    destruct (ObjectMeta.Annotations (Workload.TemplateMeta w)) as [a|] eqn:Ha.
    - rewrite postProcessPodMeta_twice_annotated by eauto. cbn. by eexists.
    - rewrite postProcessPodMeta_inject by done. cbn.
      destruct (negb _); by eexists. }
  unfold main.unmarshal.
  destruct (String.eqb_spec (AdmissionRequest.Kind in_) "Deployment") as [Hk|_].
  { apply Hworkload. by rewrite Hk. }
  destruct (String.eqb_spec (AdmissionRequest.Kind in_) "Pod") as [Hk|_].
  { rewrite Hk. unfold main.decodePod.
    destruct (json_Unmarshal_Pod W _) as [pod|]; by eexists. }
  destruct (String.eqb_spec (AdmissionRequest.Kind in_) "DaemonSet") as [Hk|_].
  { apply Hworkload. by rewrite Hk. }
  destruct (String.eqb_spec (AdmissionRequest.Kind in_) "StatefulSet") as [Hk|_].
  { apply Hworkload. by rewrite Hk. }
  destruct (String.eqb_spec (AdmissionRequest.Kind in_) "ReplicaSet") as [Hk|_].
  { apply Hworkload. by rewrite Hk. }
  by eexists.
Qed.

Lemma Review_not_Create (in_ : AdmissionRequest.t) s :
  AdmissionRequest.Operation in_ ≠ Create →
  main.Review W in_ s = (Ok (allowedUnmodified in_), s).
Proof.
  intros Hop. unfold main.Review.
  destruct (String.eqb_spec (AdmissionRequest.Operation in_) Create); done.
Qed.

Lemma Review_no_view (in_ : AdmissionRequest.t) s :
  AdmissionRequest.Operation in_ = Create →
  main.unmarshal W in_ = Ok None →
  main.Review W in_ s = (Ok (allowedUnmodified in_), afterLookup in_ s).
Proof.
  intros Hop Hview. unfold main.Review. rewrite Hop. cbn.
  unfold mbind, M_bind, liftO. by rewrite Hview.
Qed.

End MainFacts.

(** [unmarshal] on the two families of kinds, once decoding succeeded. *)
Lemma unmarshal_Workload (W : World) (in_ : AdmissionRequest.t) (w : Workload.t) :
  isWorkloadKind (AdmissionRequest.Kind in_) = true →
  json_Unmarshal_Workload W (AdmissionRequest.Kind in_)
    (AdmissionRequest.ObjectRaw in_) = Some w →
  main.unmarshal W in_
  = (main.postProcessPodMeta (Workload.TemplateMeta w) (Some (Workload.Meta w))
       (AdmissionRequest.Kind in_)
     ≫= λ '(podMeta, ok),
          if (ok : bool) then Ok (Some (podMeta, Workload.TemplateSpec w))
          else Ok None).
Proof.
  intros Hkind Hdec.
  assert (main.decodeWorkload W (AdmissionRequest.Kind in_)
            (AdmissionRequest.ObjectRaw in_)
          = Some (Some (Workload.Meta w), Workload.TemplateMeta w,
                  Workload.TemplateSpec w)) as Hdecoded
    by (unfold main.decodeWorkload; by rewrite Hdec).
  unfold main.unmarshal. rewrite Hdecoded. unfold isWorkloadKind in Hkind.
  destruct (String.eqb (AdmissionRequest.Kind in_) "Deployment"); [done|].
  destruct (String.eqb_spec (AdmissionRequest.Kind in_) "Pod") as [Hk|_].
  { by rewrite Hk in Hkind. }
  destruct (String.eqb (AdmissionRequest.Kind in_) "DaemonSet"); [done|].
  destruct (String.eqb (AdmissionRequest.Kind in_) "StatefulSet"); [done|].
  destruct (String.eqb (AdmissionRequest.Kind in_) "ReplicaSet"); done.
Qed.

Lemma unmarshal_Pod (W : World) (in_ : AdmissionRequest.t) (pod : Pod.t) :
  AdmissionRequest.Kind in_ = "Pod" →
  json_Unmarshal_Pod W (AdmissionRequest.ObjectRaw in_) = Some pod →
  main.unmarshal W in_ = Ok (Some (withLabels (Pod.Meta pod), Pod.Spec pod)).
Proof.
  intros Hkind Hdec. unfold main.unmarshal, main.decodePod.
  by rewrite Hkind, Hdec.
Qed.

(** C5.  A CREATE request of kind ReplicaSet whose decoded owner references
    include one of kind Deployment is allowed without a patch, whatever the
    annotations of the ReplicaSet, of its pod template or of the namespace. *)
Theorem C5_owned_ReplicaSet_not_patched (W : World) (in_ : AdmissionRequest.t)
    (s : main.admissionWebhookServer W) (rs : Workload.t) :
  AdmissionRequest.Operation in_ = Create →
  AdmissionRequest.Kind in_ = "ReplicaSet" →
  json_Unmarshal_Workload W "ReplicaSet" (AdmissionRequest.ObjectRaw in_) = Some rs →
  (∃ o, o ∈ ObjectMeta.OwnerReferences (Workload.Meta rs)
        ∧ OwnerReference.Kind o = "Deployment") →
  main.Review W in_ s
  = (Ok (AdmissionResponse.mk (AdmissionRequest.UID in_) true None None None),
     afterLookup in_ s).
Proof.
  intros Hop Hkind Hdec Hown.
  apply (Review_no_view W in_ s Hop).
  rewrite (unmarshal_Workload W in_ rs) by by rewrite Hkind.
  rewrite Hkind.
  apply ownedByDeployment_spec in Hown.
  destruct (ObjectMeta.Annotations (Workload.TemplateMeta rs)) as [a|] eqn:Ha.
  - by rewrite postProcessPodMeta_twice_annotated by eauto.
  - rewrite postProcessPodMeta_inject by done. by rewrite Hown.
Qed.

Lemma C5_owned_ReplicaSet_not_patched_witness :
  let rs := Workload.mk
              (ObjectMeta.mk "" None (annotated "kernel://my-service/nsm-1")
                 [OwnerReference.mk "Deployment"])
              (ObjectMeta.mk "" None None []) emptySpec in
  let W := fixedWorld None (Some rs)
             (Some (Namespace.mk None (annotated "kernel://my-service/nsm-1")))
             marshalOk in
  let s := main.mkServer W (defaultConfig W [] config.SpireMode) [] in
  main.Review W (createRequest "ReplicaSet") s
  = (Ok (AdmissionResponse.mk "705ab4f5-6393-11e8-b7cc-42010a800002" true None None None),
     main.mkServer W (defaultConfig W [] config.SpireMode) ["ns-1"]).
Proof.
  intros rs W s.
  apply (C5_owned_ReplicaSet_not_patched W (createRequest "ReplicaSet") s rs);
    [reflexivity..|].
  exists (OwnerReference.mk "Deployment"). split; [|reflexivity].
  apply list_elem_of_here.
Defined.

(** C6.  For a CREATE request of a wrapper kind: if the decoded pod template
    already has an annotations map, the view is rejected and the request is
    allowed without a patch; if it has none, post-processing stores the
    wrapper's own annotations in the pod-template metadata (the other fields
    are kept, the label map initialized), the view is handed on unless the
    object is a ReplicaSet owned by a Deployment, and post-processing that
    metadata again changes nothing: the annotations are written once. *)
Theorem C6_template_annotations (W : World) (in_ : AdmissionRequest.t)
    (s : main.admissionWebhookServer W) (w : Workload.t) :
  AdmissionRequest.Operation in_ = Create →
  isWorkloadKind (AdmissionRequest.Kind in_) = true →
  json_Unmarshal_Workload W (AdmissionRequest.Kind in_)
    (AdmissionRequest.ObjectRaw in_) = Some w →
  let kind := AdmissionRequest.Kind in_ in
  let podMeta := Workload.TemplateMeta w in
  let meta := Workload.Meta w in
  (is_Some (ObjectMeta.Annotations podMeta) →
     main.unmarshal W in_ = Ok None
     ∧ main.Review W in_ s
       = (Ok (AdmissionResponse.mk (AdmissionRequest.UID in_) true None None None),
          afterLookup in_ s))
  ∧ (ObjectMeta.Annotations podMeta = None →
     ∃ podMeta' ok,
       main.postProcessPodMeta podMeta (Some meta) kind = Ok (podMeta', ok)
       ∧ ObjectMeta.Annotations podMeta' = ObjectMeta.Annotations meta
       ∧ ObjectMeta.GenerateName podMeta' = ObjectMeta.GenerateName podMeta
       ∧ ObjectMeta.OwnerReferences podMeta' = ObjectMeta.OwnerReferences podMeta
       ∧ ObjectMeta.Labels podMeta' = Some (default ∅ (ObjectMeta.Labels podMeta))
       ∧ ok = negb (String.eqb kind "ReplicaSet"
                    && main.ownedByDeployment (ObjectMeta.OwnerReferences meta))
       ∧ main.unmarshal W in_
         = Ok (if ok then Some (podMeta', Workload.TemplateSpec w) else None)
       ∧ ∃ ok', main.postProcessPodMeta podMeta' (Some meta) kind
                = Ok (podMeta', ok')).
Proof.
  intros Hop Hkind Hdec kind podMeta meta.
  pose proof (isWorkloadKind_not_Pod _ Hkind) as Hpod.
  pose proof (unmarshal_Workload W in_ w Hkind Hdec) as Hun.
  fold kind podMeta meta in Hun.
  split.
  - intros Hsome.
    assert (main.unmarshal W in_ = Ok None) as Hnone.
    { rewrite Hun. by rewrite postProcessPodMeta_twice_annotated. }
    split; [done|]. by apply Review_no_view.
  - intros Hnil. eexists _, _.
    split; [by apply postProcessPodMeta_inject|].
    split_and!; try done.
    + cbn. unfold withLabels. by destruct (ObjectMeta.Labels podMeta).
    + cbn. unfold withLabels. by destruct (ObjectMeta.Labels podMeta).
    + cbn. unfold withLabels.
      destruct (ObjectMeta.Labels podMeta) eqn:E; cbn; by rewrite ?E.
    + rewrite Hun, postProcessPodMeta_inject by done. cbn.
      by destruct (negb _).
    + set (podMeta' := main.set_Annotations _ _).
      assert (withLabels podMeta' = podMeta') as Hfix.
      { destruct (withLabels_is_Some podMeta) as [l Hl].
        unfold withLabels at 1. unfold podMeta'. cbn. by rewrite Hl. }
      destruct (ObjectMeta.Annotations meta) as [a|] eqn:Ha.
      * exists false. rewrite postProcessPodMeta_twice_annotated; [|done|].
        -- by rewrite Hfix.
        -- unfold podMeta'. cbn. eauto.
      * eexists. rewrite postProcessPodMeta_inject; [|done..].
        by rewrite Hfix, Ha.
Qed.

Lemma C6_template_annotations_witness :
  let w := Workload.mk
             (ObjectMeta.mk "" None (annotated "kernel://my-service/nsm-1") [])
             (ObjectMeta.mk "" None None []) emptySpec in
  let W := fixedWorld None (Some w) None marshalOk in
  main.unmarshal W (createRequest "Deployment")
  = Ok (Some (ObjectMeta.mk "" (Some ∅) (annotated "kernel://my-service/nsm-1") [],
              emptySpec)).
Proof.
  intros w W.
  pose (s := main.mkServer W (defaultConfig W [] config.SpireMode) []).
  destruct (C6_template_annotations W (createRequest "Deployment") s w
              eq_refl eq_refl eq_refl) as [_ Hinject].
  destruct (Hinject eq_refl) as (podMeta' & ok & Hpost & _ & _ & _ & _ & _ & Hun & _).
  rewrite Hun. vm_compute in Hpost. by simplify_eq.
Defined.

(** ** [Review] on a decoded view *)

Lemma Review_view (W : World) (in_ : AdmissionRequest.t)
    (s : main.admissionWebhookServer W) (podMeta : ObjectMeta.t) (spec : PodSpec.t) :
  AdmissionRequest.Operation in_ = Create →
  main.unmarshal W in_ = Ok (Some (podMeta, spec)) →
  main.Review W in_ s
  = match effectiveOf in_ s podMeta with
    | None => (Ok (allowedUnmodified in_), afterLookup in_ s)
    | Some annotation =>
        main.injectSidecars W (initialResponse in_) (patchRoot W in_) annotation
          podMeta spec (Namespaces_Get W (AdmissionRequest.Namespace in_))
          (afterLookup in_ s)
    end.
Proof.
  intros Hop Hview. unfold main.Review. rewrite Hop. cbn [negb String.eqb].
  replace (String.eqb Create Create) with true by done. cbn [negb].
  unfold mbind at 1, M_bind at 1, liftO. rewrite Hview.
  unfold mbind at 1, M_bind at 1, main.getNamespace.
  unfold mbind at 1, M_bind at 1, get. cbn [main.config_].
  fold (afterLookup in_ s) (initialResponse in_) (patchRoot W in_).
  unfold effectiveOf, spec_EffectiveAnnotation.
  set (key := config.Annotation _).
  set (own := map_get (ObjectMeta.Annotations podMeta) key).
  destruct (String.eqb_spec own "") as [Hown|Hown].
  - rewrite decide_False by (by intros []).
    destruct (String.eqb_spec (AdmissionRequest.Kind in_) "Pod") as [Hk|Hk].
    + rewrite decide_False by (by intros []). cbn [andb negb].
      destruct (Namespaces_Get W _) as [ns|]; cbn.
      * destruct (String.eqb_spec (map_get (Namespace.Annotations ns) key) "")
          as [Hns|Hns].
        -- by rewrite decide_True.
        -- by rewrite decide_False.
      * rewrite Hown. done.
    + rewrite decide_True by done. done.
  - rewrite decide_True by done. cbn [andb].
    assert ((if String.eqb own "" then false else true) = true) as _ by
      by destruct (String.eqb_spec own "").
    destruct (Namespaces_Get W _) as [ns|]; cbn;
      by destruct (String.eqb_spec own "").
Qed.

(** What [injectSidecars] does once the env vars resolve and the four
    operations are built. *)
Lemma injectSidecars_run (W : World) (resp : AdmissionResponse.t)
    (p annotation : string) (podMeta : ObjectMeta.t) (spec : PodSpec.t)
    (namespace : option Namespace.t) (s : main.admissionWebhookServer W)
    (envs : list EnvVar.t) (cfg : config.Config W)
    (ops : list JsonPatchOperation.t) :
  config.GetOrResolveEnvs W (main.config_ W s) = (Ok envs, cfg) →
  main.patchOperations W cfg p annotation podMeta spec
    (main.psaLevelByNamespace namespace)
    (main.sidecarEnvVars W cfg envs annotation podMeta) = Ok ops →
  main.injectSidecars W resp p annotation podMeta spec namespace s
  = (Ok match json_Marshal W ops with
        | inr err =>
            AdmissionResponse.mk (AdmissionResponse.UID resp)
              (AdmissionResponse.Allowed resp) (Some (Status.mk err))
              (AdmissionResponse.Patch resp) (AdmissionResponse.PatchType resp)
        | inl patch =>
            AdmissionResponse.mk (AdmissionResponse.UID resp) true
              (AdmissionResponse.Result resp) (Some patch) (Some PatchTypeJSONPatch)
        end,
     main.set_config W cfg s).
Proof.
  intros Hget Hops. unfold main.injectSidecars.
  unfold mbind at 1, M_bind at 1, main.onConfig. rewrite Hget.
  unfold mbind at 1, M_bind at 1, get. cbn [main.config_ main.set_config].
  unfold mbind at 1, M_bind at 1, liftO. rewrite Hops.
  by destruct (json_Marshal W ops).
Qed.

(** [injectSidecars] talks to the configuration only. *)
Lemma injectSidecars_namespaceGets (W : World) (resp : AdmissionResponse.t)
    (p annotation : string) (podMeta : ObjectMeta.t) (spec : PodSpec.t)
    (namespace : option Namespace.t) (s s' : main.admissionWebhookServer W)
    (r : outcome AdmissionResponse.t) :
  main.injectSidecars W resp p annotation podMeta spec namespace s = (r, s') →
  main.namespaceGets W s' = main.namespaceGets W s.
Proof.
  unfold main.injectSidecars.
  unfold mbind at 1, M_bind at 1, main.onConfig.
  destruct (config.GetOrResolveEnvs W (main.config_ W s)) as [[envs|msg] cfg];
    [|by intros; simplify_eq].
  unfold mbind at 1, M_bind at 1, get.
  unfold mbind at 1, M_bind at 1, liftO.
  destruct (main.patchOperations _ _ _ _ _ _ _ _) as [ops|msg];
    [|by intros; simplify_eq].
  unfold mret, M_ret.
  destruct (json_Marshal W ops); by intros; simplify_eq.
Qed.

(** C4.  For a CREATE request with a decoded view, [Review] acts on the
    effective annotation of the specification's rule: with none it allows the
    request unmodified; with a value, which is then non-empty, it goes on to
    inject the sidecars with that value, handing it to every sidecar as the
    mesh-URL env var.  The rule gives the workload's own value if non-empty,
    nothing for a non-Pod kind without one, and for a Pod without one the
    namespace's value if the namespace was resolved and its value is
    non-empty. *)
Theorem C4_effective_annotation (W : World) (in_ : AdmissionRequest.t)
    (s : main.admissionWebhookServer W) (podMeta : ObjectMeta.t) (spec : PodSpec.t) :
  AdmissionRequest.Operation in_ = Create →
  main.unmarshal W in_ = Ok (Some (podMeta, spec)) →
  let key := config.Annotation (main.config_ W s) in
  let own := map_get (ObjectMeta.Annotations podMeta) key in
  let namespace := Namespaces_Get W (AdmissionRequest.Namespace in_) in
  let effective :=
    spec_EffectiveAnnotation own (AdmissionRequest.Kind in_) namespace key in
  main.Review W in_ s
  = match effective with
    | None => (Ok (allowedUnmodified in_), afterLookup in_ s)
    | Some annotation =>
        main.injectSidecars W (initialResponse in_) (patchRoot W in_) annotation
          podMeta spec namespace (afterLookup in_ s)
    end
  ∧ ∀ annotation, effective = Some annotation →
      annotation ≠ ""
      ∧ ∀ cfg envs,
          EnvVar.mk (config.NSURLEnvName cfg) annotation None
          ∈ main.sidecarEnvVars W cfg envs annotation podMeta.
Proof.
  intros Hop Hview key own namespace effective. split.
  - by apply Review_view.
  - intros a Ha. split.
    + unfold effective, spec_EffectiveAnnotation in Ha.
      repeat case_match; by simplify_eq.
    + intros cfg envs. unfold main.sidecarEnvVars.
      apply elem_of_app. right. apply list_elem_of_here.
Qed.

Lemma C4_effective_annotation_witness :
  let pod := Pod.mk (ObjectMeta.mk "" None None []) emptySpec in
  let W := fixedWorld (Some pod) None
             (Some (Namespace.mk None (annotated "kernel://my-service/nsm-1")))
             marshalOk in
  let s := main.mkServer W (defaultConfig W [] config.SpireMode) [] in
  main.Review W (createRequest "Pod") s
  = main.injectSidecars W (initialResponse (createRequest "Pod")) "//"
      "kernel://my-service/nsm-1" (ObjectMeta.mk "" (Some ∅) None []) emptySpec
      (Some (Namespace.mk None (annotated "kernel://my-service/nsm-1")))
      (afterLookup (createRequest "Pod") s).
Proof.
  intros pod W s.
  exact (proj1 (C4_effective_annotation W (createRequest "Pod") s
                  (ObjectMeta.mk "" (Some ∅) None []) emptySpec eq_refl eq_refl)).
Defined.

(** C1 (as amended).  When [Review] reaches [json.Marshal] and serialization
    fails, the response carries the error as its status, has no patch and no
    patch type, and its allowed flag is false: the early return leaves the
    flag as it was initialized. *)
Theorem C1_marshal_failure_denies (W : World) (in_ : AdmissionRequest.t)
    (s s1 : main.admissionWebhookServer W) (ops : list JsonPatchOperation.t)
    (err : string) :
  reachesMarshal W in_ s ops s1 →
  json_Marshal W ops = inr err →
  main.Review W in_ s
  = (Ok (AdmissionResponse.mk (AdmissionRequest.UID in_) false
           (Some (Status.mk err)) None None),
     s1).
Proof.
  intros (Hop & podMeta & spec & a & envs & cfg & Hview & Heff & Hget & Hops & ->)
    Hfail.
  rewrite (Review_view W in_ s podMeta spec Hop Hview), Heff.
  rewrite (injectSidecars_run W _ _ _ _ _ _ (afterLookup in_ s) envs cfg ops Hget Hops).
  by rewrite Hfail.
Qed.

Lemma annotatedPod_reachesMarshal :
  let W := fixedWorld (Some annotatedPod) None None marshalFails in
  let s := main.mkServer W (defaultConfig W [] config.SpireMode) [] in
  ∃ ops,
    reachesMarshal W (createRequest "Pod") s ops
      (main.mkServer W
         (config.set_once W (config.set_envs W config.bootstrapEnvs
                               (defaultConfig W [] config.SpireMode)))
         ["ns-1"]).
Proof.
  intros W s. eexists. split; [reflexivity|].
  exists (ObjectMeta.mk "" (Some ∅) (annotated "kernel://my-service/nsm-1") []),
    emptySpec, "kernel://my-service/nsm-1", config.bootstrapEnvs.
  eexists. split_and!; [reflexivity| |reflexivity| |reflexivity].
  - vm_compute. reflexivity.
  - vm_compute. reflexivity.
Defined.

Lemma C1_marshal_failure_denies_witness :
  let W := fixedWorld (Some annotatedPod) None None marshalFails in
  let s := main.mkServer W (defaultConfig W [] config.SpireMode) [] in
  main.Review W (createRequest "Pod") s
  = (Ok (AdmissionResponse.mk "705ab4f5-6393-11e8-b7cc-42010a800002" false
           (Some (Status.mk "json: unsupported value")) None None),
     main.mkServer W
       (config.set_once W (config.set_envs W config.bootstrapEnvs
                             (defaultConfig W [] config.SpireMode)))
       ["ns-1"]).
Proof.
  intros W s. destruct annotatedPod_reachesMarshal as [ops Hreach].
  exact (C1_marshal_failure_denies W (createRequest "Pod") s _ ops
           "json: unsupported value" Hreach eq_refl).
Defined.

(** C1 as stated fails: an annotated Pod whose patch document does not
    serialize gets a response whose allowed flag is false. *)
Lemma C1_marshal_failure_allowed_counterexample :
  let W := fixedWorld (Some annotatedPod) None None marshalFails in
  let s := main.mkServer W (defaultConfig W [] config.SpireMode) [] in
  ¬ marshalFailureAllowed W (createRequest "Pod") s.
Proof.
  intros W s Hclaim. destruct annotatedPod_reachesMarshal as [ops Hreach].
  destruct (Hclaim ops _ "json: unsupported value" Hreach eq_refl)
    as (resp & Hrev & _ & _ & Hallowed).
  vm_compute in Hrev. injection Hrev as <-.
  discriminate Hallowed.
Qed.

(** C3 (as amended).  Every CREATE request makes [Review] look the namespace
    up exactly once, whatever the kind and whether or not the workload has
    its own annotation; other requests make no lookup. *)
Theorem C3_namespace_always_queried (W : World) (in_ : AdmissionRequest.t)
    (s s' : main.admissionWebhookServer W) (r : outcome AdmissionResponse.t) :
  main.Review W in_ s = (r, s') →
  main.namespaceGets W s'
  = if decide (AdmissionRequest.Operation in_ = Create)
    then main.namespaceGets W s ++ [AdmissionRequest.Namespace in_]
    else main.namespaceGets W s.
Proof.
  intros Hrev. case_decide as Hop.
  - destruct (unmarshal_returns W in_) as [[[podMeta spec]|] Hview].
    + rewrite (Review_view W in_ s podMeta spec Hop Hview) in Hrev.
      destruct (effectiveOf in_ s podMeta) as [a|].
      * by apply injectSidecars_namespaceGets in Hrev.
      * by simplify_eq.
    + rewrite (Review_no_view W in_ s Hop Hview) in Hrev. by simplify_eq.
  - rewrite (Review_not_Create W in_ s Hop) in Hrev. by simplify_eq.
Qed.

Lemma C3_namespace_always_queried_witness :
  let W := fixedWorld None (Some annotatedDeployment) None marshalOk in
  let s := main.mkServer W (defaultConfig W [] config.SpireMode) [] in
  main.namespaceGets W (snd (main.Review W (createRequest "Deployment") s))
  = ["ns-1"].
Proof.
  intros W s.
  exact (C3_namespace_always_queried W (createRequest "Deployment") s _ _
           (surjective_pairing _)).
Defined.

(** C3 as stated fails: for a Deployment that carries the annotation itself
    the namespace is looked up all the same. *)
Lemma C3_lookup_only_for_bare_pods_counterexample :
  let W := fixedWorld None (Some annotatedDeployment) None marshalOk in
  let s := main.mkServer W (defaultConfig W [] config.SpireMode) [] in
  ¬ lookupOnlyForBarePods W (createRequest "Deployment") s.
Proof.
  intros W s Hclaim.
  specialize (Hclaim eq_refl
    (ObjectMeta.mk "" (Some ∅) (annotated "kernel://my-service/nsm-1") [])
    emptySpec _ _ eq_refl (surjective_pairing _)).
  assert (main.namespaceGets W (snd (main.Review W (createRequest "Deployment") s))
          = ["ns-1"]) as Hgets by (vm_compute; reflexivity).
  rewrite Hclaim in Hgets; [discriminate Hgets|].
  by left.
Qed.

(** ** The patch operations *)

Lemma patchOperations_inv (W : World) (cfg : config.Config W) (p annotation : string)
    (podMeta : ObjectMeta.t) (spec : PodSpec.t) (psaLevel : psa.Level)
    (envVars : list EnvVar.t) (ops : list JsonPatchOperation.t) :
  main.patchOperations W cfg p annotation podMeta spec psaLevel envVars = Ok ops →
  ∃ o1 o2 o4,
    main.createInitContainerPatch W cfg p annotation (PodSpec.InitContainers spec)
      psaLevel envVars = Ok o1
    ∧ main.createContainerPatch W cfg p (PodSpec.Containers spec) psaLevel envVars
      = Ok o2
    ∧ main.createLabelPatch W cfg p (ObjectMeta.Labels podMeta) = Ok o4
    ∧ ops = [o1; o2;
             main.createVolumesPatch W p (PodSpec.Volumes spec) psaLevel; o4].
Proof.
  unfold main.patchOperations.
  destruct (main.createInitContainerPatch _ _ _ _ _ _ _) as [o1|]; [|done].
  destruct (main.createContainerPatch _ _ _ _ _ _) as [o2|]; [|done].
  destruct (main.createLabelPatch _ _ _ _) as [o4|] eqn:E4; cbn; rewrite ?E4;
    [|done].
  intros [= <-]. by eexists _, _, _.
Qed.

(** C7.  The volumes operation appends exactly two volumes to those of the
    workload, named after the two sockets: with a level other than Privileged
    both are CSI driver references marked read-only, with Privileged both are
    host paths at the two fixed directories.  The level is Privileged when
    the namespace is nil, when its enforcement label is missing and when the
    label does not parse.  For a request that reaches serialization this
    operation, at the level of the request's namespace, is the third of the
    four. *)
Theorem C7_volume_strategy (W : World) :
  (∀ p volumes level,
     main.createVolumesPatch W p volumes level
     = NewOperation "add" (path_Join W [p; "spec"; "volumes"])
         (VolumesValue
            (volumes ++
             if decide (level = psa.LevelPrivileged)
             then [ Volume.mk "spire-agent-socket"
                      (HostPath "/run/spire/sockets" (Some "Directory"));
                    Volume.mk "nsm-socket"
                      (HostPath "/var/lib/networkservicemesh" (Some "Directory")) ]
             else [ Volume.mk "spire-agent-socket" (CSI "csi.spiffe.io" (Some true));
                    Volume.mk "nsm-socket"
                      (CSI "csi.networkservicemesh.io" (Some true)) ])))
  ∧ main.psaLevelByNamespace None = psa.LevelPrivileged
  ∧ (∀ ns, Namespace.Labels ns ≫= (.!! psa.EnforceLevelLabel) = None →
           main.psaLevelByNamespace (Some ns) = psa.LevelPrivileged)
  ∧ (∀ ns, psa.ParseLevel (map_get (Namespace.Labels ns) psa.EnforceLevelLabel) = None →
           main.psaLevelByNamespace (Some ns) = psa.LevelPrivileged)
  ∧ (∀ in_ s ops s1,
       reachesMarshal W in_ s ops s1 →
       ∃ podMeta spec,
         main.unmarshal W in_ = Ok (Some (podMeta, spec))
         ∧ ops !! 2%nat
           = Some (main.createVolumesPatch W (patchRoot W in_) (PodSpec.Volumes spec)
                     (main.psaLevelByNamespace
                        (Namespaces_Get W (AdmissionRequest.Namespace in_))))
         ∧ length ops = 4%nat).
Proof.
  split_and!.
  - intros p volumes level. unfold main.createVolumesPatch.
    by destruct level.
  - done.
  - intros ns Hmiss. unfold main.psaLevelByNamespace, map_get. by rewrite Hmiss.
  - intros ns Hbad. unfold main.psaLevelByNamespace. by rewrite Hbad.
  - intros in_ s ops s1 (_ & podMeta & spec & a & envs & cfg & Hview & _ & _ & Hops & _).
    exists podMeta, spec. split; [done|].
    apply patchOperations_inv in Hops as (o1 & o2 & o4 & _ & _ & _ & ->).
    done.
Qed.

Lemma C7_volume_strategy_witness :
  let W := fixedWorld (Some annotatedPod) None
             (Some (Namespace.mk
                      (Some {[ psa.EnforceLevelLabel := "restricted" ]}) None))
             marshalOk in
  main.psaLevelByNamespace (Some (Namespace.mk None None)) = psa.LevelPrivileged
  ∧ main.psaLevelByNamespace
      (Some (Namespace.mk (Some {[ psa.EnforceLevelLabel := "enforced" ]}) None))
    = psa.LevelPrivileged
  ∧ main.psaLevelByNamespace
      (Some (Namespace.mk (Some {[ psa.EnforceLevelLabel := "restricted" ]}) None))
    = psa.LevelRestricted
  ∧ main.createVolumesPatch W "/" [] psa.LevelRestricted
    = NewOperation "add" "//spec/volumes"
        (VolumesValue
           [ Volume.mk "spire-agent-socket" (CSI "csi.spiffe.io" (Some true));
             Volume.mk "nsm-socket" (CSI "csi.networkservicemesh.io" (Some true)) ]).
Proof.
  intros W.
  destruct (C7_volume_strategy W) as (Hvol & _ & Hmiss & Hbad & _).
  split_and!.
  - by apply Hmiss.
  - by apply Hbad.
  - reflexivity.
  - by rewrite Hvol.
Defined.

(** The loop of [createLabelPatch] on a non-nil map computes the union in
    which the configured labels take precedence. *)
Lemma createLabelPatch_merge (W : World) (cfg : config.Config W) (p : string)
    (v : gmap string string) :
  main.createLabelPatch W cfg p (Some v)
  = Ok (NewOperation "add" (path_Join W [p; "metadata"; "labels"])
          (LabelsValue (Some (config.Labels cfg ∪ v)))).
Proof.
  unfold main.createLabelPatch.
  assert (map_fold (λ key value acc, acc ≫= λ v0, main.map_assign v0 key value)
            (Ok (Some v)) (config.Labels cfg)
          = Ok (Some (config.Labels cfg ∪ v))) as ->; [|done].
  apply (map_fold_weak_ind (λ r m, r = Ok (Some (m ∪ v)))).
  - by rewrite (left_id_L ∅ (∪)).
  - intros k x m r _ ->. cbn. by rewrite insert_union_l.
Qed.

(** C8.  For a workload label map [v] and the configured label map, the
    label operation re-emits the whole merged map: every configured entry is
    in it with the configured value, every other key has the workload's value
    (or is absent like there), and building the operation again from the
    merged map, with the same configuration, yields the same operation. *)
Theorem C8_label_merge_idempotent (W : World) (cfg : config.Config W) (p : string)
    (v : gmap string string) :
  ∃ merged : gmap string string,
    main.createLabelPatch W cfg p (Some v)
    = Ok (NewOperation "add" (path_Join W [p; "metadata"; "labels"])
            (LabelsValue (Some merged)))
    ∧ (∀ key value, config.Labels cfg !! key = Some value →
                    merged !! key = Some value)
    ∧ (∀ key, config.Labels cfg !! key = None → merged !! key = v !! key)
    ∧ main.createLabelPatch W cfg p (Some merged)
      = main.createLabelPatch W cfg p (Some v).
Proof.
  exists (config.Labels cfg ∪ v). split_and!.
  - apply createLabelPatch_merge.
  - intros key value Hk. by apply lookup_union_Some_l.
  - intros key Hk. by apply lookup_union_r.
  - rewrite !createLabelPatch_merge.
    by rewrite (assoc_L (∪)), (idemp_L (∪)).
Qed.

Lemma C8_label_merge_idempotent_witness :
  let W := fixedWorld None None None marshalOk in
  let cfg := defaultConfig W [] config.SpireMode in
  ∃ merged : gmap string string,
    main.createLabelPatch W cfg "/" (Some {[ "nsm" := "false"; "app" := "web" ]})
    = Ok (NewOperation "add" "//metadata/labels" (LabelsValue (Some merged)))
    ∧ merged !! "nsm" = Some "true"
    ∧ merged !! "app" = Some "web"
    ∧ merged !! "tier" = None.
Proof.
  intros W cfg.
  destruct (C8_label_merge_idempotent W cfg "/" {[ "nsm" := "false"; "app" := "web" ]})
    as (merged & Hop & Hcfg & Hrest & _).
  exists merged. split_and!.
  - exact Hop.
  - apply Hcfg. reflexivity.
  - rewrite Hrest by reflexivity. reflexivity.
  - rewrite Hrest by reflexivity. reflexivity.
Defined.

(** ** Resource limits of the injected init containers *)

Lemma onLast_snoc {A} (l : list A) (x : A) (f : A → outcome A) :
  main.onLast (l ++ [x]) f = (f x ≫= λ x', Ok (l ++ [x'])).
Proof.
  unfold main.onLast. rewrite last_snoc.
  destruct (f x) as [x'|msg]; cbn; [|done].
  rewrite length_app. cbn. rewrite Nat.add_1_r. cbn.
  rewrite insert_app_r_alt by done. by rewrite Nat.sub_diag.
Qed.

(** [addResourcesLimits] replaces the whole [Resources] of the container. *)
Lemma addResourcesLimits_Ok (W : World) (cfg : config.Config W) (c c' : Container.t) :
  main.addResourcesLimits W cfg c = Ok c' →
  ∃ lcpu lmem rcpu rmem,
    resource_ParseQuantity W (config.SidecarLimitsCPU cfg) = Some lcpu
    ∧ resource_ParseQuantity W (config.SidecarLimitsMemory cfg) = Some lmem
    ∧ c' = main.set_Resources
             (ResourceRequirements.mk
                (Some (<["cpu" := lcpu]> (<["memory" := lmem]> ∅)))
                (Some (<["cpu" := rcpu]> (<["memory" := rmem]> ∅)))) c.
Proof.
  unfold main.addResourcesLimits, resource_MustParse.
  destruct (resource_ParseQuantity W (config.SidecarLimitsCPU cfg)) as [lcpu|]; [|done].
  destruct (resource_ParseQuantity W (config.SidecarLimitsMemory cfg)) as [lmem|]; [|done].
  destruct (resource_ParseQuantity W (config.SidecarRequestsCPU cfg)) as [rcpu|]; [|done].
  destruct (resource_ParseQuantity W (config.SidecarRequestsMemory cfg)) as [rmem|]; [|done].
  cbn. intros [= <-]. by eexists _, _, _, _.
Qed.

Lemma appendInitContainer_Ok (W : World) (cfg : config.Config W)
    (poolResources : option (gmap string Z)) (psaLevel : psa.Level)
    (envVars : list EnvVar.t) (acc : outcome (list Container.t)) (img : string)
    (l' : list Container.t) :
  main.appendInitContainer W cfg poolResources psaLevel envVars acc img = Ok l' →
  ∃ l c, acc = Ok l ∧ l' = l ++ [c] ∧ staticLimits W cfg c.
Proof.
  unfold main.appendInitContainer.
  destruct acc as [l|msg]; [|done]. cbn.
  rewrite onLast_snoc. cbn. rewrite onLast_snoc.
  destruct (main.addResources W _ poolResources) as [c1|]; [|done]. cbn.
  rewrite onLast_snoc.
  destruct (main.addResourcesLimits W cfg c1) as [c2|] eqn:E2; [|done]. cbn.
  apply addResourcesLimits_Ok in E2 as (lcpu & lmem & rcpu & rmem & Hc & Hm & ->).
  case_decide.
  - rewrite onLast_snoc. cbn. intros [= <-]. eexists _, _.
    split_and!; [done..|]. by exists lcpu, lmem.
  - intros [= <-]. eexists _, _. split_and!; [done..|]. by exists lcpu, lmem.
Qed.

Lemma foldl_appendInitContainer_Ok (W : World) (cfg : config.Config W)
    (poolResources : option (gmap string Z)) (psaLevel : psa.Level)
    (envVars : list EnvVar.t) (imgs : list string)
    (acc : outcome (list Container.t)) (l' : list Container.t) :
  foldl (main.appendInitContainer W cfg poolResources psaLevel envVars) acc imgs
  = Ok l' →
  ∃ l added, acc = Ok l ∧ l' = l ++ added
    ∧ length added = length imgs ∧ Forall (staticLimits W cfg) added.
Proof.
  revert acc. induction imgs as [|img imgs IH]; intros acc; cbn.
  - intros ->. exists l', []. by rewrite app_nil_r.
  - intros Hrun. apply IH in Hrun as (l1 & added & Hstep & -> & Hlen & Hall).
    apply appendInitContainer_Ok in Hstep as (l & c & -> & -> & Hc).
    exists l, (c :: added). rewrite <-app_assoc. cbn.
    split_and!; [done..|by rewrite Hlen|by constructor].
Qed.

Lemma addResources_returns (W : World) (c : Container.t) (r : option (gmap string Z)) :
  (∀ q, is_Some (resource_ParseQuantity W q)) →
  ∃ c', main.addResources W c r = Ok c'.
Proof.
  intros Hparse. unfold main.addResources.
  apply (map_fold_weak_ind (λ res _, ∃ c', res = Ok c')).
  - by eexists.
  - intros key value m res _ [c1 ->]. cbn.
    unfold main.addResource, resource_MustParse.
    destruct (Hparse (strconv_Itoa value)) as [q ->]. cbn. by eexists.
Qed.

Lemma foldl_appendInitContainer_returns (W : World) (cfg : config.Config W)
    (poolResources : option (gmap string Z)) (psaLevel : psa.Level)
    (envVars : list EnvVar.t) (imgs : list string) (l : list Container.t) :
  (∀ q, is_Some (resource_ParseQuantity W q)) →
  ∃ l', foldl (main.appendInitContainer W cfg poolResources psaLevel envVars)
          (Ok l) imgs = Ok l'.
Proof.
  intros Hparse. revert l. induction imgs as [|img imgs IH]; intros l; cbn [foldl].
  - by eexists.
  - assert (∃ l1, main.appendInitContainer W cfg poolResources psaLevel envVars
                    (Ok l) img = Ok l1) as [l1 ->]; [|apply IH].
    unfold main.appendInitContainer. cbn.
    rewrite onLast_snoc. cbn. rewrite onLast_snoc.
    destruct (addResources_returns W
                (main.addVolumeMounts (main.sidecarContainer W img envVars))
                poolResources Hparse) as [c1 ->]. cbn.
    rewrite onLast_snoc.
    unfold main.addResourcesLimits, resource_MustParse.
    destruct (Hparse (config.SidecarLimitsCPU cfg)) as [? ->].
    destruct (Hparse (config.SidecarLimitsMemory cfg)) as [? ->].
    destruct (Hparse (config.SidecarRequestsCPU cfg)) as [? ->].
    destruct (Hparse (config.SidecarRequestsMemory cfg)) as [? ->]. cbn.
    case_decide; [rewrite onLast_snoc|]; by eexists.
Qed.

(** The limits of the init containers appended by one call. *)
Lemma createInitContainerPatch_limits (W : World) (cfg : config.Config W)
    (p v : string) (initContainers : list Container.t) (psaLevel : psa.Level)
    (envVars : list EnvVar.t) (op : JsonPatchOperation.t) :
  main.createInitContainerPatch W cfg p v initContainers psaLevel envVars = Ok op →
  ∃ added,
    op = NewOperation "add" (path_Join W [p; "spec"; "initContainers"])
           (ContainersValue (initContainers ++ added))
    ∧ length added = length (config.InitContainerImages cfg)
    ∧ Forall (staticLimits W cfg) added.
Proof.
  unfold main.createInitContainerPatch.
  destruct (foldl _ _ _) as [l'|] eqn:Hrun; [|done]. cbn. intros [= <-].
  apply foldl_appendInitContainer_Ok in Hrun
    as (l & added & [= <-] & -> & Hlen & Hall).
  by exists added.
Qed.

Lemma staticLimits_no_token (W : World) (cfg : config.Config W) (c : Container.t)
    (token : string) :
  staticLimits W cfg c → token ≠ "cpu" → token ≠ "memory" →
  ResourceRequirements.Limits (Container.Resources c) ≫= (.!! token) = None.
Proof.
  intros (lcpu & lmem & _ & _ & ->) Hcpu Hmem. cbn.
  by rewrite !lookup_insert_ne.
Qed.

(** C2 (what the code does).  Whatever the effective annotation [v] and the
    pool counts [parseResources] derives from it, the init containers appended
    by [createInitContainerPatch], one per configured image, have exactly two
    limits, "cpu" and "memory", taken from the configuration: the per-token
    limits set by [addResources] are replaced by [addResourcesLimits], so no
    limit is named after a token.  The operation is produced whenever the
    quantities parse, and it is the first operation of the patch document of
    every request that reaches serialization. *)
Theorem C2_token_limits_overwritten (W : World) :
  (∀ cfg p v initContainers psaLevel envVars op,
     main.createInitContainerPatch W cfg p v initContainers psaLevel envVars = Ok op →
     ∃ added,
       op = NewOperation "add" (path_Join W [p; "spec"; "initContainers"])
              (ContainersValue (initContainers ++ added))
       ∧ length added = length (config.InitContainerImages cfg)
       ∧ Forall (λ c,
           (∃ lcpu lmem,
              resource_ParseQuantity W (config.SidecarLimitsCPU cfg) = Some lcpu
              ∧ resource_ParseQuantity W (config.SidecarLimitsMemory cfg) = Some lmem
              ∧ ResourceRequirements.Limits (Container.Resources c)
                = Some (<["cpu" := lcpu]> (<["memory" := lmem]> ∅)))
           ∧ ∀ token, token ≠ "cpu" → token ≠ "memory" →
               ResourceRequirements.Limits (Container.Resources c) ≫= (.!! token)
               = None) added)
  ∧ (∀ cfg p v initContainers psaLevel envVars,
       (∀ q, is_Some (resource_ParseQuantity W q)) →
       ∃ op, main.createInitContainerPatch W cfg p v initContainers psaLevel envVars
             = Ok op)
  ∧ (∀ in_ s ops s1,
       reachesMarshal W in_ s ops s1 →
       ∃ podMeta spec added,
         main.unmarshal W in_ = Ok (Some (podMeta, spec))
         ∧ JsonPatchOperation.Value <$> ops !! 0%nat
           = Some (ContainersValue (PodSpec.InitContainers spec ++ added))
         ∧ Forall (λ c,
             ∀ token, token ≠ "cpu" → token ≠ "memory" →
               ResourceRequirements.Limits (Container.Resources c) ≫= (.!! token)
               = None) added).
Proof.
  split_and!.
  - intros cfg p v initContainers psaLevel envVars op Hop.
    apply createInitContainerPatch_limits in Hop as (added & -> & Hlen & Hall).
    exists added. split_and!; [done..|].
    eapply Forall_impl; [exact Hall|].
    intros c Hc. split; [exact Hc|].
    intros token. by apply (staticLimits_no_token W cfg).
  - intros cfg p v initContainers psaLevel envVars Hparse.
    unfold main.createInitContainerPatch.
    destruct (foldl_appendInitContainer_returns W cfg (main.parseResources W v)
                psaLevel envVars (config.InitContainerImages cfg) initContainers
                Hparse) as [l' ->].
    by eexists.
  - intros in_ s ops s1
      (_ & podMeta & spec & a & envs & cfg & Hview & _ & _ & Hops & _).
    apply patchOperations_inv in Hops as (o1 & o2 & o4 & Hinit & _ & _ & ->).
    apply createInitContainerPatch_limits in Hinit as (added & -> & _ & Hall).
    exists podMeta, spec, added. split_and!; [done..|].
    eapply Forall_impl; [exact Hall|].
    intros c Hc token. by apply (staticLimits_no_token W cfg).
Qed.

Lemma C2_token_limits_overwritten_witness :
  let W := fixedWorld (Some annotatedPod) None None marshalOk in
  let cfg := defaultConfig W [] config.SpireMode in
  let v := "kernel://my-service/nsm-1?sriovToken=worker.domain/10G" in
  main.parseResources W v = Some {[ "worker.domain/10G" := 1%Z ]}
  ∧ ∃ c,
      main.createInitContainerPatch W cfg "/" v [] psa.LevelPrivileged []
      = Ok (NewOperation "add" "//spec/initContainers" (ContainersValue [c]))
      ∧ ResourceRequirements.Limits (Container.Resources c)
        = Some (<["cpu" := quantity "200m"]> (<["memory" := quantity "80Mi"]> ∅))
      ∧ ResourceRequirements.Limits (Container.Resources c)
          ≫= (.!! "worker.domain/10G") = None.
Proof.
  intros W cfg v. split; [vm_compute; reflexivity|].
  destruct (C2_token_limits_overwritten W) as (Hlimits & Hreturns & _).
  destruct (Hreturns cfg "/" v [] psa.LevelPrivileged []) as [op Hop];
    [by eexists|].
  destruct (Hlimits _ _ _ _ _ _ op Hop) as (added & -> & Hlen & Hall).
  destruct added as [|c [|? ?]]; try discriminate Hlen.
  apply Forall_singleton in Hall as [(lcpu & lmem & [= <-] & [= <-] & Hlim) Hnone].
  exists c. split_and!; [exact Hop|exact Hlim|by apply Hnone].
Defined.

(** ** The self-signed certificate *)

(** C9.  In self-registering mode without both a certificate and a key file:
    the template of the self-signed certificate lists the DNS names
    "ServiceName.Namespace" and "ServiceName.Namespace.svc"; [initializeCert]
    returns exactly when the key is generated, the certificate created from
    that template and the PEM certificate and PEM key accepted together by
    [tls.X509KeyPair]; the [Config] then holds that key pair as its
    certificate and the PEM bytes of the generated certificate as its CA
    bundle; and [initializeCABundle], which runs next, keeps a CA bundle that
    is not empty. *)
Theorem C9_self_signed_certificate (W : World) (c : config.Config W) :
  config.WebhookMode c = config.SelfregisterMode →
  config.IsExistingCertificatesUsed W c = false →
  let template := config.certTemplate W c (time_Now W) in
  (config.ServiceName c +:+ "." +:+ config.Namespace c) ∈ x509.DNSNames template
  ∧ (config.ServiceName c +:+ "." +:+ config.Namespace c +:+ ".svc")
    ∈ x509.DNSNames template
  ∧ (∀ c', config.initializeCert W c = (Ok (), c')
       ↔ ∃ key certRaw keyPair,
           rsa_GenerateKey W 2048 = inl key
           ∧ x509_CreateCertificate W template key = inl certRaw
           ∧ tls_X509KeyPair W
               (pem_EncodeToMemory W "CERTIFICATE" certRaw)
               (pem_EncodeToMemory W "RSA PRIVATE KEY"
                  (x509_MarshalPKCS1PrivateKey W key)) = inl keyPair
           ∧ config.cert c' = Some keyPair
           ∧ config.caBundle c' = pem_EncodeToMemory W "CERTIFICATE" certRaw
           ∧ c' = config.set_cert W keyPair
                    (config.set_caBundle W
                       (pem_EncodeToMemory W "CERTIFICATE" certRaw) c))
  ∧ (∀ c', config.caBundle c' ≠ [] →
           config.initializeCABundle W c' = (Ok (), c'))
  ∧ (∀ c', config.initializeCert W c = (Ok (), c') →
           config.caBundle c' ≠ [] →
           (_ ← config.initializeCert W; config.initializeCABundle W) c
           = (Ok (), c')).
Proof.
  intros Hmode Hfiles template.
  assert (∀ c', config.caBundle c' ≠ [] →
                config.initializeCABundle W c' = (Ok (), c')) as Hkeep.
  { intros c' Hbundle. unfold config.initializeCABundle.
    unfold mbind, M_bind, mret, M_ret, get.
    case_decide; [done|].
    destruct (config.caBundle c'); done. }
  split_and!; [| | |exact Hkeep|].
  4:{ intros c' Hcert Hbundle. unfold mbind, M_bind. rewrite Hcert.
      by apply Hkeep. }
  - apply list_elem_of_here.
  - apply list_elem_of_further, list_elem_of_here.
  - intros c'.
    unfold config.initializeCert, config.selfSignedInMemoryCertificate.
    unfold mbind, M_bind, mret, M_ret, get, modify, panic.
    rewrite Hfiles, decide_True by done. fold template.
    destruct (rsa_GenerateKey W 2048) as [key|e1] eqn:Hkey.
    2:{ split; [done|]. by intros (? & ? & ? & ? & _). }
    destruct (x509_CreateCertificate W template key) as [certRaw|e2] eqn:Hraw.
    2:{ split; [done|]. intros (? & ? & ? & [= <-] & Hc & _). congruence. }
    destruct (tls_X509KeyPair W _ _) as [keyPair|e3] eqn:Hpair.
    2:{ split; [done|]. intros (? & ? & ? & [= <-] & Hc & Hp & _).
        rewrite Hraw in Hc. injection Hc as <-. congruence. }
    split.
    + intros [= <-]. by exists key, certRaw, keyPair.
    + intros (? & ? & ? & [= <-] & Hc & Hp & _ & _ & ->).
      rewrite Hraw in Hc. injection Hc as <-.
      rewrite Hpair in Hp. by injection Hp as <-.
Qed.

Lemma C9_self_signed_certificate_witness :
  let W := fixedWorld None None None marshalOk in
  let c := defaultConfig W [] config.SelfregisterMode in
  let pemCert := [Byte.x2d; Byte.x30; Byte.x82] in
  let pemKey := [Byte.x2d; Byte.x30; Byte.x81] in
  x509.DNSNames (config.certTemplate W c (time_Now W))
  = ["default.default"; "default.default.svc"]
  ∧ tls_X509KeyPair W pemCert pemKey = inl (pemCert, pemKey)
  ∧ config.initializeCert W c
    = (Ok (), config.set_cert W (pemCert, pemKey) (config.set_caBundle W pemCert c)).
Proof.
  intros W c pemCert pemKey.
  destruct (C9_self_signed_certificate W c eq_refl eq_refl) as (_ & _ & Hcert & _ & _).
  split_and!; [reflexivity..|].
  apply Hcert. exists 65537%Z, [Byte.x30; Byte.x82], (pemCert, pemKey).
  split_and!; reflexivity.
Defined.

(** * Further properties of package [main] *)

(** ** The three outcomes of the injection branch *)

Lemma injectSidecars_cases (W : World) (resp : AdmissionResponse.t)
    (p annotation : string) (podMeta : ObjectMeta.t) (spec : PodSpec.t)
    (namespace : option Namespace.t) (s : main.admissionWebhookServer W) :
  main.injectSidecars W resp p annotation podMeta spec namespace s
  = match config.GetOrResolveEnvs W (main.config_ W s) with
    | (Panic msg, cfg) => (Panic msg, main.set_config W cfg s)
    | (Ok envs, cfg) =>
        match main.patchOperations W cfg p annotation podMeta spec
                (main.psaLevelByNamespace namespace)
                (main.sidecarEnvVars W cfg envs annotation podMeta) with
        | Panic msg => (Panic msg, main.set_config W cfg s)
        | Ok ops =>
            (Ok match json_Marshal W ops with
                | inr err =>
                    AdmissionResponse.mk (AdmissionResponse.UID resp)
                      (AdmissionResponse.Allowed resp) (Some (Status.mk err))
                      (AdmissionResponse.Patch resp)
                      (AdmissionResponse.PatchType resp)
                | inl patch =>
                    AdmissionResponse.mk (AdmissionResponse.UID resp) true
                      (AdmissionResponse.Result resp) (Some patch)
                      (Some PatchTypeJSONPatch)
                end,
             main.set_config W cfg s)
        end
    end.
Proof.
  destruct (config.GetOrResolveEnvs W (main.config_ W s)) as [[envs|msg] cfg] eqn:Hget.
  - destruct (main.patchOperations _ _ _ _ _ _ _ _) as [ops|msg] eqn:Hops.
    + by apply (injectSidecars_run W _ _ _ _ _ _ s envs cfg ops).
    + unfold main.injectSidecars.
      unfold mbind at 1, M_bind at 1, main.onConfig. rewrite Hget.
      unfold mbind at 1, M_bind at 1, get. cbn [main.config_ main.set_config].
      unfold mbind at 1, M_bind at 1, liftO. by rewrite Hops.
  - unfold main.injectSidecars.
    unfold mbind at 1, M_bind at 1, main.onConfig. by rewrite Hget.
Qed.

(** Every request falls in one of three classes. *)
Lemma Review_cases (W : World) (in_ : AdmissionRequest.t)
    (s : main.admissionWebhookServer W) :
  (AdmissionRequest.Operation in_ ≠ Create
   ∧ main.Review W in_ s = (Ok (allowedUnmodified in_), s))
  ∨ (AdmissionRequest.Operation in_ = Create
     ∧ (main.unmarshal W in_ = Ok None
        ∨ ∃ podMeta spec, main.unmarshal W in_ = Ok (Some (podMeta, spec))
                          ∧ effectiveOf in_ s podMeta = None)
     ∧ main.Review W in_ s = (Ok (allowedUnmodified in_), afterLookup in_ s))
  ∨ (AdmissionRequest.Operation in_ = Create
     ∧ ∃ podMeta spec annotation,
         main.unmarshal W in_ = Ok (Some (podMeta, spec))
         ∧ effectiveOf in_ s podMeta = Some annotation
         ∧ main.Review W in_ s
           = main.injectSidecars W (initialResponse in_) (patchRoot W in_)
               annotation podMeta spec
               (Namespaces_Get W (AdmissionRequest.Namespace in_))
               (afterLookup in_ s)).
Proof.
  destruct (decide (AdmissionRequest.Operation in_ = Create)) as [Hop|Hop].
  - right. destruct (unmarshal_returns W in_) as [[[podMeta spec]|] Hview].
    + pose proof (Review_view W in_ s podMeta spec Hop Hview) as Hrev.
      destruct (effectiveOf in_ s podMeta) as [a|] eqn:Heff.
      * right. split; [done|]. by exists podMeta, spec, a.
      * left. split_and!; [done| |done]. right. by exists podMeta, spec.
    + left. split_and!; [done|by left|]. by apply Review_no_view.
  - left. split; [done|]. by apply Review_not_Create.
Qed.

(** ** What a response of [Review] looks like *)

(** X1.  Whatever the request, a response returned by [Review] echoes the
    request's UID; it is allowed exactly when it has no status; it has a
    patch exactly when its patch type is JSONPatch, and then it is allowed. *)
Theorem X1_response_shape (W : World) (in_ : AdmissionRequest.t)
    (s s' : main.admissionWebhookServer W) (resp : AdmissionResponse.t) :
  main.Review W in_ s = (Ok resp, s') →
  AdmissionResponse.UID resp = AdmissionRequest.UID in_
  ∧ (AdmissionResponse.Allowed resp = true ↔ AdmissionResponse.Result resp = None)
  ∧ (is_Some (AdmissionResponse.Patch resp)
     ↔ AdmissionResponse.PatchType resp = Some PatchTypeJSONPatch)
  ∧ (AdmissionResponse.PatchType resp = None
     ∨ AdmissionResponse.PatchType resp = Some PatchTypeJSONPatch)
  ∧ (is_Some (AdmissionResponse.Patch resp) → AdmissionResponse.Allowed resp = true).
Proof.
  intros Hrev.
  assert (resp = allowedUnmodified in_
          ∨ (∃ err, resp = AdmissionResponse.mk (AdmissionRequest.UID in_) false
                             (Some (Status.mk err)) None None)
          ∨ (∃ patch, resp = AdmissionResponse.mk (AdmissionRequest.UID in_) true
                               None (Some patch) (Some PatchTypeJSONPatch)))
    as Hshape.
  { destruct (Review_cases W in_ s)
      as [[_ Hr]|[(_ & _ & Hr)|(_ & pm & spec & a & _ & _ & Hr)]];
      rewrite Hr in Hrev; [left; by simplify_eq..|].
    rewrite injectSidecars_cases in Hrev.
    destruct (config.GetOrResolveEnvs W _) as [[envs|msg] cfg]; [|done].
    destruct (main.patchOperations _ _ _ _ _ _ _ _) as [ops|msg]; [|done].
    right. destruct (json_Marshal W ops) as [patch|err]; simplify_eq.
    - right. by exists patch.
    - left. by exists err. }
  destruct Hshape as [->|[[err ->]|[patch ->]]]; cbn.
  - split_and!; [done|done| |by left|by intros [??]].
    split; [by intros [??]|done].
  - split_and!; [done| | |by left|by intros [??]].
    + split; done.
    + split; [by intros [??]|done].
  - split_and!; [done|done| |by right|done].
    split; [done|by eexists].
Qed.

Lemma annotatedPod_reaches (marshal : list JsonPatchOperation.t → bytes + string) :
  let W := fixedWorld (Some annotatedPod) None None marshal in
  let s := main.mkServer W (defaultConfig W [] config.SpireMode) [] in
  ∃ ops,
    reachesMarshal W (createRequest "Pod") s ops
      (main.mkServer W
         (config.set_once W (config.set_envs W config.bootstrapEnvs
                               (defaultConfig W [] config.SpireMode)))
         ["ns-1"]).
Proof.
  intros W s. eexists. split; [reflexivity|].
  exists (ObjectMeta.mk "" (Some ∅) (annotated "kernel://my-service/nsm-1") []),
    emptySpec, "kernel://my-service/nsm-1", config.bootstrapEnvs.
  eexists. split_and!; [reflexivity| |reflexivity| |reflexivity].
  - vm_compute. reflexivity.
  - vm_compute. reflexivity.
Defined.

Lemma X1_response_shape_witness :
  let W := fixedWorld (Some annotatedPod) None None marshalOk in
  let s := main.mkServer W (defaultConfig W [] config.SpireMode) [] in
  let resp := AdmissionResponse.mk "705ab4f5-6393-11e8-b7cc-42010a800002" true None
                (Some [Byte.x5b; Byte.x5d]) (Some "JSONPatch") in
  main.Review W (createRequest "Pod") s
  = (Ok resp, snd (main.Review W (createRequest "Pod") s))
  ∧ AdmissionResponse.UID resp = "705ab4f5-6393-11e8-b7cc-42010a800002"
  ∧ (is_Some (AdmissionResponse.Patch resp) → AdmissionResponse.Allowed resp = true).
Proof.
  intros W s resp.
  assert (main.Review W (createRequest "Pod") s
          = (Ok resp, snd (main.Review W (createRequest "Pod") s))) as Hrev
    by (vm_compute; reflexivity).
  destruct (X1_response_shape W (createRequest "Pod") s _ resp Hrev)
    as (Huid & _ & _ & _ & Hallowed).
  by split_and!.
Defined.

(** X2.  [Review] returns a response carrying patch [patch] exactly when the
    request reaches serialization (a CREATE with a decoded view and a
    non-empty effective annotation, whose env vars and operations are built)
    and [json.Marshal] yields [patch]; the response is then allowed, has no
    status and has patch type JSONPatch.  No other request is ever patched. *)
Theorem X2_patch_iff_injection (W : World) (in_ : AdmissionRequest.t)
    (s s' : main.admissionWebhookServer W) (resp : AdmissionResponse.t)
    (patch : bytes) :
  (main.Review W in_ s = (Ok resp, s') ∧ AdmissionResponse.Patch resp = Some patch)
  ↔ ∃ ops, reachesMarshal W in_ s ops s'
         ∧ json_Marshal W ops = inl patch
         ∧ resp = AdmissionResponse.mk (AdmissionRequest.UID in_) true None
                    (Some patch) (Some PatchTypeJSONPatch).
Proof.
  split.
  - intros [Hrev Hpatch].
    destruct (Review_cases W in_ s)
      as [[_ Hr]|[(_ & _ & Hr)|(Hop & pm & spec & a & Hview & Heff & Hr)]];
      rewrite Hr in Hrev; [by simplify_eq..|].
    rewrite injectSidecars_cases in Hrev.
    destruct (config.GetOrResolveEnvs W _) as [[envs|msg] cfg] eqn:Hget; [|done].
    destruct (main.patchOperations _ _ _ _ _ _ _ _) as [ops|msg] eqn:Hops; [|done].
    exists ops.
    destruct (json_Marshal W ops) as [patch'|err] eqn:Hm; simplify_eq.
    cbn in Hpatch. simplify_eq. split; [|done].
    split; [done|]. by exists pm, spec, a, envs, cfg.
  - intros (ops & (Hop & pm & spec & a & envs & cfg & Hview & Heff & Hget & Hops & ->)
            & Hm & ->).
    split; [|done].
    rewrite (Review_view W in_ s pm spec Hop Hview), Heff.
    rewrite (injectSidecars_run W _ _ _ _ _ _ (afterLookup in_ s) envs cfg ops
               Hget Hops).
    by rewrite Hm.
Qed.

Lemma X2_patch_iff_injection_witness :
  let W := fixedWorld (Some annotatedPod) None None marshalOk in
  let s := main.mkServer W (defaultConfig W [] config.SpireMode) [] in
  main.Review W (createRequest "Pod") s
  = (Ok (AdmissionResponse.mk "705ab4f5-6393-11e8-b7cc-42010a800002" true None
           (Some [Byte.x5b; Byte.x5d]) (Some "JSONPatch")),
     main.mkServer W
       (config.set_once W (config.set_envs W config.bootstrapEnvs
                             (defaultConfig W [] config.SpireMode)))
       ["ns-1"]).
Proof.
  intros W s. destruct (annotatedPod_reaches marshalOk) as [ops Hreach].
  refine (proj1 (proj2 (X2_patch_iff_injection W (createRequest "Pod") s _ _
                          [Byte.x5b; Byte.x5d]) _)).
  exists ops. split_and!; [exact Hreach|reflexivity|reflexivity].
Defined.

(** ** The injected containers *)

Lemma addResourcesLimits_run (W : World) (cfg : config.Config W) (c : Container.t)
    (lcpu lmem rcpu rmem : Quantity) :
  sidecarQuantities W cfg lcpu lmem rcpu rmem →
  main.addResourcesLimits W cfg c
  = Ok (main.set_Resources
          (ResourceRequirements.mk
             (Some (<["cpu" := lcpu]> (<["memory" := lmem]> ∅)))
             (Some (<["cpu" := rcpu]> (<["memory" := rmem]> ∅)))) c).
Proof.
  intros (H1 & H2 & H3 & H4).
  unfold main.addResourcesLimits, resource_MustParse.
  by rewrite H1, H2, H3, H4.
Qed.

Lemma addResourcesLimits_panics (W : World) (cfg : config.Config W) (c : Container.t) :
  (resource_ParseQuantity W (config.SidecarLimitsCPU cfg) = None
   ∨ resource_ParseQuantity W (config.SidecarLimitsMemory cfg) = None
   ∨ resource_ParseQuantity W (config.SidecarRequestsCPU cfg) = None
   ∨ resource_ParseQuantity W (config.SidecarRequestsMemory cfg) = None) →
  ∃ msg, main.addResourcesLimits W cfg c = Panic msg.
Proof.
  intros Hbad. unfold main.addResourcesLimits, resource_MustParse.
  destruct (resource_ParseQuantity W (config.SidecarLimitsCPU cfg)); [|by eexists].
  destruct (resource_ParseQuantity W (config.SidecarLimitsMemory cfg)); [|by eexists].
  destruct (resource_ParseQuantity W (config.SidecarRequestsCPU cfg)); [|by eexists].
  destruct (resource_ParseQuantity W (config.SidecarRequestsMemory cfg)); [|by eexists].
  by destruct Hbad as [?|[?|[?|?]]].
Qed.

(** [addResources] touches nothing but [Resources]. *)
Lemma addResources_frame (W : World) (c c' : Container.t) (r : option (gmap string Z)) :
  main.addResources W c r = Ok c' →
  c' = main.set_Resources (Container.Resources c') c.
Proof.
  unfold main.addResources. revert c'.
  apply (map_fold_weak_ind
           (λ res _, ∀ c', res = Ok c' → c' = main.set_Resources (Container.Resources c') c)).
  - intros c' [= <-]. by destruct c.
  - intros key value m res _ IH c'. destruct res as [c1|]; [|done]. cbn.
    unfold main.addResource, resource_MustParse.
    destruct (resource_ParseQuantity W _); [|done]. cbn. intros [= <-].
    rewrite (IH c1 eq_refl). done.
Qed.

Lemma appendContainer_run (W : World) (cfg : config.Config W) (psaLevel : psa.Level)
    (envVars : list EnvVar.t) (l : list Container.t) (img : string)
    (lcpu lmem rcpu rmem : Quantity) :
  sidecarQuantities W cfg lcpu lmem rcpu rmem →
  main.appendContainer W cfg psaLevel envVars (Ok l) img
  = Ok (l ++ [injectedContainer W img envVars psaLevel lcpu lmem rcpu rmem]).
Proof.
  intros Hq. unfold main.appendContainer. cbn.
  rewrite onLast_snoc. cbn. rewrite onLast_snoc.
  rewrite (addResourcesLimits_run W cfg _ lcpu lmem rcpu rmem Hq). cbn.
  unfold injectedContainer. case_decide; [by rewrite onLast_snoc|done].
Qed.

Lemma appendInitContainer_run (W : World) (cfg : config.Config W)
    (poolResources : option (gmap string Z)) (psaLevel : psa.Level)
    (envVars : list EnvVar.t) (l : list Container.t) (img : string)
    (lcpu lmem rcpu rmem : Quantity) :
  sidecarQuantities W cfg lcpu lmem rcpu rmem →
  (∀ n, is_Some (resource_ParseQuantity W (strconv_Itoa n))) →
  main.appendInitContainer W cfg poolResources psaLevel envVars (Ok l) img
  = Ok (l ++ [injectedContainer W img envVars psaLevel lcpu lmem rcpu rmem]).
Proof.
  intros Hq Hitoa. unfold main.appendInitContainer. cbn.
  rewrite onLast_snoc. cbn. rewrite onLast_snoc.
  assert (∃ c1, main.addResources W
                  (main.addVolumeMounts (main.sidecarContainer W img envVars))
                  poolResources = Ok c1) as [c1 Hc1].
  { unfold main.addResources.
    apply (map_fold_weak_ind (λ res _, ∃ c', res = Ok c')); [by eexists|].
    intros key value m res _ [c' ->]. cbn.
    unfold main.addResource, resource_MustParse.
    destruct (Hitoa value) as [q ->]. cbn. by eexists. }
  rewrite Hc1. cbn. rewrite onLast_snoc.
  rewrite (addResourcesLimits_run W cfg _ lcpu lmem rcpu rmem Hq). cbn.
  rewrite (addResources_frame W _ c1 _ Hc1).
  unfold injectedContainer. case_decide; [by rewrite onLast_snoc|done].
Qed.

Lemma foldl_Panic {A B} (f : outcome A → B → outcome A) (msg : string) (l : list B) :
  (∀ m x, f (Panic m) x = Panic m) →
  foldl f (Panic msg) l = Panic msg.
Proof. intros Hf. induction l as [|x l IH]; cbn; [done|]. by rewrite Hf. Qed.

(** X3.  [createContainerPatch] re-emits the workload's containers followed
    by one container per configured image, in order, each of the shape
    [injectedContainer] (name from the image, the given env vars, pull policy
    IfNotPresent, both socket mounts read-only, the configured limits and
    requests, and the restricted security context only at level Restricted).
    With no image configured the quantities are never parsed; with at least
    one image and a quantity that does not parse, the function panics. *)
Theorem X3_createContainerPatch_shape (W : World) (cfg : config.Config W)
    (p : string) (containers : list Container.t) (psaLevel : psa.Level)
    (envVars : list EnvVar.t) :
  (∀ lcpu lmem rcpu rmem,
     sidecarQuantities W cfg lcpu lmem rcpu rmem →
     main.createContainerPatch W cfg p containers psaLevel envVars
     = Ok (NewOperation "add" (path_Join W [p; "spec"; "containers"])
             (ContainersValue
                (containers ++
                 ((λ img, injectedContainer W img envVars psaLevel lcpu lmem rcpu rmem)
                    <$> config.ContainerImages cfg)))))
  ∧ (config.ContainerImages cfg = [] →
     main.createContainerPatch W cfg p containers psaLevel envVars
     = Ok (NewOperation "add" (path_Join W [p; "spec"; "containers"])
             (ContainersValue containers)))
  ∧ (config.ContainerImages cfg ≠ [] →
     (resource_ParseQuantity W (config.SidecarLimitsCPU cfg) = None
      ∨ resource_ParseQuantity W (config.SidecarLimitsMemory cfg) = None
      ∨ resource_ParseQuantity W (config.SidecarRequestsCPU cfg) = None
      ∨ resource_ParseQuantity W (config.SidecarRequestsMemory cfg) = None) →
     ∃ msg, main.createContainerPatch W cfg p containers psaLevel envVars
            = Panic msg).
Proof.
  unfold main.createContainerPatch. split_and!.
  - intros lcpu lmem rcpu rmem Hq.
    assert (∀ imgs l,
              foldl (main.appendContainer W cfg psaLevel envVars) (Ok l) imgs
              = Ok (l ++ ((λ img, injectedContainer W img envVars psaLevel
                                    lcpu lmem rcpu rmem) <$> imgs))) as Hfold.
    { induction imgs as [|img imgs IH]; intros l; cbn [foldl fmap list_fmap].
      - by rewrite app_nil_r.
      - rewrite (appendContainer_run W cfg psaLevel envVars l img _ _ _ _ Hq).
        rewrite IH. by rewrite <-app_assoc. }
    by rewrite Hfold.
  - by intros ->.
  - intros Himgs Hbad.
    destruct (config.ContainerImages cfg) as [|img imgs]; [done|].
    cbn [foldl].
    destruct (addResourcesLimits_panics W cfg
                (main.addVolumeMounts (main.sidecarContainer W img envVars)) Hbad)
      as [msg Hpanic].
    assert (main.appendContainer W cfg psaLevel envVars (Ok containers) img
            = Panic msg) as ->.
    { unfold main.appendContainer. cbn.
      rewrite onLast_snoc. cbn. rewrite onLast_snoc. by rewrite Hpanic. }
    rewrite foldl_Panic by done. by eexists.
Qed.

Lemma X3_createContainerPatch_shape_witness :
  let W := fixedWorld None None None marshalOk in
  let cfg := defaultConfig W [] config.SpireMode in
  main.createContainerPatch W cfg "/" [] psa.LevelRestricted []
  = Ok (NewOperation "add" "//spec/containers"
          (ContainersValue
             [injectedContainer W "ghcr.io/networkservicemesh/cmd-nsc:v1" []
                psa.LevelRestricted (quantity "200m") (quantity "80Mi")
                (quantity "100m") (quantity "40Mi")])).
Proof.
  intros W cfg.
  destruct (X3_createContainerPatch_shape W cfg "/" [] psa.LevelRestricted [])
    as (Hshape & _ & _).
  apply Hshape. by split_and!.
Defined.

(** X4.  When the configured quantities and every decimal count parse,
    [createInitContainerPatch] appends exactly the containers
    [createContainerPatch] would append for the same images: the operation
    does not depend on the annotation [v] at all. *)
Theorem X4_init_containers_ignore_annotation (W : World) (cfg : config.Config W)
    (p v : string) (initContainers : list Container.t) (psaLevel : psa.Level)
    (envVars : list EnvVar.t) (lcpu lmem rcpu rmem : Quantity) :
  sidecarQuantities W cfg lcpu lmem rcpu rmem →
  (∀ n, is_Some (resource_ParseQuantity W (strconv_Itoa n))) →
  main.createInitContainerPatch W cfg p v initContainers psaLevel envVars
  = Ok (NewOperation "add" (path_Join W [p; "spec"; "initContainers"])
          (ContainersValue
             (initContainers ++
              ((λ img, injectedContainer W img envVars psaLevel lcpu lmem rcpu rmem)
                 <$> config.InitContainerImages cfg)))).
Proof.
  intros Hq Hitoa. unfold main.createInitContainerPatch.
  assert (∀ imgs l,
            foldl (main.appendInitContainer W cfg (main.parseResources W v)
                     psaLevel envVars) (Ok l) imgs
            = Ok (l ++ ((λ img, injectedContainer W img envVars psaLevel
                                  lcpu lmem rcpu rmem) <$> imgs))) as Hfold.
  { induction imgs as [|img imgs IH]; intros l; cbn [foldl fmap list_fmap].
    - by rewrite app_nil_r.
    - rewrite (appendInitContainer_run W cfg _ psaLevel envVars l img _ _ _ _
                 Hq Hitoa).
      rewrite IH. by rewrite <-app_assoc. }
  by rewrite Hfold.
Qed.

Lemma X4_init_containers_ignore_annotation_witness :
  let W := fixedWorld None None None marshalOk in
  let cfg := defaultConfig W [] config.SpireMode in
  main.createInitContainerPatch W cfg "/"
    "kernel://my-service/nsm-1?sriovToken=worker.domain/10G" []
    psa.LevelPrivileged []
  = main.createInitContainerPatch W cfg "/" "kernel://my-service/nsm-1" []
      psa.LevelPrivileged [].
Proof.
  intros W cfg.
  rewrite !(X4_init_containers_ignore_annotation W cfg "/" _ [] psa.LevelPrivileged []
              (quantity "200m") (quantity "80Mi") (quantity "100m") (quantity "40Mi"));
    [reflexivity|by split_and!|by eexists..].
Defined.

(** X5.  [addResources] merges the counts into the limits of the container:
    when every count parses (to [q n] for count [n]), each key of [r] gets
    the quantity of its count, the limits the container already had under
    other keys stay, and the requests and all other fields are untouched.
    An empty or nil [r] leaves the container as it is, a nil limit map
    included. *)
Theorem X5_addResources_merges (W : World) (c : Container.t) (r : gmap string Z)
    (q : Z → Quantity) :
  (∀ n, resource_ParseQuantity W (strconv_Itoa n) = Some (q n)) →
  main.addResources W c None = Ok c
  ∧ main.addResources W c (Some ∅) = Ok c
  ∧ (r ≠ ∅ →
     main.addResources W c (Some r)
     = Ok (main.set_Resources
             (ResourceRequirements.mk
                (Some ((q <$> r)
                       ∪ default ∅ (ResourceRequirements.Limits (Container.Resources c))))
                (ResourceRequirements.Requests (Container.Resources c))) c)).
Proof.
  intros Hq. split_and!; [done..|].
  unfold main.addResources. cbn [default].
  set (d := default ∅ (ResourceRequirements.Limits (Container.Resources c))).
  assert (∀ m : gmap string Z,
            map_fold (λ key value acc, acc ≫= main.addResource W key value) (Ok c) m
            = Ok (if decide (m = ∅) then c
                  else main.set_Resources
                         (ResourceRequirements.mk (Some ((q <$> m) ∪ d))
                            (ResourceRequirements.Requests (Container.Resources c)))
                         c)) as Hfold.
  { apply (map_fold_weak_ind
             (λ res (m : gmap string Z),
                res = Ok (if decide (m = ∅) then c
                          else main.set_Resources
                                 (ResourceRequirements.mk (Some ((q <$> m) ∪ d))
                                    (ResourceRequirements.Requests
                                       (Container.Resources c))) c))).
    - by rewrite decide_True.
    - intros key value m res _ ->. cbn.
      rewrite (decide_False (P := <[key:=value]> m = ∅))
        by apply insert_non_empty.
      unfold main.addResource, resource_MustParse. rewrite Hq. cbn.
      case_decide as Hm.
      + subst m. rewrite fmap_insert, fmap_empty.
        rewrite <-insert_union_l, (left_id_L ∅ (∪)).
        unfold d. by destruct (ResourceRequirements.Limits (Container.Resources c)).
      + cbn. by rewrite fmap_insert, <-insert_union_l. }
  intros Hr. by rewrite Hfold, decide_False.
Qed.

Lemma X5_addResources_merges_witness :
  let W := fixedWorld None None None marshalOk in
  let c := Container.mk "nsc" [] "nsc:v1" "IfNotPresent" []
             (ResourceRequirements.mk (Some {[ "cpu" := quantity "1" ]}) None) None in
  main.addResources W c (Some {[ "worker.domain/10G" := 2%Z ]})
  = Ok (Container.mk "nsc" [] "nsc:v1" "IfNotPresent" []
          (ResourceRequirements.mk
             (Some (<["worker.domain/10G" := quantity "2"]> {[ "cpu" := quantity "1" ]}))
             None) None).
Proof.
  intros W c.
  destruct (X5_addResources_merges W c {[ "worker.domain/10G" := 2%Z ]}
              (λ n, quantity (strconv_Itoa n))) as (_ & _ & Hmerge); [done|].
  etrans; [apply Hmerge, insert_non_empty|].
  vm_compute. reflexivity.
Defined.

(** ** Container names *)

Lemma strings_Split_head (name rest : string) (sep : ascii) :
  strings_Contains name sep = false →
  strings_Split (name +:+ String sep rest) sep = name :: strings_Split rest sep.
Proof.
  induction name as [|c name IH]; intros Hname.
  - change (strings_Split (String sep rest) sep = "" :: strings_Split rest sep).
    cbn. by rewrite Ascii.eqb_refl.
  - cbn in Hname. apply orb_false_iff in Hname as [Hc Hname].
    change (strings_Split (String c (name +:+ String sep rest)) sep
            = String c name :: strings_Split rest sep).
    cbn. rewrite Hc. by rewrite (IH Hname).
Qed.

Lemma strings_Split_whole (s : string) (sep : ascii) :
  strings_Contains s sep = false → strings_Split s sep = [s].
Proof.
  induction s as [|c s IH]; intros Hs; [done|].
  cbn in Hs. apply orb_false_iff in Hs as [Hc Hs].
  cbn. by rewrite Hc, (IH Hs).
Qed.

(** X6.  The container name derived from an image never contains ":"; it is
    the base of the image path when that has no ":", and otherwise the text
    of the base before its first ":", so two images that differ only in
    what follows the first ":" of their base get the same name. *)
Theorem X6_nameOf_strips_tag (W : World) (img : string) :
  strings_Contains (main.nameOf W img) ":" = false
  ∧ (strings_Contains (path_Base W img) ":" = false →
     main.nameOf W img = path_Base W img)
  ∧ (∀ name tag,
       path_Base W img = name +:+ ":" +:+ tag →
       strings_Contains name ":" = false →
       main.nameOf W img = name
       ∧ ∀ img' tag', path_Base W img' = name +:+ ":" +:+ tag' →
                      main.nameOf W img' = main.nameOf W img).
Proof.
  unfold main.nameOf. split_and!.
  - destruct (strings_Split_cut (path_Base W img) ":") as (w & ws & -> & Hw & _).
    done.
  - intros Hbase. by rewrite strings_Split_whole.
  - intros name tag Hbase Hname.
    assert (∀ i t, path_Base W i = name +:+ ":" +:+ t →
                   default "" (strings_Split (path_Base W i) ":" !! 0%nat) = name)
      as Hstrip.
    { intros i t ->. change (name +:+ ":" +:+ t) with (name +:+ String ":" t).
      by rewrite strings_Split_head. }
    split; [by apply (Hstrip img tag)|].
    intros img' tag' Hbase'. by rewrite (Hstrip img' tag'), (Hstrip img tag).
Qed.

Lemma X6_nameOf_strips_tag_witness :
  let W := fixedWorld None None None marshalOk in
  main.nameOf W "cmd-nsc:v1.11.0" = "cmd-nsc"
  ∧ main.nameOf W "cmd-nsc:latest" = main.nameOf W "cmd-nsc:v1.11.0".
Proof.
  intros W.
  destruct (X6_nameOf_strips_tag W "cmd-nsc:v1.11.0") as (_ & _ & Hstrip).
  destruct (Hstrip "cmd-nsc" "v1.11.0" eq_refl eq_refl) as [Hname Hsame].
  split; [exact Hname|]. by apply (Hsame "cmd-nsc:latest" "latest").
Defined.

(** ** Decoding, completely *)

Lemma unmarshal_by_family (W : World) (in_ : AdmissionRequest.t) :
  main.unmarshal W in_
  = match (if String.eqb (AdmissionRequest.Kind in_) "Pod"
           then main.decodePod W (AdmissionRequest.ObjectRaw in_)
           else if isWorkloadKind (AdmissionRequest.Kind in_)
                then main.decodeWorkload W (AdmissionRequest.Kind in_)
                       (AdmissionRequest.ObjectRaw in_)
                else None) with
    | None => Ok None
    | Some (metaPtr, podMeta, podSpec) =>
        main.postProcessPodMeta podMeta metaPtr (AdmissionRequest.Kind in_)
        ≫= λ '(podMeta, ok),
             if (ok : bool) then Ok (Some (podMeta, podSpec)) else Ok None
    end.
Proof.
  unfold main.unmarshal, isWorkloadKind.
  generalize (AdmissionRequest.Kind in_) (AdmissionRequest.ObjectRaw in_).
  intros kind raw.
  destruct (String.eqb_spec kind "Deployment") as [->|_]; [done|].
  destruct (String.eqb_spec kind "Pod") as [->|_]; [done|].
  destruct (String.eqb_spec kind "DaemonSet") as [->|_]; [done|].
  destruct (String.eqb_spec kind "StatefulSet") as [->|_]; [done|].
  by destruct (String.eqb_spec kind "ReplicaSet") as [->|_].
Qed.

Lemma unmarshal_view_iff (W : World) (in_ : AdmissionRequest.t)
    (podMeta : ObjectMeta.t) (spec : PodSpec.t) :
  let kind := AdmissionRequest.Kind in_ in
  let raw := AdmissionRequest.ObjectRaw in_ in
  (main.unmarshal W in_ = Ok (Some (podMeta, spec))
   ↔ (kind = "Pod"
      ∧ ∃ pod, json_Unmarshal_Pod W raw = Some pod
               ∧ podMeta = withLabels (Pod.Meta pod)
               ∧ spec = Pod.Spec pod)
     ∨ (isWorkloadKind kind = true
        ∧ ∃ w, json_Unmarshal_Workload W kind raw = Some w
               ∧ ObjectMeta.Annotations (Workload.TemplateMeta w) = None
               ∧ ¬ (kind = "ReplicaSet"
                    ∧ ∃ o, o ∈ ObjectMeta.OwnerReferences (Workload.Meta w)
                           ∧ OwnerReference.Kind o = "Deployment")
               ∧ podMeta = main.set_Annotations
                             (ObjectMeta.Annotations (Workload.Meta w))
                             (withLabels (Workload.TemplateMeta w))
               ∧ spec = Workload.TemplateSpec w)).
Proof.
  intros kind raw. rewrite unmarshal_by_family. fold kind raw.
    destruct (String.eqb_spec kind "Pod") as [Hpod|Hpod].
    - unfold main.decodePod.
      destruct (json_Unmarshal_Pod W raw) as [pod|] eqn:Hdec.
      + rewrite Hpod, postProcessPodMeta_Pod. cbn. split.
        * intros [= <- <-]. left. split; [done|]. by exists pod.
        * by intros [(_ & pod' & [= <-] & -> & ->)|[Hk _]].
      + split; [done|].
        intros [(_ & pod' & ? & _)|[Hk _]]; [done|]. by rewrite Hpod in Hk.
    - destruct (isWorkloadKind kind) eqn:Hk.
      2:{ split; [done|]. by intros [[? _]|[? _]]. }
      pose proof (isWorkloadKind_not_Pod _ Hk) as Hnp.
      unfold main.decodeWorkload.
      destruct (json_Unmarshal_Workload W kind raw) as [w|] eqn:Hdec.
      2:{ split; [done|]. intros [[? _]|(_ & w & ? & _)]; done. }
      destruct (ObjectMeta.Annotations (Workload.TemplateMeta w)) as [a|] eqn:Ha.
      { rewrite postProcessPodMeta_twice_annotated by eauto. cbn.
        split; [done|].
        intros [[? _]|(_ & w' & [= <-] & Ha' & _)]; [done|]. congruence. }
      rewrite postProcessPodMeta_inject by done. cbn.
      destruct (String.eqb_spec kind "ReplicaSet") as [Hrs|Hrs]; cbn.
      + destruct (main.ownedByDeployment _) eqn:Hown; cbn.
        * split; [done|].
          intros [[? _]|(_ & w' & [= <-] & _ & Hnot & _)]; [done|].
          destruct Hnot. split; [done|]. by apply ownedByDeployment_spec.
        * split.
          -- intros [= <- <-]. right. split; [done|]. exists w.
             split_and!; try done.
             intros [_ Ho]. apply ownedByDeployment_spec in Ho. congruence.
          -- by intros [[? _]|(_ & w' & [= <-] & _ & _ & -> & ->)].
      + split.
        * intros [= <- <-]. right. split; [done|]. exists w.
          split_and!; try done. by intros [? _].
        * by intros [[? _]|(_ & w' & [= <-] & _ & _ & -> & ->)].
Qed.

Lemma unmarshal_view_labels (W : World) (in_ : AdmissionRequest.t)
    (podMeta : ObjectMeta.t) (spec : PodSpec.t) :
  main.unmarshal W in_ = Ok (Some (podMeta, spec)) →
  ObjectMeta.Labels podMeta = Some (default ∅ (ObjectMeta.Labels podMeta)).
Proof.
  intros Hview. apply unmarshal_view_iff in Hview
    as [(_ & pod & _ & -> & _)|(_ & w & _ & _ & _ & -> & _)]; cbn.
  - unfold withLabels. by destruct (ObjectMeta.Labels (Pod.Meta pod)) eqn:E; cbn; rewrite ?E.
  - unfold withLabels.
    by destruct (ObjectMeta.Labels (Workload.TemplateMeta w)) eqn:E; cbn; rewrite ?E.
Qed.

(** X7.  [unmarshal] yields a view in exactly two situations: the kind is
    Pod and the payload decodes, the view being the Pod's metadata and spec;
    or the kind is Deployment, DaemonSet, StatefulSet or ReplicaSet, the
    payload decodes, the pod template has no annotations map, and the object
    is not a ReplicaSet with a Deployment among its owners, the view being
    the template's metadata with the annotations of the object itself, and
    the template's spec.  In both the label map of the view is not nil (an
    empty map replaces a nil one).  Kinds are compared exactly, so any other
    kind, "pod" included, yields no view. *)
Theorem X7_unmarshal_view (W : World) (in_ : AdmissionRequest.t)
    (podMeta : ObjectMeta.t) (spec : PodSpec.t) :
  let kind := AdmissionRequest.Kind in_ in
  let raw := AdmissionRequest.ObjectRaw in_ in
  (main.unmarshal W in_ = Ok (Some (podMeta, spec))
   ↔ (kind = "Pod"
      ∧ ∃ pod, json_Unmarshal_Pod W raw = Some pod
               ∧ podMeta = withLabels (Pod.Meta pod)
               ∧ spec = Pod.Spec pod)
     ∨ (isWorkloadKind kind = true
        ∧ ∃ w, json_Unmarshal_Workload W kind raw = Some w
               ∧ ObjectMeta.Annotations (Workload.TemplateMeta w) = None
               ∧ ¬ (kind = "ReplicaSet"
                    ∧ ∃ o, o ∈ ObjectMeta.OwnerReferences (Workload.Meta w)
                           ∧ OwnerReference.Kind o = "Deployment")
               ∧ podMeta = main.set_Annotations
                             (ObjectMeta.Annotations (Workload.Meta w))
                             (withLabels (Workload.TemplateMeta w))
               ∧ spec = Workload.TemplateSpec w))
  ∧ (main.unmarshal W in_ = Ok (Some (podMeta, spec)) →
     ObjectMeta.Labels podMeta
     = Some (default ∅ (ObjectMeta.Labels podMeta)))
  ∧ (kind ≠ "Pod" → isWorkloadKind kind = false → main.unmarshal W in_ = Ok None).
Proof.
  intros kind raw. split_and!.
  - apply unmarshal_view_iff.
  - apply unmarshal_view_labels.
  - intros Hpod Hk. rewrite unmarshal_by_family. fold kind.
    destruct (String.eqb_spec kind "Pod"); [done|]. by rewrite Hk.
Qed.

Lemma X7_unmarshal_view_witness :
  let W := fixedWorld (Some annotatedPod) (Some annotatedDeployment) None marshalOk in
  main.unmarshal W (createRequest "Pod")
  = Ok (Some (ObjectMeta.mk "" (Some ∅) (annotated "kernel://my-service/nsm-1") [],
              emptySpec))
  ∧ main.unmarshal W (createRequest "pod") = Ok None
  ∧ main.unmarshal W (createRequest "Job") = Ok None.
Proof.
  intros W. split_and!.
  - apply (X7_unmarshal_view W (createRequest "Pod")). left.
    split; [reflexivity|]. by exists annotatedPod.
  - by apply (X7_unmarshal_view W (createRequest "pod")
                (ObjectMeta.mk "" None None []) emptySpec).
  - by apply (X7_unmarshal_view W (createRequest "Job")
                (ObjectMeta.mk "" None None []) emptySpec).
Defined.

(** ** Pool counts *)

Lemma int_wrap_small (x : Z) :
  (- 2 ^ 63 ≤ x < 2 ^ 63)%Z → int_wrap x = x.
Proof. intros Hx. unfold int_wrap. rewrite Z.mod_small; lia. Qed.

(** X8.  [parseResources] gives up on the whole annotation, returning the
    nil map, exactly when one of its comma-separated tokens is rejected by
    [url.Parse]; the tokens that did parse are then not counted. *)
Theorem X8_parseResources_all_or_nothing (W : World) (v : string) :
  main.parseResources W v = None
  ↔ ∃ token, token ∈ strings_Split v "," ∧ url_Parse W token = None.
Proof.
  unfold main.parseResources.
  destruct (mapM (url_Parse W) (strings_Split v ",")) as [urls|] eqn:Hm.
  - split; [done|]. intros (token & Hin & Hbad).
    assert (mapM (url_Parse W) (strings_Split v ",") = None); [|congruence].
    apply mapM_None, Exists_exists. eauto.
  - split; [|done]. intros _. by apply mapM_None, Exists_exists in Hm.
Qed.

Lemma X8_parseResources_all_or_nothing_witness :
  main.parseResources pickyWorld
    "kernel://a?sriovToken=p1,kernel://b c?sriovToken=p1" = None.
Proof.
  apply X8_parseResources_all_or_nothing.
  exists "kernel://b c?sriovToken=p1". split; [|reflexivity].
  assert (strings_Split "kernel://a?sriovToken=p1,kernel://b c?sriovToken=p1" ","
          = ["kernel://a?sriovToken=p1"; "kernel://b c?sriovToken=p1"]) as ->
    by (vm_compute; reflexivity).
  apply list_elem_of_further, list_elem_of_here.
Defined.

Lemma poolCount_snoc (W : World) (pool : string) (urls : list (URL W)) (u : URL W) :
  poolCount W pool (urls ++ [u])
  = (poolCount W pool urls + if decide (poolOf W u = Some pool) then 1 else 0)%nat.
Proof.
  unfold poolCount. rewrite filter_app, length_app. f_equal.
  rewrite filter_cons. by case_decide.
Qed.

Lemma poolCount_le (W : World) (pool : string) (urls : list (URL W)) :
  (poolCount W pool urls ≤ length urls)%nat.
Proof. unfold poolCount. apply length_filter. Qed.

Lemma countToken_lookup (W : World) (m : gmap string Z) (u : URL W) (pool : string) :
  main.countToken W m u !! pool
  = if decide (poolOf W u = Some pool)
    then Some (int_incr (default 0%Z (m !! pool)))
    else m !! pool.
Proof.
  unfold main.countToken, poolOf.
  destruct (NSURL_Labels W u !! "sriovToken") as [tokens|]; cbn.
  - case_decide as Hp.
    + injection Hp as ->. by rewrite lookup_insert_eq.
    + rewrite lookup_insert_ne; [done|]. congruence.
  - by rewrite decide_False.
Qed.

Lemma foldl_countToken (W : World) (urls : list (URL W)) :
  (Z.of_nat (length urls) < 2 ^ 63)%Z →
  ∀ pool,
    foldl (main.countToken W) ∅ urls !! pool
    = if decide (poolCount W pool urls = 0%nat) then None
      else Some (Z.of_nat (poolCount W pool urls)).
Proof.
  induction urls as [|u urls IH] using rev_ind; intros Hlen pool.
  - done.
  - rewrite length_app in Hlen. cbn in Hlen.
    rewrite foldl_app. cbn [foldl]. rewrite poolCount_snoc.
    assert (Z.of_nat (length urls) < 2 ^ 63)%Z as Hlen' by lia.
    rewrite countToken_lookup, (IH Hlen').
    pose proof (poolCount_le W pool urls).
    case_decide as Hp.
    + rewrite (decide_False (P := (poolCount W pool urls + 1 = 0)%nat)) by lia.
      f_equal. unfold int_incr.
      case_decide as Hz.
      * rewrite Hz. cbn. rewrite int_wrap_small; lia.
      * cbn. rewrite int_wrap_small; lia.
    + by rewrite Nat.add_0_r.
Qed.

(** X9.  When every token parses, [parseResources] maps each pool to the
    number of URLs asking for it (the part of a URL's [sriovToken] label
    before the first comma), and has no entry for a pool nobody asks for; in
    particular an annotation without any [sriovToken] yields the empty,
    non-nil map.  The count is exact as long as it fits Go's [int]. *)
Theorem X9_parseResources_counts (W : World) (v : string) (urls : list (URL W)) :
  mapM (url_Parse W) (strings_Split v ",") = Some urls →
  (Z.of_nat (length urls) < 2 ^ 63)%Z →
  ∃ m, main.parseResources W v = Some m
     ∧ (∀ pool, m !! pool
                = if decide (poolCount W pool urls = 0%nat) then None
                  else Some (Z.of_nat (poolCount W pool urls)))
     ∧ (Forall (λ u, NSURL_Labels W u !! "sriovToken" = None) urls → m = ∅).
Proof.
  intros Hparse Hlen. unfold main.parseResources. rewrite Hparse.
  eexists. split; [done|]. split.
  - by apply foldl_countToken.
  - intros Hnone. apply map_eq. intros pool.
    rewrite foldl_countToken, lookup_empty by done.
    rewrite decide_True; [done|].
    unfold poolCount. apply length_zero_iff_nil.
    clear Hparse Hlen.
    induction Hnone as [|u l Hu _ IH]; [done|].
    rewrite filter_cons, decide_False; [done|].
    unfold poolOf. by rewrite Hu.
Qed.

Lemma X9_parseResources_counts_witness :
  let W := fixedWorld None None None marshalOk in
  ∃ m, main.parseResources W
         "kernel://a?sriovToken=p1,kernel://b?sriovToken=p2,kernel://c?sriovToken=p1"
       = Some m
     ∧ m !! "p1" = Some 2%Z ∧ m !! "p2" = Some 1%Z ∧ m !! "p3" = None.
Proof.
  intros W.
  destruct (X9_parseResources_counts W
              "kernel://a?sriovToken=p1,kernel://b?sriovToken=p2,kernel://c?sriovToken=p1"
              ["kernel://a?sriovToken=p1"; "kernel://b?sriovToken=p2";
               "kernel://c?sriovToken=p1"] eq_refl) as (m & Hm & Hcount & _).
  { cbn. lia. }
  exists m. split; [exact Hm|].
  rewrite !Hcount. by split_and!.
Defined.

(** * Further properties of package [config] *)

Lemma forM_app {S A} (l1 l2 : list A) (body : A → M S unit) (s : S) :
  forM_ (l1 ++ l2) body s
  = match forM_ l1 body s with
    | (Ok _, s') => forM_ l2 body s'
    | (Panic msg, s') => (Panic msg, s')
    end.
Proof.
  revert s. induction l1 as [|x l1 IH]; intros s; cbn [app forM_].
  - done.
  - unfold mbind, M_bind. destruct (body x s) as [[[]|msg] s1]; [apply IH|done].
Qed.

Lemma once_Do_sets_flag (W : World) (f : M (config.Config W) unit)
    (c : config.Config W) :
  config.once (snd (config.once_Do W f c)) = true.
Proof.
  unfold config.once_Do. destruct (config.once c) eqn:Honce; [done|].
  by destruct (f c).
Qed.

(** X10.  The one-time initialization runs at most once, whatever its
    outcome.  The three accessors leave the [Config] in the same state [c'];
    after a first call, returning or panicking, the once-flag is set and
    every accessor returns the stored value without changing the [Config];
    and a first call that returned gave that same stored value. *)
Theorem X10_accessors_memoize (W : World) (c : config.Config W) :
  let c' := snd (config.GetOrResolveEnvs W c) in
  snd (config.GetOrResolveCABundle W c) = c'
  ∧ snd (config.GetOrResolveCertificate W c) = c'
  ∧ config.once c' = true
  ∧ config.GetOrResolveEnvs W c' = (Ok (config.envs c'), c')
  ∧ config.GetOrResolveCABundle W c' = (Ok (config.caBundle c'), c')
  ∧ config.GetOrResolveCertificate W c' = (Ok (config.cert c'), c')
  ∧ (∀ l, fst (config.GetOrResolveEnvs W c) = Ok l → l = config.envs c')
  ∧ (∀ b, fst (config.GetOrResolveCABundle W c) = Ok b → b = config.caBundle c')
  ∧ (∀ k, fst (config.GetOrResolveCertificate W c) = Ok k → k = config.cert c').
Proof.
  intros c'.
  assert (∀ c0 : config.Config W,
            config.once c0 = true →
            config.once_Do W (config.initialize W) c0 = (Ok (), c0)) as Hdone.
  { intros c0 H0. unfold config.once_Do. by rewrite H0. }
  pose proof (once_Do_sets_flag W (config.initialize W) c) as Hflag.
  unfold c', config.GetOrResolveEnvs, config.GetOrResolveCABundle,
    config.GetOrResolveCertificate.
  unfold mbind, M_bind, mret, M_ret, get.
  revert Hflag.
  generalize (config.once_Do W (config.initialize W) c).
  intros [[[]|msg] c1]; cbn [fst snd]; intros Hflag.
  - rewrite (Hdone c1 Hflag).
    split_and!; try done; by intros ? [= <-].
  - rewrite (Hdone c1 Hflag).
    split_and!; done.
Qed.

Lemma X10_accessors_memoize_witness :
  let W := fixedWorld None None None marshalOk in
  let c := defaultConfig W ["LOG_LEVEL=INFO"] config.SpireMode in
  let c' := snd (config.GetOrResolveEnvs W c) in
  config.GetOrResolveEnvs W c' = (Ok (config.envs c'), c')
  ∧ fst (config.GetOrResolveEnvs W c) = Ok (config.envs c').
Proof.
  intros W c c'.
  destruct (X10_accessors_memoize W c) as (_ & _ & _ & Hagain & _ & _ & Hsame & _).
  split; [exact Hagain|].
  destruct (config.GetOrResolveEnvs W c) as [[l|msg] c1] eqn:Hrun.
  - cbn. f_equal. by apply Hsame.
  - apply (f_equal fst) in Hrun. vm_compute in Hrun. discriminate Hrun.
Defined.

(** X11.  A bad entry poisons the [Config] for good.  On a fresh [Config]
    whose [Envs] has a first entry without "=" after the entries [good], the
    first call of [GetOrResolveEnvs] panics, and the second call returns
    normally: it returns the env vars of [good] only, without the two
    bootstrap env vars, and the certificate and the CA bundle are never
    initialized. *)
Theorem X11_partial_envs_after_panic (W : World) (c : config.Config W)
    (good rest : list string) (bad : string) :
  config.once c = false →
  config.envs c = [] →
  config.Envs c = good ++ bad :: rest →
  Forall (λ e, strings_Contains e "=" = true) good →
  strings_Contains bad "=" = false →
  ∃ vs msg,
    Forall2 envVarOf good vs
    ∧ config.GetOrResolveEnvs W c
      = (Panic msg, config.set_once W (config.set_envs W vs c))
    ∧ config.GetOrResolveEnvs W (config.set_once W (config.set_envs W vs c))
      = (Ok vs, config.set_once W (config.set_envs W vs c))
    ∧ config.GetOrResolveCertificate W (config.set_once W (config.set_envs W vs c))
      = (Ok (config.cert c), config.set_once W (config.set_envs W vs c))
    ∧ config.GetOrResolveCABundle W (config.set_once W (config.set_envs W vs c))
      = (Ok (config.caBundle c), config.set_once W (config.set_envs W vs c)).
Proof.
  intros Honce Hfresh HEnvs Hgood Hbad.
  destruct (forM_appendEnv_ok W good Hgood) as (vs & Hvs & Hrun).
  destruct (appendEnv_panic W bad (config.set_envs W vs c) Hbad) as [msg Hpanic].
  exists vs, msg. split; [done|].
  assert (config.initializeEnvs W c = (Panic msg, config.set_envs W vs c)) as Henvs.
  { unfold config.initializeEnvs, mbind, M_bind, get. rewrite HEnvs.
    rewrite forM_app, Hrun, Hfresh. cbn [app forM_].
    unfold mbind, M_bind. by rewrite Hpanic. }
  assert (config.initialize W c = (Panic msg, config.set_envs W vs c)) as Hinit.
  { unfold config.initialize, mbind, M_bind. by rewrite Henvs. }
  split_and!.
  - unfold config.GetOrResolveEnvs, config.once_Do, mbind, M_bind.
    by rewrite Honce, Hinit.
  - done.
  - done.
  - done.
Qed.

Lemma X11_partial_envs_after_panic_witness :
  let W := fixedWorld None None None marshalOk in
  let c := defaultConfig W ["LOG_LEVEL=INFO"; "VERBOSE"; "A=b"] config.SpireMode in
  let c' := config.set_once W
              (config.set_envs W [EnvVar.mk "LOG_LEVEL" "INFO" None] c) in
  fst (config.GetOrResolveEnvs W c)
  = Panic "runtime error: index out of range [1] with length 1"
  ∧ config.GetOrResolveEnvs W c' = (Ok [EnvVar.mk "LOG_LEVEL" "INFO" None], c').
Proof.
  intros W c c'.
  destruct (X11_partial_envs_after_panic W c ["LOG_LEVEL=INFO"] ["A=b"] "VERBOSE"
              eq_refl eq_refl eq_refl) as (vs & msg & Hvs & Hfirst & Hsecond & _).
  { by repeat constructor. }
  { reflexivity. }
  assert (config.envs (snd (config.GetOrResolveEnvs W c))
          = [EnvVar.mk "LOG_LEVEL" "INFO" None]) as Henvs by (vm_compute; reflexivity).
  rewrite Hfirst in Henvs.
  change (vs = [EnvVar.mk "LOG_LEVEL" "INFO" None]) in Henvs. subst vs.
  split; [vm_compute; reflexivity|exact Hsecond].
Defined.

(** ** Operator-supplied certificates *)

(** The one-time initialization when both file paths are configured and the
    env entries are well formed. *)
Lemma initialize_with_files (W : World) (c : config.Config W) :
  config.envs c = [] →
  config.caBundle c = [] →
  Forall (λ e, strings_Contains e "=" = true) (config.Envs c) →
  config.IsExistingCertificatesUsed W c = true →
  ∃ vs,
    let c1 := config.set_envs W (vs ++ config.bootstrapEnvs) c in
    config.initialize W c
    = match tls_LoadX509KeyPair W (config.CertFilePath c) (config.KeyFilePath c) with
      | inr err => (Panic err, c1)
      | inl k =>
          if decide (config.WebhookMode c = config.SelfregisterMode)
          then match os_ReadFile W (config.CABundleFilePath c) with
               | inr err => (Panic err, config.set_cert W k c1)
               | inl r => (Ok (), config.set_caBundle W r (config.set_cert W k c1))
               end
          else (Ok (), config.set_cert W k c1)
      end.
Proof.
  intros Hfresh Hbundle Hall Hfiles.
  destruct (initializeEnvs_ok W c Hall) as (vs & _ & Hrun).
  rewrite Hfresh in Hrun. cbn [app] in Hrun.
  exists vs. intros c1.
  unfold config.initialize. unfold mbind at 1, M_bind at 1. rewrite Hrun.
  fold c1. unfold mbind at 1, M_bind at 1.
  unfold config.initializeCert. unfold mbind at 1, M_bind at 1, get.
  change (config.IsExistingCertificatesUsed W c1)
    with (config.IsExistingCertificatesUsed W c).
  rewrite Hfiles.
  change (config.CertFilePath c1) with (config.CertFilePath c).
  change (config.KeyFilePath c1) with (config.KeyFilePath c).
  destruct (tls_LoadX509KeyPair W _ _) as [k|err]; [|done].
  unfold modify, config.initializeCABundle, mbind, M_bind, get, mret, M_ret.
  change (config.WebhookMode (config.set_cert W k c1)) with (config.WebhookMode c).
  change (config.caBundle (config.set_cert W k c1)) with (config.caBundle c).
  change (config.CABundleFilePath (config.set_cert W k c1))
    with (config.CABundleFilePath c).
  rewrite Hbundle. cbn [length Nat.eqb negb].
  destruct (decide (config.WebhookMode c = config.SelfregisterMode)) as [Hm|Hm].
  - rewrite decide_False by (by intros []).
    by destruct (os_ReadFile W _).
  - by rewrite decide_True.
Qed.

(** X12.  On a fresh [Config] (the once-flag clear, no env var resolved, the
    CA bundle empty) whose [Envs] entries all contain "=", with both a
    certificate and a key file configured: the certificate accessor returns
    the pair loaded from the files, in either mode; a load failure makes the
    accessor panic with the load error; in spire mode the CA bundle stays
    empty and its file is not needed; in self-registering mode the CA bundle
    is the content of the configured bundle file, and the accessor panics
    with the read error when that file cannot be read. *)
Theorem X12_operator_supplied_certificate (W : World) (c : config.Config W) :
  config.once c = false →
  config.envs c = [] →
  config.caBundle c = [] →
  Forall (λ e, strings_Contains e "=" = true) (config.Envs c) →
  config.IsExistingCertificatesUsed W c = true →
  let load := tls_LoadX509KeyPair W (config.CertFilePath c) (config.KeyFilePath c) in
  let read := os_ReadFile W (config.CABundleFilePath c) in
  (∀ err, load = inr err →
     ∃ c', config.GetOrResolveCertificate W c = (Panic err, c'))
  ∧ (∀ k, load = inl k → config.WebhookMode c = config.SpireMode →
       ∃ c', config.GetOrResolveCertificate W c = (Ok (Some k), c')
             ∧ config.caBundle c' = [])
  ∧ (∀ k r, load = inl k → config.WebhookMode c = config.SelfregisterMode →
       read = inl r →
       ∃ c', config.GetOrResolveCertificate W c = (Ok (Some k), c')
             ∧ config.caBundle c' = r)
  ∧ (∀ k err, load = inl k → config.WebhookMode c = config.SelfregisterMode →
       read = inr err →
       ∃ c', config.GetOrResolveCertificate W c = (Panic err, c')).
Proof.
  intros Honce Hfresh Hbundle Hall Hfiles load read.
  destruct (initialize_with_files W c Hfresh Hbundle Hall Hfiles) as (vs & Hinit).
  cbv zeta in Hinit. fold load read in Hinit.
  unfold config.GetOrResolveCertificate, config.once_Do.
  unfold mbind, M_bind, mret, M_ret, get. rewrite Honce.
  split_and!.
  - intros err Hl. rewrite Hinit, Hl. by eexists.
  - intros k Hl Hmode. rewrite Hinit, Hl, decide_False by congruence.
    eexists. split; [done|]. exact Hbundle.
  - intros k r Hl Hmode Hr. rewrite Hinit, Hl, decide_True, Hr by done.
    eexists. by split.
  - intros k err Hl Hmode Hr. rewrite Hinit, Hl, decide_True, Hr by done.
    by eexists.
Qed.

Lemma X12_operator_supplied_certificate_witness :
  let c := config.mkConfig pickyWorld "default" "default" "networkservicemesh.io" ∅
             "NSM_NETWORK_SERVICES" [] [] ["LOG_LEVEL=INFO"] config.SelfregisterMode
             "/etc/webhook/tls.crt" "/etc/webhook/tls.key" "/etc/webhook/ca.crt"
             "80Mi" "200m" "40Mi" "100m" [] [] None false in
  ∃ c', config.GetOrResolveCertificate pickyWorld c
        = (Ok (Some ([Byte.x2d; Byte.x43], [Byte.x2d; Byte.x4b])), c')
        ∧ config.caBundle c' = [Byte.x2d; Byte.x41].
Proof.
  intros c.
  destruct (X12_operator_supplied_certificate pickyWorld c eq_refl eq_refl eq_refl)
    as (_ & _ & Hself & _).
  { by repeat constructor. }
  { reflexivity. }
  by apply Hself.
Defined.

(** ** [Mode.Decode] *)

Lemma lowerBytes_no_upper (s : string) : hasUpper s = false → lowerBytes s = s.
Proof.
  induction s as [|c s IH]; cbn; [done|].
  intros [Hc Hs]%orb_false_iff. unfold lowerByte. by rewrite Hc, (IH Hs).
Qed.

Lemma strings_ToLower_ASCII (mapLower : string → string) (s : string) :
  allASCII s = true → strings_ToLower mapLower s = lowerBytes s.
Proof.
  intros Hs. unfold strings_ToLower. rewrite Hs.
  destruct (hasUpper s) eqn:Hu; cbn; [done|]. by rewrite lowerBytes_no_upper.
Qed.

(** X13.  On a mode string made of ASCII bytes, [Decode] ignores the case of
    the letters: it stores mode [m] and returns no error exactly when the
    string lowered byte by byte is the name of [m] ("spire" or
    "selfregister"); for every other string it leaves the stored mode as it
    was and returns an error that quotes the string unchanged. *)
Theorem X13_Mode_Decode_ignores_case (mapLower : string → string)
    (md : config.Mode) (mode : string) :
  allASCII mode = true →
  (∀ m, Mode_Decode mapLower md mode = (m, None) ↔ lowerBytes mode = modeName m)
  ∧ (lowerBytes mode ≠ "spire" → lowerBytes mode ≠ "selfregister" →
     Mode_Decode mapLower md mode
     = (md, Some ("not a valid webhook mode: " +:+ mode))).
Proof.
  intros Hascii. unfold Mode_Decode.
  rewrite (strings_ToLower_ASCII mapLower mode Hascii).
  destruct (String.eqb_spec (lowerBytes mode) "selfregister") as [Hs|Hs].
  - split; [|done]. intros m. rewrite Hs. split.
    + by intros [= <-].
    + by destruct m.
  - destruct (String.eqb_spec (lowerBytes mode) "spire") as [Hp|Hp].
    + split; [|done]. intros m. rewrite Hp. split.
      * by intros [= <-].
      * by destruct m.
    + split; [|done]. intros m. split; [done|]. by destruct m.
Qed.

Lemma X13_Mode_Decode_ignores_case_witness :
  Mode_Decode (λ s, s) config.SpireMode "SelfRegister"
  = (config.SelfregisterMode, None)
  ∧ Mode_Decode (λ s, s) config.SelfregisterMode "spire-mode"
    = (config.SelfregisterMode, Some "not a valid webhook mode: spire-mode").
Proof.
  destruct (X13_Mode_Decode_ignores_case (λ s, s) config.SpireMode "SelfRegister"
              eq_refl) as [Hok _].
  destruct (X13_Mode_Decode_ignores_case (λ s, s) config.SelfregisterMode "spire-mode"
              eq_refl) as [_ Hbad].
  split; [by apply Hok|by apply Hbad].
Defined.

(** ** [prepareTLSConfig] *)

Lemma prepareTLSConfig_spire (W : World) (I : Identity) (c : config.Config W) :
  config.WebhookMode c = config.SpireMode →
  config.IsExistingCertificatesUsed W c = false →
  prepareTLSConfig W I c
  = (match workloadapi_NewX509Source I with
     | inr err => Ok (inr ("error getting x509 source: " +:+ err))
     | inl source =>
         if ctx_Done I && bool_decide (X509Source_Close I source = None)
         then Panic "invalid memory address or nil pointer dereference"
         else Ok (inl (tlsConfig.mk VersionTLS12 (Some source) []))
     end, c).
Proof.
  intros Hmode Hfiles. unfold prepareTLSConfig, mbind, M_bind, get.
  rewrite Hfiles, bool_decide_true by done. cbn [negb andb].
  unfold mret, M_ret, panic.
  destruct (workloadapi_NewX509Source I) as [source|err]; [|done].
  destruct (ctx_Done I); [|done].
  by destruct (X509Source_Close I source).
Qed.

Lemma prepareTLSConfig_other (W : World) (I : Identity) (c : config.Config W) :
  (config.WebhookMode c = config.SelfregisterMode
   ∨ config.IsExistingCertificatesUsed W c = true) →
  prepareTLSConfig W I c
  = (match fst (config.GetOrResolveCertificate W c) with
     | Ok cert => Ok (inl (tlsConfig.mk VersionTLS12 None [cert]))
     | Panic msg => Panic msg
     end, snd (config.GetOrResolveCertificate W c)).
Proof.
  intros Hother. unfold prepareTLSConfig. unfold mbind at 1, M_bind at 1, get.
  assert (bool_decide (config.WebhookMode c = config.SpireMode)
          && negb (config.IsExistingCertificatesUsed W c) = false) as ->.
  { destruct Hother as [Hm|Hf].
    - rewrite bool_decide_false; [done|]. by rewrite Hm.
    - rewrite Hf. apply andb_false_r. }
  unfold mbind, M_bind, mret, M_ret.
  by destruct (config.GetOrResolveCertificate W c) as [[cert|msg] c1].
Qed.

(** X14.  In spire mode without both certificate files [prepareTLSConfig]
    never touches the [Config] (the one-time initialization is not run): it
    returns the error of the identity source under a fixed prefix, or a
    configuration whose certificates come from the source and whose
    certificate list is empty; and it panics exactly when the source was
    obtained, the context is already done and closing the source succeeds,
    because the nil error is then asked for its text.  In every other
    configuration it is the certificate accessor that runs: the
    configuration returned holds exactly the resolved certificate, and a
    panic of the initialization is passed on. *)
Theorem X14_prepareTLSConfig_branches (W : World) (I : Identity)
    (c : config.Config W) :
  (config.WebhookMode c = config.SpireMode →
   config.IsExistingCertificatesUsed W c = false →
   snd (prepareTLSConfig W I c) = c
   ∧ ((∃ msg, fst (prepareTLSConfig W I c) = Panic msg)
      ↔ ∃ source, workloadapi_NewX509Source I = inl source
                  ∧ ctx_Done I = true ∧ X509Source_Close I source = None)
   ∧ (∀ err, workloadapi_NewX509Source I = inr err →
             fst (prepareTLSConfig W I c)
             = Ok (inr ("error getting x509 source: " +:+ err)))
   ∧ (∀ cfg, fst (prepareTLSConfig W I c) = Ok (inl cfg) →
             cfg = tlsConfig.mk VersionTLS12 (tlsConfig.GetCertificate cfg) []
             ∧ ∃ source, workloadapi_NewX509Source I = inl source
                         ∧ tlsConfig.GetCertificate cfg = Some source))
  ∧ ((config.WebhookMode c = config.SelfregisterMode
      ∨ config.IsExistingCertificatesUsed W c = true) →
     snd (prepareTLSConfig W I c) = snd (config.GetOrResolveCertificate W c)
     ∧ (∀ cert, fst (config.GetOrResolveCertificate W c) = Ok cert →
                fst (prepareTLSConfig W I c)
                = Ok (inl (tlsConfig.mk VersionTLS12 None [cert])))
     ∧ (∀ msg, fst (config.GetOrResolveCertificate W c) = Panic msg →
               fst (prepareTLSConfig W I c) = Panic msg)).
Proof.
  split.
  - intros Hmode Hfiles. rewrite (prepareTLSConfig_spire W I c Hmode Hfiles).
    cbn [fst snd].
    destruct (workloadapi_NewX509Source I) as [source|err].
    + destruct (ctx_Done I); cbn [andb].
      * destruct (X509Source_Close I source) as [e|] eqn:Hclose.
        -- rewrite bool_decide_false by done. split_and!; [done| |done|].
           ++ split; [by intros [? ?]|].
              intros (src & [= <-] & _ & Hc). congruence.
           ++ intros cfg [= <-]. split; [done|]. by eexists.
        -- rewrite bool_decide_true by done. split_and!; [done| |done|done].
           split; [|by eexists]. intros _. by exists source.
      * split_and!; [done| |done|].
        -- split; [by intros [? ?]|]. by intros (src & _ & ? & _).
        -- intros cfg [= <-]. split; [done|]. by eexists.
    + split_and!; [done| | |done].
      * split; [by intros [? ?]|]. by intros (src & ? & _).
      * by intros e [= <-].
  - intros Hother. rewrite (prepareTLSConfig_other W I c Hother). cbn [fst snd].
    split_and!; [done| |]; by intros ? ->.
Qed.

Lemma X14_prepareTLSConfig_branches_witness :
  let W := fixedWorld None None None marshalOk in
  let c := defaultConfig W ["VERBOSE"] config.SpireMode in
  snd (prepareTLSConfig W readyIdentity c) = c
  ∧ (∃ msg, fst (prepareTLSConfig W cancelledIdentity c) = Panic msg)
  ∧ ¬ (∃ msg, fst (prepareTLSConfig W readyIdentity c) = Panic msg).
Proof.
  intros W c.
  destruct (X14_prepareTLSConfig_branches W readyIdentity c) as [Hspire _].
  destruct (Hspire eq_refl eq_refl) as (Hstate & Hnopanic & _).
  destruct (X14_prepareTLSConfig_branches W cancelledIdentity c) as [Hspire' _].
  destruct (Hspire' eq_refl eq_refl) as (_ & Hpanic & _).
  split_and!.
  - exact Hstate.
  - apply Hpanic. by exists "unix:///run/spire/sockets/agent.sock".
  - intros Hp. apply Hnopanic in Hp as (src & _ & Hdone & _). discriminate Hdone.
Defined.

(** * The patch document as a whole *)

(** X15.  On a nil label map [createLabelPatch] emits the nil map when no
    label is configured and panics as soon as one is; the view produced by
    [unmarshal] never has a nil label map, so for a decoded request the
    label operation is always built. *)
Theorem X15_label_patch_nil_map (W : World) (cfg : config.Config W) (p : string) :
  (config.Labels cfg = ∅ →
   main.createLabelPatch W cfg p None
   = Ok (NewOperation "add" (path_Join W [p; "metadata"; "labels"])
           (LabelsValue None)))
  ∧ (config.Labels cfg ≠ ∅ →
     main.createLabelPatch W cfg p None = Panic "assignment to entry in nil map")
  ∧ (∀ in_ podMeta spec,
       main.unmarshal W in_ = Ok (Some (podMeta, spec)) →
       ∃ labels,
         ObjectMeta.Labels podMeta = Some labels
         ∧ main.createLabelPatch W cfg p (ObjectMeta.Labels podMeta)
           = Ok (NewOperation "add" (path_Join W [p; "metadata"; "labels"])
                   (LabelsValue (Some (config.Labels cfg ∪ labels))))).
Proof.
  assert (∀ labels : gmap string string,
            map_fold (λ key value acc, acc ≫= λ v, main.map_assign v key value)
              (Ok None) labels
            = if decide (labels = ∅) then Ok None
              else Panic "assignment to entry in nil map") as Hfold.
  { apply (map_fold_weak_ind
             (λ res (m : gmap string string),
                res = if decide (m = ∅) then Ok None
                      else Panic "assignment to entry in nil map")).
    - by rewrite decide_True.
    - intros key value m res _ ->.
      rewrite (decide_False (P := <[key:=value]> m = ∅))
        by apply insert_non_empty.
      by case_decide. }
  unfold main.createLabelPatch at 1 2. rewrite Hfold. split_and!.
  - intros Hl. by rewrite decide_True.
  - intros Hl. by rewrite decide_False.
  - intros in_ podMeta spec Hview.
    apply unmarshal_view_labels in Hview. rewrite Hview.
    eexists. split; [done|]. apply createLabelPatch_merge.
Qed.

Lemma X15_label_patch_nil_map_witness :
  let W := fixedWorld None None None marshalOk in
  main.createLabelPatch W (defaultConfig W [] config.SpireMode) "/" None
  = Panic "assignment to entry in nil map".
Proof.
  intros W.
  destruct (X15_label_patch_nil_map W (defaultConfig W [] config.SpireMode) "/")
    as (_ & Hpanic & _).
  apply Hpanic. apply insert_non_empty.
Defined.

Lemma addResourcesLimits_inv (W : World) (cfg : config.Config W) (c c' : Container.t) :
  main.addResourcesLimits W cfg c = Ok c' →
  ∃ lcpu lmem rcpu rmem,
    sidecarQuantities W cfg lcpu lmem rcpu rmem
    ∧ c' = main.set_Resources
             (ResourceRequirements.mk
                (Some (<["cpu" := lcpu]> (<["memory" := lmem]> ∅)))
                (Some (<["cpu" := rcpu]> (<["memory" := rmem]> ∅)))) c.
Proof.
  unfold main.addResourcesLimits, resource_MustParse, sidecarQuantities.
  destruct (resource_ParseQuantity W (config.SidecarLimitsCPU cfg)) as [lcpu|]; [|done].
  destruct (resource_ParseQuantity W (config.SidecarLimitsMemory cfg)) as [lmem|]; [|done].
  destruct (resource_ParseQuantity W (config.SidecarRequestsCPU cfg)) as [rcpu|]; [|done].
  destruct (resource_ParseQuantity W (config.SidecarRequestsMemory cfg)) as [rmem|]; [|done].
  cbn. intros [= <-]. by exists lcpu, lmem, rcpu, rmem.
Qed.

(** An image and the container injected for it, for some parsed quantities. *)
Lemma appendContainer_inv (W : World) (cfg : config.Config W) (psaLevel : psa.Level)
    (envVars : list EnvVar.t) (acc : outcome (list Container.t)) (img : string)
    (l' : list Container.t) :
  main.appendContainer W cfg psaLevel envVars acc img = Ok l' →
  ∃ l lcpu lmem rcpu rmem,
    acc = Ok l
    ∧ l' = l ++ [injectedContainer W img envVars psaLevel lcpu lmem rcpu rmem].
Proof.
  unfold main.appendContainer. destruct acc as [l|msg]; [|done]. cbn.
  rewrite onLast_snoc. cbn. rewrite onLast_snoc.
  destruct (main.addResourcesLimits W cfg _) as [c2|] eqn:E2; [|done]. cbn.
  apply addResourcesLimits_inv in E2 as (lcpu & lmem & rcpu & rmem & _ & ->).
  intros Hl'. exists l, lcpu, lmem, rcpu, rmem. split; [done|].
  unfold injectedContainer. case_decide.
  - rewrite onLast_snoc in Hl'. cbn in Hl'. by injection Hl' as <-.
  - by injection Hl' as <-.
Qed.

Lemma appendInitContainer_inv (W : World) (cfg : config.Config W)
    (poolResources : option (gmap string Z)) (psaLevel : psa.Level)
    (envVars : list EnvVar.t) (acc : outcome (list Container.t)) (img : string)
    (l' : list Container.t) :
  main.appendInitContainer W cfg poolResources psaLevel envVars acc img = Ok l' →
  ∃ l lcpu lmem rcpu rmem,
    acc = Ok l
    ∧ l' = l ++ [injectedContainer W img envVars psaLevel lcpu lmem rcpu rmem].
Proof.
  unfold main.appendInitContainer. destruct acc as [l|msg]; [|done]. cbn.
  rewrite onLast_snoc. cbn. rewrite onLast_snoc.
  destruct (main.addResources W _ poolResources) as [c1|] eqn:E1; [|done]. cbn.
  rewrite onLast_snoc.
  destruct (main.addResourcesLimits W cfg c1) as [c2|] eqn:E2; [|done]. cbn.
  apply addResourcesLimits_inv in E2 as (lcpu & lmem & rcpu & rmem & _ & ->).
  rewrite (addResources_frame W _ c1 _ E1).
  intros Hl'. exists l, lcpu, lmem, rcpu, rmem. split; [done|].
  unfold injectedContainer. case_decide.
  - rewrite onLast_snoc in Hl'. cbn in Hl'. by injection Hl' as <-.
  - by injection Hl' as <-.
Qed.

Lemma foldl_append_inv (step : outcome (list Container.t) → string → outcome (list Container.t))
    (shape : string → Container.t → Prop) (imgs : list string)
    (acc : outcome (list Container.t)) (l' : list Container.t) :
  (∀ acc img l', step acc img = Ok l' →
                 ∃ l c, acc = Ok l ∧ l' = l ++ [c] ∧ shape img c) →
  foldl step acc imgs = Ok l' →
  ∃ l added, acc = Ok l ∧ l' = l ++ added ∧ Forall2 shape imgs added.
Proof.
  intros Hstep. revert acc. induction imgs as [|img imgs IH]; intros acc; cbn.
  - intros ->. exists l', []. rewrite app_nil_r. by split_and!.
  - intros Hrun. apply IH in Hrun as (l1 & added & Hacc & -> & Hall).
    apply Hstep in Hacc as (l & c & -> & -> & Hc).
    exists l, (c :: added). rewrite <-app_assoc. split_and!; try done.
    by constructor.
Qed.

(** X16.  The patch document of a request that reaches serialization is
    made of exactly four "add" operations, in this order and all rooted at
    the same path: the init containers, the containers, the volumes and the
    labels.  The first two re-emit the workload's own list followed by one
    injected container per configured image; every injected container, init
    or not, carries the same env vars: the resolved ones, then the mesh-URL
    variable holding the effective annotation, then NSM_NAME, which refers to
    the pod name alone when the workload has a generate-name and is suffixed
    with a fresh UUID otherwise.  The last re-emits the workload's labels
    overlaid with the configured ones. *)
Theorem X16_patch_document (W : World) (in_ : AdmissionRequest.t)
    (s s1 : main.admissionWebhookServer W) (ops : list JsonPatchOperation.t) :
  reachesMarshal W in_ s ops s1 →
  ∃ podMeta spec annotation envs labels inits conts,
    main.unmarshal W in_ = Ok (Some (podMeta, spec))
    ∧ effectiveOf in_ s podMeta = Some annotation
    ∧ fst (config.GetOrResolveEnvs W (main.config_ W s)) = Ok envs
    ∧ ObjectMeta.Labels podMeta = Some labels
    ∧ let cfg := main.config_ W s1 in
      let root := patchRoot W in_ in
      let level := main.psaLevelByNamespace
                     (Namespaces_Get W (AdmissionRequest.Namespace in_)) in
      let envVars :=
        envs ++
        [ EnvVar.mk (config.NSURLEnvName cfg) annotation None;
          EnvVar.mk "NSM_NAME"
            (if String.eqb (ObjectMeta.GenerateName podMeta) ""
             then "$(POD_NAME)-" +:+ uuid_NewString W else "$(POD_NAME)") None ] in
      ops = [ NewOperation "add" (path_Join W [root; "spec"; "initContainers"])
                (ContainersValue (PodSpec.InitContainers spec ++ inits));
              NewOperation "add" (path_Join W [root; "spec"; "containers"])
                (ContainersValue (PodSpec.Containers spec ++ conts));
              main.createVolumesPatch W root (PodSpec.Volumes spec) level;
              NewOperation "add" (path_Join W [root; "metadata"; "labels"])
                (LabelsValue (Some (config.Labels cfg ∪ labels))) ]
      ∧ Forall2 (λ img c, ∃ lcpu lmem rcpu rmem,
                   c = injectedContainer W img envVars level lcpu lmem rcpu rmem)
          (config.InitContainerImages cfg) inits
      ∧ Forall2 (λ img c, ∃ lcpu lmem rcpu rmem,
                   c = injectedContainer W img envVars level lcpu lmem rcpu rmem)
          (config.ContainerImages cfg) conts.
Proof.
  intros (Hop & podMeta & spec & a & envs & cfg & Hview & Heff & Hget & Hops & ->).
  pose proof (unmarshal_view_labels W in_ podMeta spec Hview) as Hlabels.
  apply patchOperations_inv in Hops as (o1 & o2 & o4 & Hinit & Hcont & Hlab & ->).
  set (envVars := main.sidecarEnvVars W cfg envs a podMeta) in *.
  assert (envVars
          = envs ++
            [ EnvVar.mk (config.NSURLEnvName cfg) a None;
              EnvVar.mk "NSM_NAME"
                (if String.eqb (ObjectMeta.GenerateName podMeta) ""
                 then "$(POD_NAME)-" +:+ uuid_NewString W else "$(POD_NAME)") None ])
    as HenvVars.
  { unfold envVars, main.sidecarEnvVars.
    by destruct (String.eqb (ObjectMeta.GenerateName podMeta) ""). }
  unfold main.createInitContainerPatch in Hinit.
  destruct (foldl _ _ (config.InitContainerImages cfg)) as [li|] eqn:Hfi; [|done].
  apply (foldl_append_inv _
           (λ img c, ∃ lcpu lmem rcpu rmem,
              c = injectedContainer W img envVars
                    (main.psaLevelByNamespace
                       (Namespaces_Get W (AdmissionRequest.Namespace in_)))
                    lcpu lmem rcpu rmem)) in Hfi
    as (l0 & inits & [= <-] & -> & Hinits).
  2:{ intros acc img l' Hstep.
      apply appendInitContainer_inv in Hstep as (l & q1 & q2 & q3 & q4 & -> & ->).
      eexists _, _. split_and!; [done..|]. by exists q1, q2, q3, q4. }
  unfold main.createContainerPatch in Hcont.
  destruct (foldl _ _ (config.ContainerImages cfg)) as [lc|] eqn:Hfc; [|done].
  apply (foldl_append_inv _
           (λ img c, ∃ lcpu lmem rcpu rmem,
              c = injectedContainer W img envVars
                    (main.psaLevelByNamespace
                       (Namespaces_Get W (AdmissionRequest.Namespace in_)))
                    lcpu lmem rcpu rmem)) in Hfc
    as (l0 & conts & [= <-] & -> & Hconts).
  2:{ intros acc img l' Hstep.
      apply appendContainer_inv in Hstep as (l & q1 & q2 & q3 & q4 & -> & ->).
      eexists _, _. split_and!; [done..|]. by exists q1, q2, q3, q4. }
  rewrite Hlabels, createLabelPatch_merge in Hlab.
  cbn in Hinit, Hcont. injection Hinit as <-. injection Hcont as <-.
  injection Hlab as <-.
  exists podMeta, spec, a, envs, (default ∅ (ObjectMeta.Labels podMeta)), inits, conts.
  split_and!; [done|done|by rewrite Hget|done|].
  cbn [main.config_]. rewrite <-HenvVars. by split_and!.
Qed.

Lemma X16_patch_document_witness :
  let W := fixedWorld (Some annotatedPod) None None marshalOk in
  let s := main.mkServer W (defaultConfig W [] config.SpireMode) [] in
  ∃ ops s1, reachesMarshal W (createRequest "Pod") s ops s1
            ∧ length ops = 4%nat
            ∧ JsonPatchOperation.Operation <$> ops = ["add"; "add"; "add"; "add"].
Proof.
  intros W s. destruct (annotatedPod_reaches marshalOk) as [ops Hreach].
  eexists ops, _. split; [exact Hreach|].
  destruct (X16_patch_document W (createRequest "Pod") s _ ops Hreach)
    as (pm & spec & a & envs & labels & inits & conts & _ & _ & _ & _ & -> & _).
  split; [reflexivity|]. vm_compute. reflexivity.
Defined.

(** ** The security level, exactly *)

(** X18.  The level of a namespace is read off its enforcement label by
    exact comparison: Restricted for "restricted", Baseline for "baseline",
    and Privileged for everything else, "privileged" itself, a missing label
    and a differently cased name included. *)
Theorem X18_psaLevel_exact (ns : Namespace.t) :
  let label := map_get (Namespace.Labels ns) psa.EnforceLevelLabel in
  (main.psaLevelByNamespace (Some ns) = psa.LevelRestricted ↔ label = "restricted")
  ∧ (main.psaLevelByNamespace (Some ns) = psa.LevelBaseline ↔ label = "baseline")
  ∧ (main.psaLevelByNamespace (Some ns) = psa.LevelPrivileged
     ↔ label ≠ "restricted" ∧ label ≠ "baseline").
Proof.
  intros label. unfold main.psaLevelByNamespace, psa.ParseLevel. fold label.
  destruct (String.eqb_spec label "privileged") as [->|Hp].
  { by split_and!; split; try done; intros []. }
  destruct (String.eqb_spec label "baseline") as [->|Hb].
  { split_and!; split; try done. by intros [_ ?]. }
  destruct (String.eqb_spec label "restricted") as [->|Hr].
  { split_and!; split; try done. by intros [? _]. }
  by split_and!; split.
Qed.

Lemma X18_psaLevel_exact_witness :
  main.psaLevelByNamespace
    (Some (Namespace.mk (Some {[ psa.EnforceLevelLabel := "Restricted" ]}) None))
  = psa.LevelPrivileged
  ∧ main.psaLevelByNamespace
      (Some (Namespace.mk (Some {[ psa.EnforceLevelLabel := "baseline" ]}) None))
    = psa.LevelBaseline.
Proof.
  split.
  - by apply (X18_psaLevel_exact
                (Namespace.mk (Some {[ psa.EnforceLevelLabel := "Restricted" ]}) None)).
  - by apply (X18_psaLevel_exact
                (Namespace.mk (Some {[ psa.EnforceLevelLabel := "baseline" ]}) None)).
Defined.

(** ** The settings are read-only *)

Section Settings.
Context (W : World).

Lemma keepsSettings_bind {A B} (m : M (config.Config W) A)
    (k : A → M (config.Config W) B) :
  keepsSettings W m → (∀ a, keepsSettings W (k a)) → keepsSettings W (m ≫= k).
Proof.
  intros Hm Hk c r c'. unfold mbind, M_bind.
  destruct (m c) as [[a|msg] c1] eqn:Hrun.
  - intros Hrun'. rewrite (Hk a c1 r c' Hrun'). by eapply Hm.
  - intros Hrun'. simplify_eq. by eapply Hm.
Qed.

Lemma keepsSettings_get_bind {B} (k : config.Config W → M (config.Config W) B) :
  (∀ c0, keepsSettings W (k c0)) → keepsSettings W (get ≫= k).
Proof.
  intros Hk. apply keepsSettings_bind; [|done].
  intros c r c' Hrun. unfold get in Hrun. by simplify_eq.
Qed.

Lemma keepsSettings_mret {A} (a : A) : keepsSettings W (mret a).
Proof. intros c r c' Hrun. unfold mret, M_ret, panic in Hrun. by simplify_eq. Qed.

Lemma keepsSettings_panic {A} (msg : string) : keepsSettings W (panic (A := A) msg).
Proof. intros c r c' Hrun. unfold mret, M_ret, panic in Hrun. by simplify_eq. Qed.

Lemma keepsSettings_modify (f : config.Config W → config.Config W) :
  (∀ c, settingsOf (f c) = settingsOf c) → keepsSettings W (modify f).
Proof. intros Hf c r c' Hrun. unfold modify in Hrun. simplify_eq. apply Hf. Qed.

Lemma keepsSettings_forM_ {A} (l : list A) (body : A → M (config.Config W) unit) :
  (∀ x, keepsSettings W (body x)) → keepsSettings W (forM_ l body).
Proof.
  intros Hbody. induction l as [|x l IH]; cbn [forM_].
  - apply keepsSettings_mret.
  - apply keepsSettings_bind; [apply Hbody|]. by intros _.
Qed.

Lemma keepsSettings_initialize : keepsSettings W (config.initialize W).
Proof.
  unfold config.initialize.
  apply keepsSettings_bind; [|intros _; apply keepsSettings_bind; [|intros _]].
  - unfold config.initializeEnvs. apply keepsSettings_get_bind. intros c0.
    apply keepsSettings_bind; [|intros _; by apply keepsSettings_modify].
    apply keepsSettings_forM_. intros envRaw. unfold config.appendEnv.
    repeat case_match; try apply keepsSettings_panic.
    by apply keepsSettings_modify.
  - unfold config.initializeCert. apply keepsSettings_get_bind. intros c0.
    repeat case_match; try apply keepsSettings_panic;
      try apply keepsSettings_mret; try by apply keepsSettings_modify.
    apply keepsSettings_bind; [|intros k; by apply keepsSettings_modify].
    unfold config.selfSignedInMemoryCertificate.
    apply keepsSettings_get_bind. intros c1.
    repeat case_match; try apply keepsSettings_panic.
    apply keepsSettings_bind; [by apply keepsSettings_modify|].
    intros _. apply keepsSettings_mret.
  - unfold config.initializeCABundle. apply keepsSettings_get_bind. intros c0.
    repeat case_match; try apply keepsSettings_panic;
      try apply keepsSettings_mret; by apply keepsSettings_modify.
Qed.

End Settings.

(** X19.  The one-time initialization, whether it returns or panics, changes
    nothing of a [Config] but the three memoized values and the once-flag:
    after a call of any accessor the settings (annotation key, labels, image
    lists, env entries, mode, file paths, quantities, ...) are those it had
    before. *)
Theorem X19_accessors_keep_settings (W : World) (c : config.Config W) :
  settingsOf (snd (config.GetOrResolveEnvs W c)) = settingsOf c
  ∧ settingsOf (snd (config.GetOrResolveCABundle W c)) = settingsOf c
  ∧ settingsOf (snd (config.GetOrResolveCertificate W c)) = settingsOf c
  ∧ ∀ c', settingsOf c' = settingsOf c →
          config.Annotation c' = config.Annotation c
          ∧ config.Labels c' = config.Labels c
          ∧ config.NSURLEnvName c' = config.NSURLEnvName c
          ∧ config.InitContainerImages c' = config.InitContainerImages c
          ∧ config.ContainerImages c' = config.ContainerImages c
          ∧ config.Envs c' = config.Envs c
          ∧ config.WebhookMode c' = config.WebhookMode c.
Proof.
  assert (keepsSettings W (config.once_Do W (config.initialize W))) as Honce.
  { intros c0 r c'. unfold config.once_Do.
    destruct (config.once c0); [intros Hrun; by simplify_eq|].
    destruct (config.initialize W c0) as [r1 c1] eqn:Hinit.
    intros Hrun. simplify_eq.
    by rewrite <-(keepsSettings_initialize W c0 _ _ Hinit). }
  split_and!.
  - eapply (keepsSettings_bind W _ _ Honce); [|apply surjective_pairing].
    intros []. apply keepsSettings_get_bind. intros c0. apply keepsSettings_mret.
  - eapply (keepsSettings_bind W _ _ Honce); [|apply surjective_pairing].
    intros []. apply keepsSettings_get_bind. intros c0. apply keepsSettings_mret.
  - eapply (keepsSettings_bind W _ _ Honce); [|apply surjective_pairing].
    intros []. apply keepsSettings_get_bind. intros c0. apply keepsSettings_mret.
  - intros c' Hsame. unfold settingsOf, config.with_memo in Hsame.
    injection Hsame as ? ? ? ? ? ? ? ? ? ? ? ? ? ? ? ?. by split_and!.
Qed.

Lemma X19_accessors_keep_settings_witness :
  let W := fixedWorld None None None marshalOk in
  let c := defaultConfig W ["VERBOSE"] config.SelfregisterMode in
  config.Annotation (snd (config.GetOrResolveEnvs W c)) = "networkservicemesh.io"
  ∧ config.ContainerImages (snd (config.GetOrResolveEnvs W c))
    = ["ghcr.io/networkservicemesh/cmd-nsc:v1"].
Proof.
  intros W c.
  destruct (X19_accessors_keep_settings W c) as (Hkeep & _ & _ & Hfields).
  destruct (Hfields _ Hkeep) as (Ha & _ & _ & _ & Hc & _).
  by rewrite Ha, Hc.
Defined.

(** ** When a request can crash the handler *)







